(** * Chronik client: wire codec and client conversion layer

    A shallow embedding of the TypeScript client of the chronik indexer:
    - [ts/chronik-client/chronik.ts]: the generated protobuf codec
      (module [proto] below),
    - [ts/chronik-client/index.ts]: [ChronikClient], [ScriptEndpoint],
      [WsEndpoint] and the conversion functions,
    - [chronik-http/proto/chronik.proto]: the schema file (module
      [RefSchema]).

    Conventions of the embedding.
    - A JavaScript [number] holding an integer is a [Z]; the 32-bit
      coercions [x | 0] and [x >>> 0] are written out ([toInt32],
      [toUint32]).
    - A [Uint8Array] is a [list byte].
    - A JavaScript [string] is a [string] holding its UTF-8 bytes, so that
      the UTF-8 transcoding done by the protobuf writer and reader is the
      identity on it.
    - A [Long] (package long) is the record of its three fields.
    - An exception is the [Throw] case of [result]. *)

From Stdlib Require Import ZArith List String Ascii Bool Lia DecimalString.
From Stdlib Require Import Strings.Byte.
Import ListNotations.
Open Scope Z_scope.

(** ** Values *)

Definition bytes := list byte.

Definition byte_to_Z (b : byte) : Z := Z.of_N (Byte.to_N b).

Definition byte_of_Z (z : Z) : byte :=
  match Byte.of_N (Z.to_N (z mod 256)) with
  | Some b => b
  | None => x00
  end.

(** [x | 0]: the signed 32-bit reading of a number. *)
Definition toInt32 (x : Z) : Z := (x + 2147483648) mod 4294967296 - 2147483648.

(** [x >>> 0]: the unsigned 32-bit reading of a number. *)
Definition toUint32 (x : Z) : Z := x mod 4294967296.

(** The class [Long] of package long: two signed 32-bit halves and a flag. *)
Record Long : Type := mkLong { low : Z; high : Z; unsigned : bool }.

Definition Long_ZERO : Long := mkLong 0 0 false.
Definition Long_UZERO : Long := mkLong 0 0 true.

Definition Long_isZero (l : Long) : bool := (high l =? 0) && (low l =? 0).

(** ** Exceptions *)

Inductive error : Type :=
| RangeError          (* protobufjs: index out of range *)
| InvalidVarint       (* protobufjs: invalid varint encoding *)
| InvalidWireType (wireType : Z)
| JsError (msg : string)   (* [throw new Error(msg)] *)
| OutOfFuel.          (* the embedding ran out of recursion budget *)

Inductive result (A : Type) : Type :=
| Ok (a : A)
| Throw (e : error).
Arguments Ok {A} a.
Arguments Throw {A} e.

Definition bind {A B : Type} (x : result A) (f : A -> result B) : result B :=
  match x with
  | Ok a => f a
  | Throw e => Throw e
  end.

Notation "x <- c1 ;; c2" := (bind c1 (fun x => c2))
  (at level 61, c1 at next level, right associativity).
Notation "' pat <- c1 ;; c2" := (bind c1 (fun x => match x with pat => c2 end))
  (at level 61, pat pattern, c1 at next level, right associativity).

(** [Array.prototype.map] with a callback that may throw: the first
    exception aborts the whole call. *)
Fixpoint mapM {A B : Type} (f : A -> result B) (l : list A) : result (list B) :=
  match l with
  | [] => Ok []
  | a :: l' => b <- f a ;; bs <- mapM f l' ;; Ok (b :: bs)
  end.

(** ** protobufjs/minimal: [Writer] and [Reader]

    protobufjs is an npm dependency of the client, not part of the
    repository.  Its writer and reader are embedded by the protobuf wire
    format they implement: base-128 varints, least significant group
    first, and length-delimited fields. *)
Module Wire.

(** The base-128 groups of a non-negative value, at most [n] of them. *)
Fixpoint varint (n : nat) (v : Z) : bytes :=
  match n with
  | O => []
  | S n' =>
      if v <? 128 then [byte_of_Z v]
      else byte_of_Z (v mod 128 + 128) :: varint n' (v / 128)
  end.

(** A 32-bit value takes at most five groups, a 64-bit one at most ten. *)
Definition varint32 (v : Z) : bytes := varint 5 v.
Definition varint64 (v : Z) : bytes := varint 10 v.

(** The 64 bits of a [Long] as an unsigned value ([LongBits]). *)
Definition LongBits (l : Long) : Z := toUint32 (low l) + 4294967296 * toUint32 (high l).

(** [LongBits.toLong(unsigned)]. *)
Definition toLong (v : Z) (u : bool) : Long :=
  mkLong (toInt32 v) (toInt32 (v / 4294967296)) u.

(** *** Writer: the bytes written so far and the stack of forked states *)
Record Writer : Type := mkWriter { buf : bytes; states : list bytes }.

Definition Writer_create : Writer := mkWriter [] [].

Definition push (bs : bytes) (w : Writer) : Writer :=
  mkWriter (buf w ++ bs) (states w).

Definition Writer_uint32 (value : Z) (w : Writer) : Writer :=
  push (varint32 (toUint32 value)) w.

(** A negative [int32] is written sign-extended to 64 bits. *)
Definition Writer_int32 (value : Z) (w : Writer) : Writer :=
  let value := toInt32 value in
  if value <? 0 then push (varint64 (value + 18446744073709551616)) w
  else push (varint32 value) w.

Definition Writer_uint64 (value : Long) (w : Writer) : Writer :=
  push (varint64 (LongBits value)) w.

Definition Writer_int64 : Long -> Writer -> Writer := Writer_uint64.

Definition Writer_bool (value : bool) (w : Writer) : Writer :=
  push [if value then x01 else x00] w.

Definition Writer_bytes (value : bytes) (w : Writer) : Writer :=
  push value (Writer_uint32 (Z.of_nat (List.length value)) w).

Definition Writer_string (value : string) (w : Writer) : Writer :=
  Writer_bytes (list_byte_of_string value) w.

Definition Writer_fork (w : Writer) : Writer :=
  mkWriter [] (buf w :: states w).

Definition Writer_reset (w : Writer) : Writer :=
  match states w with
  | [] => mkWriter [] []
  | saved :: st => mkWriter saved st
  end.

Definition Writer_ldelim (w : Writer) : Writer :=
  let body := buf w in
  push body (Writer_uint32 (Z.of_nat (List.length body)) (Writer_reset w)).

Definition Writer_finish (w : Writer) : bytes := buf w.

(** *** Reader: the position and the bytes from that position on
    ([len = pos + length rest]) *)
Record Reader : Type := mkReader { pos : nat; rest : bytes }.

Definition Reader_create (input : bytes) : Reader := mkReader 0 input.

Definition Reader_len (r : Reader) : nat := (pos r + List.length (rest r))%nat.

(** A varint of at most [n] groups; [m] is the weight of the next group. *)
Fixpoint read_varint (n : nat) (m acc : Z) (p : nat) (bs : bytes)
  : result (Z * Reader) :=
  match n with
  | O => Throw InvalidVarint
  | S n' =>
      match bs with
      | [] => Throw RangeError
      | b :: bs' =>
          let acc := acc + (byte_to_Z b mod 128) * m in
          if byte_to_Z b <? 128 then Ok (acc, mkReader (S p) bs')
          else read_varint n' (m * 128) acc (S p) bs'
      end
  end.

Definition Reader_varint (r : Reader) : result (Z * Reader) :=
  read_varint 10 1 0 (pos r) (rest r).

Definition Reader_uint32 (r : Reader) : result (Z * Reader) :=
  '(v, r) <- Reader_varint r ;; Ok (toUint32 v, r).

Definition Reader_int32 (r : Reader) : result (Z * Reader) :=
  '(v, r) <- Reader_varint r ;; Ok (toInt32 v, r).

Definition Reader_uint64 (r : Reader) : result (Long * Reader) :=
  '(v, r) <- Reader_varint r ;; Ok (toLong v true, r).

Definition Reader_int64 (r : Reader) : result (Long * Reader) :=
  '(v, r) <- Reader_varint r ;; Ok (toLong v false, r).

Definition Reader_bool (r : Reader) : result (bool * Reader) :=
  '(v, r) <- Reader_uint32 r ;; Ok (negb (v =? 0), r).

(** [skip(length)] *)
Definition Reader_skip (length : Z) (r : Reader) : result Reader :=
  let n := Z.to_nat length in
  if (List.length (rest r) <? n)%nat then Throw RangeError
  else Ok (mkReader (pos r + n) (skipn n (rest r))).

Definition Reader_bytes (r : Reader) : result (bytes * Reader) :=
  '(length, r) <- Reader_uint32 r ;;
  let n := Z.to_nat length in
  if (List.length (rest r) <? n)%nat then Throw RangeError
  else Ok (firstn n (rest r), mkReader (pos r + n) (skipn n (rest r))).

Definition Reader_string (r : Reader) : result (string * Reader) :=
  '(bs, r) <- Reader_bytes r ;; Ok (string_of_list_byte bs, r).

(** [skip()]: over one varint of any length. *)
Fixpoint skip_varint (p : nat) (bs : bytes) : result Reader :=
  match bs with
  | [] => Throw RangeError
  | b :: bs' =>
      if byte_to_Z b <? 128 then Ok (mkReader (S p) bs') else skip_varint (S p) bs'
  end.

(** [skipType(wireType)]; a group (wire type 3) is skipped up to its end
    marker (wire type 4). *)
Fixpoint Reader_skipType (fuel : nat) (wireType : Z) (r : Reader) : result Reader :=
  match fuel with
  | O => Throw OutOfFuel
  | S fuel' =>
      match wireType with
      | 0 => skip_varint (pos r) (rest r)
      | 1 => Reader_skip 8 r
      | 2 => '(length, r) <- Reader_uint32 r ;; Reader_skip length r
      | 3 =>
          (fix group (k : nat) (r : Reader) : result Reader :=
             match k with
             | O => Throw OutOfFuel
             | S k' =>
                 '(tag, r) <- Reader_uint32 r ;;
                 let wireType := Z.land tag 7 in
                 if wireType =? 4 then Ok r
                 else r <- Reader_skipType fuel' wireType r ;; group k' r
             end) fuel' r
      | 5 => Reader_skip 4 r
      | _ => Throw (InvalidWireType wireType)
      end
  end.

(** The loop every generated [decode] runs:
      [while (reader.pos < end) { const tag = reader.uint32(); switch (tag >>> 3) ... }]
    with the body of the switch as [field].  Nested [decode] calls share
    the recursion budget. *)
Fixpoint decode_loop {M : Type}
    (field : nat -> Z -> Reader -> M -> result (M * Reader))
    (fuel : nat) (end_ : nat) (reader : Reader) (message : M)
  : result (M * Reader) :=
  match fuel with
  | O => Throw OutOfFuel
  | S fuel' =>
      if (pos reader <? end_)%nat then
        '(tag, reader) <- Reader_uint32 reader ;;
        '(message, reader) <- field fuel' tag reader message ;;
        decode_loop field fuel' end_ reader message
      else Ok (message, reader)
  end.

(** [decode(input: Uint8Array)]: [end = reader.len]; every turn of a loop
    reads at least one byte, so the length of the input bounds the budget. *)
Definition decode_bytes {M : Type}
    (decode : nat -> Reader -> option Z -> result (M * Reader)) (input : bytes)
  : result M :=
  '(message, _) <- decode (S (List.length input)) (Reader_create input) None ;;
  Ok message.

(** [end = length === undefined ? reader.len : reader.pos + length] *)
Definition decode_end (reader : Reader) (length : option Z) : nat :=
  match length with
  | None => Reader_len reader
  | Some n => (pos reader + Z.to_nat n)%nat
  end.

(** *** The bytes the writer's calls append

    [key n t] is the tag of field number [n] with wire type [t]; the [f_]
    functions are the bytes of one field of a message, which the generated
    encoders leave out when the field holds its default value. *)
Definition enc_uint32 (v : Z) : bytes := varint32 (toUint32 v).

Definition enc_int32 (v : Z) : bytes :=
  if toInt32 v <? 0 then varint64 (toInt32 v + 18446744073709551616)
  else varint32 (toInt32 v).

Definition enc_uint64 (l : Long) : bytes := varint64 (LongBits l).

Definition enc_bool (b : bool) : bytes := [if b then x01 else x00].

Definition enc_bytes (bs : bytes) : bytes :=
  enc_uint32 (Z.of_nat (List.length bs)) ++ bs.

Definition key (fieldNo wireType : Z) : bytes := enc_uint32 (fieldNo * 8 + wireType).

Definition f_bytes (n : Z) (bs : bytes) : bytes :=
  if negb (List.length bs =? 0)%nat then key n 2 ++ enc_bytes bs else [].

Definition f_string (n : Z) (s : string) : bytes :=
  if negb (s =? "")%string then key n 2 ++ enc_bytes (list_byte_of_string s) else [].

Definition f_uint32 (n : Z) (v : Z) : bytes :=
  if negb (v =? 0) then key n 0 ++ enc_uint32 v else [].

Definition f_int32 (n : Z) (v : Z) : bytes :=
  if negb (v =? 0) then key n 0 ++ enc_int32 v else [].

Definition f_int64 (n : Z) (l : Long) : bytes :=
  if negb (Long_isZero l) then key n 0 ++ enc_uint64 l else [].

Definition f_bool (n : Z) (b : bool) : bytes :=
  if b then key n 0 ++ enc_bool b else [].

(** A nested message, given by its own bytes. *)
Definition f_msg (n : Z) (body : option bytes) : bytes :=
  match body with
  | Some body => key n 2 ++ enc_bytes body
  | None => []
  end.

(** A repeated nested message. *)
Definition f_rep (n : Z) (bodies : list bytes) : bytes :=
  List.concat (map (fun body => key n 2 ++ enc_bytes body) bodies).

End Wire.

(** ** Well-formed values

    The ranges the schema declares: a [Long] holds two signed 32-bit halves
    and the signedness of its field's type; a byte string or an encoded
    nested message has a length the writer's [uint32] length prefix can
    hold. *)
Definition int32_range (v : Z) : Prop := -2147483648 <= v < 2147483648.
Definition uint32_range (v : Z) : Prop := 0 <= v < 4294967296.

Definition Long_wf (u : bool) (l : Long) : Prop :=
  int32_range (low l) /\ int32_range (high l) /\ unsigned l = u.

Definition fits (bs : bytes) : Prop := Z.of_nat (List.length bs) < 4294967296.

Definition opt_wf {N : Type} (wf : N -> Prop) (wire : N -> bytes) (o : option N) : Prop :=
  match o with
  | Some x => wf x /\ fits (wire x)
  | None => True
  end.

Definition list_wf {N : Type} (wf : N -> Prop) (wire : N -> bytes) (l : list N) : Prop :=
  Forall (fun x => wf x /\ fits (wire x)) l.

(** ** chronik.ts: the generated codec

    One module per message, as the source has one object per message with
    [encode] and [decode].  In each module [t] is the interface, [base] the
    message [decode] starts from ([{ ...baseX }] and the assignments before
    the loop), [field] the body of the [switch] in [decode].  [wire] gives
    the bytes of a message field by field and [wf] the well-formed
    messages; they serve the statements below. *)
Module proto.
Import Wire.

(** *** Enums *)
Module SlpTokenType.
Definition FUNGIBLE : Z := 0.
Definition NFT1_GROUP : Z := 1.
Definition NFT1_CHILD : Z := 2.
Definition UNKNOWN_TOKEN_TYPE : Z := 3.
Definition UNRECOGNIZED : Z := -1.
End SlpTokenType.

Module SlpTxType.
Definition GENESIS : Z := 0.
Definition SEND : Z := 1.
Definition MINT : Z := 2.
Definition UNKNOWN_TX_TYPE : Z := 3.
Definition UNRECOGNIZED : Z := -1.
End SlpTxType.

Module Network.
Definition BCH : Z := 0.
Definition XEC : Z := 1.
Definition XPI : Z := 2.
Definition XRG : Z := 3.
Definition UNRECOGNIZED : Z := -1.
End Network.

Module UtxoStateVariant.
Definition UNSPENT : Z := 0.
Definition SPENT : Z := 1.
Definition NO_SUCH_TX : Z := 2.
Definition NO_SUCH_OUTPUT : Z := 3.
Definition UNRECOGNIZED : Z := -1.
End UtxoStateVariant.

(** *** OutPoint *)
Module OutPoint.
Record t : Type := mk { txid : bytes; outIdx : Z }.

Definition base : t := mk [] 0.

Definition with_txid (v : bytes) (m : t) : t :=
  mk v (outIdx m).
Definition with_outIdx (v : Z) (m : t) : t :=
  mk (txid m) v.

Definition encode (message : t) (writer : Writer) : Writer :=
  let writer :=
    if negb (List.length (txid message) =? 0)%nat
    then Writer_bytes (txid message) (Writer_uint32 10 writer) else writer in
  let writer :=
    if negb (outIdx message =? 0)
    then Writer_uint32 (outIdx message) (Writer_uint32 16 writer) else writer in
  writer.

Definition field (fuel : nat) (tag : Z) (reader : Reader) (message : t)
  : result (t * Reader) :=
  match Z.shiftr tag 3 with
  | 1 => '(v, reader) <- Reader_bytes reader ;; Ok (with_txid v message, reader)
  | 2 => '(v, reader) <- Reader_uint32 reader ;; Ok (with_outIdx v message, reader)
  | _ => reader <- Reader_skipType fuel (Z.land tag 7) reader ;; Ok (message, reader)
  end.

Definition decode (fuel : nat) (reader : Reader) (length : option Z)
  : result (t * Reader) :=
  decode_loop field fuel (decode_end reader length) reader base.

Definition wire (m : t) : bytes :=
  f_bytes 1 (txid m)
  ++ f_uint32 2 (outIdx m).

Definition wf (m : t) : Prop :=
  fits (txid m)
  /\ uint32_range (outIdx m).
End OutPoint.

(** *** SlpToken *)
Module SlpToken.
Record t : Type := mk { amount : Long; isMintBaton : bool }.

Definition base : t := mk Long_UZERO false.

Definition with_amount (v : Long) (m : t) : t :=
  mk v (isMintBaton m).
Definition with_isMintBaton (v : bool) (m : t) : t :=
  mk (amount m) v.

Definition encode (message : t) (writer : Writer) : Writer :=
  let writer :=
    if negb (Long_isZero (amount message))
    then Writer_uint64 (amount message) (Writer_uint32 8 writer) else writer in
  let writer :=
    if isMintBaton message
    then Writer_bool (isMintBaton message) (Writer_uint32 16 writer) else writer in
  writer.

Definition field (fuel : nat) (tag : Z) (reader : Reader) (message : t)
  : result (t * Reader) :=
  match Z.shiftr tag 3 with
  | 1 => '(v, reader) <- Reader_uint64 reader ;; Ok (with_amount v message, reader)
  | 2 => '(v, reader) <- Reader_bool reader ;; Ok (with_isMintBaton v message, reader)
  | _ => reader <- Reader_skipType fuel (Z.land tag 7) reader ;; Ok (message, reader)
  end.

Definition decode (fuel : nat) (reader : Reader) (length : option Z)
  : result (t * Reader) :=
  decode_loop field fuel (decode_end reader length) reader base.

Definition wire (m : t) : bytes :=
  f_int64 1 (amount m)
  ++ f_bool 2 (isMintBaton m).

Definition wf (m : t) : Prop :=
  Long_wf true (amount m).
End SlpToken.

(** *** SlpBurn *)
Module SlpBurn.
Record t : Type := mk { token : option SlpToken.t; tokenId : bytes }.

Definition base : t := mk None [].

Definition with_token (v : option SlpToken.t) (m : t) : t :=
  mk v (tokenId m).
Definition with_tokenId (v : bytes) (m : t) : t :=
  mk (token m) v.

Definition encode (message : t) (writer : Writer) : Writer :=
  let writer :=
    match token message with
    | Some v =>
        Writer_ldelim (SlpToken.encode v (Writer_fork (Writer_uint32 10 writer)))
    | None => writer
    end in
  let writer :=
    if negb (List.length (tokenId message) =? 0)%nat
    then Writer_bytes (tokenId message) (Writer_uint32 18 writer) else writer in
  writer.

Definition field (fuel : nat) (tag : Z) (reader : Reader) (message : t)
  : result (t * Reader) :=
  match Z.shiftr tag 3 with
  | 1 =>
      '(length, reader) <- Reader_uint32 reader ;;
      '(v, reader) <- SlpToken.decode fuel reader (Some length) ;;
      Ok (with_token (Some v) message, reader)
  | 2 => '(v, reader) <- Reader_bytes reader ;; Ok (with_tokenId v message, reader)
  | _ => reader <- Reader_skipType fuel (Z.land tag 7) reader ;; Ok (message, reader)
  end.

Definition decode (fuel : nat) (reader : Reader) (length : option Z)
  : result (t * Reader) :=
  decode_loop field fuel (decode_end reader length) reader base.

Definition wire (m : t) : bytes :=
  f_msg 1 (option_map SlpToken.wire (token m))
  ++ f_bytes 2 (tokenId m).

Definition wf (m : t) : Prop :=
  opt_wf SlpToken.wf SlpToken.wire (token m)
  /\ fits (tokenId m).
End SlpBurn.

(** *** SlpGenesisInfo *)
Module SlpGenesisInfo.
Record t : Type := mk {
  tokenTicker : bytes;
  tokenName : bytes;
  tokenDocumentUrl : bytes;
  tokenDocumentHash : bytes;
  decimals : Z
}.

Definition base : t := mk [] [] [] [] 0.

Definition with_tokenTicker (v : bytes) (m : t) : t :=
  mk v (tokenName m) (tokenDocumentUrl m) (tokenDocumentHash m) (decimals m).
Definition with_tokenName (v : bytes) (m : t) : t :=
  mk (tokenTicker m) v (tokenDocumentUrl m) (tokenDocumentHash m) (decimals m).
Definition with_tokenDocumentUrl (v : bytes) (m : t) : t :=
  mk (tokenTicker m) (tokenName m) v (tokenDocumentHash m) (decimals m).
Definition with_tokenDocumentHash (v : bytes) (m : t) : t :=
  mk (tokenTicker m) (tokenName m) (tokenDocumentUrl m) v (decimals m).
Definition with_decimals (v : Z) (m : t) : t :=
  mk (tokenTicker m) (tokenName m) (tokenDocumentUrl m) (tokenDocumentHash m) v.

Definition encode (message : t) (writer : Writer) : Writer :=
  let writer :=
    if negb (List.length (tokenTicker message) =? 0)%nat
    then Writer_bytes (tokenTicker message) (Writer_uint32 10 writer) else writer in
  let writer :=
    if negb (List.length (tokenName message) =? 0)%nat
    then Writer_bytes (tokenName message) (Writer_uint32 18 writer) else writer in
  let writer :=
    if negb (List.length (tokenDocumentUrl message) =? 0)%nat
    then Writer_bytes (tokenDocumentUrl message) (Writer_uint32 26 writer) else writer in
  let writer :=
    if negb (List.length (tokenDocumentHash message) =? 0)%nat
    then Writer_bytes (tokenDocumentHash message) (Writer_uint32 34 writer) else writer in
  let writer :=
    if negb (decimals message =? 0)
    then Writer_uint32 (decimals message) (Writer_uint32 40 writer) else writer in
  writer.

Definition field (fuel : nat) (tag : Z) (reader : Reader) (message : t)
  : result (t * Reader) :=
  match Z.shiftr tag 3 with
  | 1 => '(v, reader) <- Reader_bytes reader ;; Ok (with_tokenTicker v message, reader)
  | 2 => '(v, reader) <- Reader_bytes reader ;; Ok (with_tokenName v message, reader)
  | 3 => '(v, reader) <- Reader_bytes reader ;; Ok (with_tokenDocumentUrl v message, reader)
  | 4 => '(v, reader) <- Reader_bytes reader ;; Ok (with_tokenDocumentHash v message, reader)
  | 5 => '(v, reader) <- Reader_uint32 reader ;; Ok (with_decimals v message, reader)
  | _ => reader <- Reader_skipType fuel (Z.land tag 7) reader ;; Ok (message, reader)
  end.

Definition decode (fuel : nat) (reader : Reader) (length : option Z)
  : result (t * Reader) :=
  decode_loop field fuel (decode_end reader length) reader base.

Definition wire (m : t) : bytes :=
  f_bytes 1 (tokenTicker m)
  ++ f_bytes 2 (tokenName m)
  ++ f_bytes 3 (tokenDocumentUrl m)
  ++ f_bytes 4 (tokenDocumentHash m)
  ++ f_uint32 5 (decimals m).

Definition wf (m : t) : Prop :=
  fits (tokenTicker m)
  /\ fits (tokenName m)
  /\ fits (tokenDocumentUrl m)
  /\ fits (tokenDocumentHash m)
  /\ uint32_range (decimals m).
End SlpGenesisInfo.

(** *** SlpMeta *)
Module SlpMeta.
Record t : Type := mk {
  tokenType : Z;
  txType : Z;
  tokenId : bytes;
  groupTokenId : bytes
}.

Definition base : t := mk 0 0 [] [].

Definition with_tokenType (v : Z) (m : t) : t :=
  mk v (txType m) (tokenId m) (groupTokenId m).
Definition with_txType (v : Z) (m : t) : t :=
  mk (tokenType m) v (tokenId m) (groupTokenId m).
Definition with_tokenId (v : bytes) (m : t) : t :=
  mk (tokenType m) (txType m) v (groupTokenId m).
Definition with_groupTokenId (v : bytes) (m : t) : t :=
  mk (tokenType m) (txType m) (tokenId m) v.

Definition encode (message : t) (writer : Writer) : Writer :=
  let writer :=
    if negb (tokenType message =? 0)
    then Writer_int32 (tokenType message) (Writer_uint32 8 writer) else writer in
  let writer :=
    if negb (txType message =? 0)
    then Writer_int32 (txType message) (Writer_uint32 16 writer) else writer in
  let writer :=
    if negb (List.length (tokenId message) =? 0)%nat
    then Writer_bytes (tokenId message) (Writer_uint32 26 writer) else writer in
  let writer :=
    if negb (List.length (groupTokenId message) =? 0)%nat
    then Writer_bytes (groupTokenId message) (Writer_uint32 34 writer) else writer in
  writer.

Definition field (fuel : nat) (tag : Z) (reader : Reader) (message : t)
  : result (t * Reader) :=
  match Z.shiftr tag 3 with
  | 1 => '(v, reader) <- Reader_int32 reader ;; Ok (with_tokenType v message, reader)
  | 2 => '(v, reader) <- Reader_int32 reader ;; Ok (with_txType v message, reader)
  | 3 => '(v, reader) <- Reader_bytes reader ;; Ok (with_tokenId v message, reader)
  | 4 => '(v, reader) <- Reader_bytes reader ;; Ok (with_groupTokenId v message, reader)
  | _ => reader <- Reader_skipType fuel (Z.land tag 7) reader ;; Ok (message, reader)
  end.

Definition decode (fuel : nat) (reader : Reader) (length : option Z)
  : result (t * Reader) :=
  decode_loop field fuel (decode_end reader length) reader base.

Definition wire (m : t) : bytes :=
  f_int32 1 (tokenType m)
  ++ f_int32 2 (txType m)
  ++ f_bytes 3 (tokenId m)
  ++ f_bytes 4 (groupTokenId m).

Definition wf (m : t) : Prop :=
  int32_range (tokenType m)
  /\ int32_range (txType m)
  /\ fits (tokenId m)
  /\ fits (groupTokenId m).
End SlpMeta.

(** *** SlpTxData *)
Module SlpTxData.
Record t : Type := mk { slpMeta : option SlpMeta.t; genesisInfo : option SlpGenesisInfo.t }.

Definition base : t := mk None None.

Definition with_slpMeta (v : option SlpMeta.t) (m : t) : t :=
  mk v (genesisInfo m).
Definition with_genesisInfo (v : option SlpGenesisInfo.t) (m : t) : t :=
  mk (slpMeta m) v.

Definition encode (message : t) (writer : Writer) : Writer :=
  let writer :=
    match slpMeta message with
    | Some v =>
        Writer_ldelim (SlpMeta.encode v (Writer_fork (Writer_uint32 10 writer)))
    | None => writer
    end in
  let writer :=
    match genesisInfo message with
    | Some v =>
        Writer_ldelim (SlpGenesisInfo.encode v (Writer_fork (Writer_uint32 18 writer)))
    | None => writer
    end in
  writer.

Definition field (fuel : nat) (tag : Z) (reader : Reader) (message : t)
  : result (t * Reader) :=
  match Z.shiftr tag 3 with
  | 1 =>
      '(length, reader) <- Reader_uint32 reader ;;
      '(v, reader) <- SlpMeta.decode fuel reader (Some length) ;;
      Ok (with_slpMeta (Some v) message, reader)
  | 2 =>
      '(length, reader) <- Reader_uint32 reader ;;
      '(v, reader) <- SlpGenesisInfo.decode fuel reader (Some length) ;;
      Ok (with_genesisInfo (Some v) message, reader)
  | _ => reader <- Reader_skipType fuel (Z.land tag 7) reader ;; Ok (message, reader)
  end.

Definition decode (fuel : nat) (reader : Reader) (length : option Z)
  : result (t * Reader) :=
  decode_loop field fuel (decode_end reader length) reader base.

Definition wire (m : t) : bytes :=
  f_msg 1 (option_map SlpMeta.wire (slpMeta m))
  ++ f_msg 2 (option_map SlpGenesisInfo.wire (genesisInfo m)).

Definition wf (m : t) : Prop :=
  opt_wf SlpMeta.wf SlpMeta.wire (slpMeta m)
  /\ opt_wf SlpGenesisInfo.wf SlpGenesisInfo.wire (genesisInfo m).
End SlpTxData.

(** *** BlockMetadata *)
Module BlockMetadata.
Record t : Type := mk { height : Z; hash : bytes; timestamp : Long }.

Definition base : t := mk 0 [] Long_ZERO.

Definition with_height (v : Z) (m : t) : t :=
  mk v (hash m) (timestamp m).
Definition with_hash (v : bytes) (m : t) : t :=
  mk (height m) v (timestamp m).
Definition with_timestamp (v : Long) (m : t) : t :=
  mk (height m) (hash m) v.

Definition encode (message : t) (writer : Writer) : Writer :=
  let writer :=
    if negb (height message =? 0)
    then Writer_int32 (height message) (Writer_uint32 8 writer) else writer in
  let writer :=
    if negb (List.length (hash message) =? 0)%nat
    then Writer_bytes (hash message) (Writer_uint32 18 writer) else writer in
  let writer :=
    if negb (Long_isZero (timestamp message))
    then Writer_int64 (timestamp message) (Writer_uint32 24 writer) else writer in
  writer.

Definition field (fuel : nat) (tag : Z) (reader : Reader) (message : t)
  : result (t * Reader) :=
  match Z.shiftr tag 3 with
  | 1 => '(v, reader) <- Reader_int32 reader ;; Ok (with_height v message, reader)
  | 2 => '(v, reader) <- Reader_bytes reader ;; Ok (with_hash v message, reader)
  | 3 => '(v, reader) <- Reader_int64 reader ;; Ok (with_timestamp v message, reader)
  | _ => reader <- Reader_skipType fuel (Z.land tag 7) reader ;; Ok (message, reader)
  end.

Definition decode (fuel : nat) (reader : Reader) (length : option Z)
  : result (t * Reader) :=
  decode_loop field fuel (decode_end reader length) reader base.

Definition wire (m : t) : bytes :=
  f_int32 1 (height m)
  ++ f_bytes 2 (hash m)
  ++ f_int64 3 (timestamp m).

Definition wf (m : t) : Prop :=
  int32_range (height m)
  /\ fits (hash m)
  /\ Long_wf false (timestamp m).
End BlockMetadata.

(** *** TxInput *)
Module TxInput.
Record t : Type := mk {
  prevOut : option OutPoint.t;
  inputScript : bytes;
  outputScript : bytes;
  value : Long;
  sequenceNo : Z;
  slpBurn : option SlpBurn.t;
  slpToken : option SlpToken.t
}.

Definition base : t := mk None [] [] Long_ZERO 0 None None.

Definition with_prevOut (v : option OutPoint.t) (m : t) : t :=
  mk v (inputScript m) (outputScript m) (value m) (sequenceNo m) (slpBurn m)
     (slpToken m).
Definition with_inputScript (v : bytes) (m : t) : t :=
  mk (prevOut m) v (outputScript m) (value m) (sequenceNo m) (slpBurn m) (slpToken m).
Definition with_outputScript (v : bytes) (m : t) : t :=
  mk (prevOut m) (inputScript m) v (value m) (sequenceNo m) (slpBurn m) (slpToken m).
Definition with_value (v : Long) (m : t) : t :=
  mk (prevOut m) (inputScript m) (outputScript m) v (sequenceNo m) (slpBurn m)
     (slpToken m).
Definition with_sequenceNo (v : Z) (m : t) : t :=
  mk (prevOut m) (inputScript m) (outputScript m) (value m) v (slpBurn m) (slpToken m).
Definition with_slpBurn (v : option SlpBurn.t) (m : t) : t :=
  mk (prevOut m) (inputScript m) (outputScript m) (value m) (sequenceNo m) v
     (slpToken m).
Definition with_slpToken (v : option SlpToken.t) (m : t) : t :=
  mk (prevOut m) (inputScript m) (outputScript m) (value m) (sequenceNo m) (slpBurn m) v.

Definition encode (message : t) (writer : Writer) : Writer :=
  let writer :=
    match prevOut message with
    | Some v =>
        Writer_ldelim (OutPoint.encode v (Writer_fork (Writer_uint32 10 writer)))
    | None => writer
    end in
  let writer :=
    if negb (List.length (inputScript message) =? 0)%nat
    then Writer_bytes (inputScript message) (Writer_uint32 18 writer) else writer in
  let writer :=
    if negb (List.length (outputScript message) =? 0)%nat
    then Writer_bytes (outputScript message) (Writer_uint32 26 writer) else writer in
  let writer :=
    if negb (Long_isZero (value message))
    then Writer_int64 (value message) (Writer_uint32 32 writer) else writer in
  let writer :=
    if negb (sequenceNo message =? 0)
    then Writer_uint32 (sequenceNo message) (Writer_uint32 40 writer) else writer in
  let writer :=
    match slpBurn message with
    | Some v =>
        Writer_ldelim (SlpBurn.encode v (Writer_fork (Writer_uint32 50 writer)))
    | None => writer
    end in
  let writer :=
    match slpToken message with
    | Some v =>
        Writer_ldelim (SlpToken.encode v (Writer_fork (Writer_uint32 58 writer)))
    | None => writer
    end in
  writer.

Definition field (fuel : nat) (tag : Z) (reader : Reader) (message : t)
  : result (t * Reader) :=
  match Z.shiftr tag 3 with
  | 1 =>
      '(length, reader) <- Reader_uint32 reader ;;
      '(v, reader) <- OutPoint.decode fuel reader (Some length) ;;
      Ok (with_prevOut (Some v) message, reader)
  | 2 => '(v, reader) <- Reader_bytes reader ;; Ok (with_inputScript v message, reader)
  | 3 => '(v, reader) <- Reader_bytes reader ;; Ok (with_outputScript v message, reader)
  | 4 => '(v, reader) <- Reader_int64 reader ;; Ok (with_value v message, reader)
  | 5 => '(v, reader) <- Reader_uint32 reader ;; Ok (with_sequenceNo v message, reader)
  | 6 =>
      '(length, reader) <- Reader_uint32 reader ;;
      '(v, reader) <- SlpBurn.decode fuel reader (Some length) ;;
      Ok (with_slpBurn (Some v) message, reader)
  | 7 =>
      '(length, reader) <- Reader_uint32 reader ;;
      '(v, reader) <- SlpToken.decode fuel reader (Some length) ;;
      Ok (with_slpToken (Some v) message, reader)
  | _ => reader <- Reader_skipType fuel (Z.land tag 7) reader ;; Ok (message, reader)
  end.

Definition decode (fuel : nat) (reader : Reader) (length : option Z)
  : result (t * Reader) :=
  decode_loop field fuel (decode_end reader length) reader base.

Definition wire (m : t) : bytes :=
  f_msg 1 (option_map OutPoint.wire (prevOut m))
  ++ f_bytes 2 (inputScript m)
  ++ f_bytes 3 (outputScript m)
  ++ f_int64 4 (value m)
  ++ f_uint32 5 (sequenceNo m)
  ++ f_msg 6 (option_map SlpBurn.wire (slpBurn m))
  ++ f_msg 7 (option_map SlpToken.wire (slpToken m)).

Definition wf (m : t) : Prop :=
  opt_wf OutPoint.wf OutPoint.wire (prevOut m)
  /\ fits (inputScript m)
  /\ fits (outputScript m)
  /\ Long_wf false (value m)
  /\ uint32_range (sequenceNo m)
  /\ opt_wf SlpBurn.wf SlpBurn.wire (slpBurn m)
  /\ opt_wf SlpToken.wf SlpToken.wire (slpToken m).
End TxInput.

(** *** TxOutput *)
Module TxOutput.
Record t : Type := mk {
  value : Long;
  outputScript : bytes;
  slpToken : option SlpToken.t;
  spentBy : option OutPoint.t
}.

Definition base : t := mk Long_ZERO [] None None.

Definition with_value (v : Long) (m : t) : t :=
  mk v (outputScript m) (slpToken m) (spentBy m).
Definition with_outputScript (v : bytes) (m : t) : t :=
  mk (value m) v (slpToken m) (spentBy m).
Definition with_slpToken (v : option SlpToken.t) (m : t) : t :=
  mk (value m) (outputScript m) v (spentBy m).
Definition with_spentBy (v : option OutPoint.t) (m : t) : t :=
  mk (value m) (outputScript m) (slpToken m) v.

Definition encode (message : t) (writer : Writer) : Writer :=
  let writer :=
    if negb (Long_isZero (value message))
    then Writer_int64 (value message) (Writer_uint32 8 writer) else writer in
  let writer :=
    if negb (List.length (outputScript message) =? 0)%nat
    then Writer_bytes (outputScript message) (Writer_uint32 18 writer) else writer in
  let writer :=
    match slpToken message with
    | Some v =>
        Writer_ldelim (SlpToken.encode v (Writer_fork (Writer_uint32 26 writer)))
    | None => writer
    end in
  let writer :=
    match spentBy message with
    | Some v =>
        Writer_ldelim (OutPoint.encode v (Writer_fork (Writer_uint32 34 writer)))
    | None => writer
    end in
  writer.

Definition field (fuel : nat) (tag : Z) (reader : Reader) (message : t)
  : result (t * Reader) :=
  match Z.shiftr tag 3 with
  | 1 => '(v, reader) <- Reader_int64 reader ;; Ok (with_value v message, reader)
  | 2 => '(v, reader) <- Reader_bytes reader ;; Ok (with_outputScript v message, reader)
  | 3 =>
      '(length, reader) <- Reader_uint32 reader ;;
      '(v, reader) <- SlpToken.decode fuel reader (Some length) ;;
      Ok (with_slpToken (Some v) message, reader)
  | 4 =>
      '(length, reader) <- Reader_uint32 reader ;;
      '(v, reader) <- OutPoint.decode fuel reader (Some length) ;;
      Ok (with_spentBy (Some v) message, reader)
  | _ => reader <- Reader_skipType fuel (Z.land tag 7) reader ;; Ok (message, reader)
  end.

Definition decode (fuel : nat) (reader : Reader) (length : option Z)
  : result (t * Reader) :=
  decode_loop field fuel (decode_end reader length) reader base.

Definition wire (m : t) : bytes :=
  f_int64 1 (value m)
  ++ f_bytes 2 (outputScript m)
  ++ f_msg 3 (option_map SlpToken.wire (slpToken m))
  ++ f_msg 4 (option_map OutPoint.wire (spentBy m)).

Definition wf (m : t) : Prop :=
  Long_wf false (value m)
  /\ fits (outputScript m)
  /\ opt_wf SlpToken.wf SlpToken.wire (slpToken m)
  /\ opt_wf OutPoint.wf OutPoint.wire (spentBy m).
End TxOutput.

(** *** Tx *)
Module Tx.
Record t : Type := mk {
  txid : bytes;
  version : Z;
  inputs : list TxInput.t;
  outputs : list TxOutput.t;
  lockTime : Z;
  slpTxData : option SlpTxData.t;
  slpErrorMsg : string;
  block : option BlockMetadata.t;
  timeFirstSeen : Long;
  network : Z
}.

Definition base : t := mk [] 0 [] [] 0 None "" None Long_ZERO 0.

Definition with_txid (v : bytes) (m : t) : t :=
  mk v (version m) (inputs m) (outputs m) (lockTime m) (slpTxData m) (slpErrorMsg m)
     (block m) (timeFirstSeen m) (network m).
Definition with_version (v : Z) (m : t) : t :=
  mk (txid m) v (inputs m) (outputs m) (lockTime m) (slpTxData m) (slpErrorMsg m)
     (block m) (timeFirstSeen m) (network m).
Definition with_inputs (v : list TxInput.t) (m : t) : t :=
  mk (txid m) (version m) v (outputs m) (lockTime m) (slpTxData m) (slpErrorMsg m)
     (block m) (timeFirstSeen m) (network m).
Definition with_outputs (v : list TxOutput.t) (m : t) : t :=
  mk (txid m) (version m) (inputs m) v (lockTime m) (slpTxData m) (slpErrorMsg m)
     (block m) (timeFirstSeen m) (network m).
Definition with_lockTime (v : Z) (m : t) : t :=
  mk (txid m) (version m) (inputs m) (outputs m) v (slpTxData m) (slpErrorMsg m)
     (block m) (timeFirstSeen m) (network m).
Definition with_slpTxData (v : option SlpTxData.t) (m : t) : t :=
  mk (txid m) (version m) (inputs m) (outputs m) (lockTime m) v (slpErrorMsg m)
     (block m) (timeFirstSeen m) (network m).
Definition with_slpErrorMsg (v : string) (m : t) : t :=
  mk (txid m) (version m) (inputs m) (outputs m) (lockTime m) (slpTxData m) v (block m)
     (timeFirstSeen m) (network m).
Definition with_block (v : option BlockMetadata.t) (m : t) : t :=
  mk (txid m) (version m) (inputs m) (outputs m) (lockTime m) (slpTxData m)
     (slpErrorMsg m) v (timeFirstSeen m) (network m).
Definition with_timeFirstSeen (v : Long) (m : t) : t :=
  mk (txid m) (version m) (inputs m) (outputs m) (lockTime m) (slpTxData m)
     (slpErrorMsg m) (block m) v (network m).
Definition with_network (v : Z) (m : t) : t :=
  mk (txid m) (version m) (inputs m) (outputs m) (lockTime m) (slpTxData m)
     (slpErrorMsg m) (block m) (timeFirstSeen m) v.

Definition encode (message : t) (writer : Writer) : Writer :=
  let writer :=
    if negb (List.length (txid message) =? 0)%nat
    then Writer_bytes (txid message) (Writer_uint32 10 writer) else writer in
  let writer :=
    if negb (version message =? 0)
    then Writer_int32 (version message) (Writer_uint32 16 writer) else writer in
  let writer :=
    fold_left
      (fun writer v =>
         Writer_ldelim (TxInput.encode v (Writer_fork (Writer_uint32 26 writer))))
      (inputs message) writer in
  let writer :=
    fold_left
      (fun writer v =>
         Writer_ldelim (TxOutput.encode v (Writer_fork (Writer_uint32 34 writer))))
      (outputs message) writer in
  let writer :=
    if negb (lockTime message =? 0)
    then Writer_uint32 (lockTime message) (Writer_uint32 40 writer) else writer in
  let writer :=
    match slpTxData message with
    | Some v =>
        Writer_ldelim (SlpTxData.encode v (Writer_fork (Writer_uint32 50 writer)))
    | None => writer
    end in
  let writer :=
    if negb (slpErrorMsg message =? "")%string
    then Writer_string (slpErrorMsg message) (Writer_uint32 58 writer) else writer in
  let writer :=
    match block message with
    | Some v =>
        Writer_ldelim (BlockMetadata.encode v (Writer_fork (Writer_uint32 66 writer)))
    | None => writer
    end in
  let writer :=
    if negb (Long_isZero (timeFirstSeen message))
    then Writer_int64 (timeFirstSeen message) (Writer_uint32 72 writer) else writer in
  let writer :=
    if negb (network message =? 0)
    then Writer_int32 (network message) (Writer_uint32 80 writer) else writer in
  writer.

Definition field (fuel : nat) (tag : Z) (reader : Reader) (message : t)
  : result (t * Reader) :=
  match Z.shiftr tag 3 with
  | 1 => '(v, reader) <- Reader_bytes reader ;; Ok (with_txid v message, reader)
  | 2 => '(v, reader) <- Reader_int32 reader ;; Ok (with_version v message, reader)
  | 3 =>
      '(length, reader) <- Reader_uint32 reader ;;
      '(v, reader) <- TxInput.decode fuel reader (Some length) ;;
      Ok (with_inputs (inputs message ++ [v]) message, reader)
  | 4 =>
      '(length, reader) <- Reader_uint32 reader ;;
      '(v, reader) <- TxOutput.decode fuel reader (Some length) ;;
      Ok (with_outputs (outputs message ++ [v]) message, reader)
  | 5 => '(v, reader) <- Reader_uint32 reader ;; Ok (with_lockTime v message, reader)
  | 6 =>
      '(length, reader) <- Reader_uint32 reader ;;
      '(v, reader) <- SlpTxData.decode fuel reader (Some length) ;;
      Ok (with_slpTxData (Some v) message, reader)
  | 7 => '(v, reader) <- Reader_string reader ;; Ok (with_slpErrorMsg v message, reader)
  | 8 =>
      '(length, reader) <- Reader_uint32 reader ;;
      '(v, reader) <- BlockMetadata.decode fuel reader (Some length) ;;
      Ok (with_block (Some v) message, reader)
  | 9 => '(v, reader) <- Reader_int64 reader ;; Ok (with_timeFirstSeen v message, reader)
  | 10 => '(v, reader) <- Reader_int32 reader ;; Ok (with_network v message, reader)
  | _ => reader <- Reader_skipType fuel (Z.land tag 7) reader ;; Ok (message, reader)
  end.

Definition decode (fuel : nat) (reader : Reader) (length : option Z)
  : result (t * Reader) :=
  decode_loop field fuel (decode_end reader length) reader base.

Definition wire (m : t) : bytes :=
  f_bytes 1 (txid m)
  ++ f_int32 2 (version m)
  ++ f_rep 3 (map TxInput.wire (inputs m))
  ++ f_rep 4 (map TxOutput.wire (outputs m))
  ++ f_uint32 5 (lockTime m)
  ++ f_msg 6 (option_map SlpTxData.wire (slpTxData m))
  ++ f_string 7 (slpErrorMsg m)
  ++ f_msg 8 (option_map BlockMetadata.wire (block m))
  ++ f_int64 9 (timeFirstSeen m)
  ++ f_int32 10 (network m).

Definition wf (m : t) : Prop :=
  fits (txid m)
  /\ int32_range (version m)
  /\ list_wf TxInput.wf TxInput.wire (inputs m)
  /\ list_wf TxOutput.wf TxOutput.wire (outputs m)
  /\ uint32_range (lockTime m)
  /\ opt_wf SlpTxData.wf SlpTxData.wire (slpTxData m)
  /\ fits (list_byte_of_string (slpErrorMsg m))
  /\ opt_wf BlockMetadata.wf BlockMetadata.wire (block m)
  /\ Long_wf false (timeFirstSeen m)
  /\ int32_range (network m).
End Tx.

(** *** Utxo *)
Module Utxo.
Record t : Type := mk {
  outpoint : option OutPoint.t;
  blockHeight : Z;
  isCoinbase : bool;
  value : Long;
  slpMeta : option SlpMeta.t;
  slpToken : option SlpToken.t;
  network : Z
}.

Definition base : t := mk None 0 false Long_ZERO None None 0.

Definition with_outpoint (v : option OutPoint.t) (m : t) : t :=
  mk v (blockHeight m) (isCoinbase m) (value m) (slpMeta m) (slpToken m) (network m).
Definition with_blockHeight (v : Z) (m : t) : t :=
  mk (outpoint m) v (isCoinbase m) (value m) (slpMeta m) (slpToken m) (network m).
Definition with_isCoinbase (v : bool) (m : t) : t :=
  mk (outpoint m) (blockHeight m) v (value m) (slpMeta m) (slpToken m) (network m).
Definition with_value (v : Long) (m : t) : t :=
  mk (outpoint m) (blockHeight m) (isCoinbase m) v (slpMeta m) (slpToken m) (network m).
Definition with_slpMeta (v : option SlpMeta.t) (m : t) : t :=
  mk (outpoint m) (blockHeight m) (isCoinbase m) (value m) v (slpToken m) (network m).
Definition with_slpToken (v : option SlpToken.t) (m : t) : t :=
  mk (outpoint m) (blockHeight m) (isCoinbase m) (value m) (slpMeta m) v (network m).
Definition with_network (v : Z) (m : t) : t :=
  mk (outpoint m) (blockHeight m) (isCoinbase m) (value m) (slpMeta m) (slpToken m) v.

Definition encode (message : t) (writer : Writer) : Writer :=
  let writer :=
    match outpoint message with
    | Some v =>
        Writer_ldelim (OutPoint.encode v (Writer_fork (Writer_uint32 10 writer)))
    | None => writer
    end in
  let writer :=
    if negb (blockHeight message =? 0)
    then Writer_int32 (blockHeight message) (Writer_uint32 16 writer) else writer in
  let writer :=
    if isCoinbase message
    then Writer_bool (isCoinbase message) (Writer_uint32 24 writer) else writer in
  let writer :=
    if negb (Long_isZero (value message))
    then Writer_int64 (value message) (Writer_uint32 40 writer) else writer in
  let writer :=
    match slpMeta message with
    | Some v =>
        Writer_ldelim (SlpMeta.encode v (Writer_fork (Writer_uint32 50 writer)))
    | None => writer
    end in
  let writer :=
    match slpToken message with
    | Some v =>
        Writer_ldelim (SlpToken.encode v (Writer_fork (Writer_uint32 58 writer)))
    | None => writer
    end in
  let writer :=
    if negb (network message =? 0)
    then Writer_int32 (network message) (Writer_uint32 72 writer) else writer in
  writer.

Definition field (fuel : nat) (tag : Z) (reader : Reader) (message : t)
  : result (t * Reader) :=
  match Z.shiftr tag 3 with
  | 1 =>
      '(length, reader) <- Reader_uint32 reader ;;
      '(v, reader) <- OutPoint.decode fuel reader (Some length) ;;
      Ok (with_outpoint (Some v) message, reader)
  | 2 => '(v, reader) <- Reader_int32 reader ;; Ok (with_blockHeight v message, reader)
  | 3 => '(v, reader) <- Reader_bool reader ;; Ok (with_isCoinbase v message, reader)
  | 5 => '(v, reader) <- Reader_int64 reader ;; Ok (with_value v message, reader)
  | 6 =>
      '(length, reader) <- Reader_uint32 reader ;;
      '(v, reader) <- SlpMeta.decode fuel reader (Some length) ;;
      Ok (with_slpMeta (Some v) message, reader)
  | 7 =>
      '(length, reader) <- Reader_uint32 reader ;;
      '(v, reader) <- SlpToken.decode fuel reader (Some length) ;;
      Ok (with_slpToken (Some v) message, reader)
  | 9 => '(v, reader) <- Reader_int32 reader ;; Ok (with_network v message, reader)
  | _ => reader <- Reader_skipType fuel (Z.land tag 7) reader ;; Ok (message, reader)
  end.

Definition decode (fuel : nat) (reader : Reader) (length : option Z)
  : result (t * Reader) :=
  decode_loop field fuel (decode_end reader length) reader base.

Definition wire (m : t) : bytes :=
  f_msg 1 (option_map OutPoint.wire (outpoint m))
  ++ f_int32 2 (blockHeight m)
  ++ f_bool 3 (isCoinbase m)
  ++ f_int64 5 (value m)
  ++ f_msg 6 (option_map SlpMeta.wire (slpMeta m))
  ++ f_msg 7 (option_map SlpToken.wire (slpToken m))
  ++ f_int32 9 (network m).

Definition wf (m : t) : Prop :=
  opt_wf OutPoint.wf OutPoint.wire (outpoint m)
  /\ int32_range (blockHeight m)
  /\ Long_wf false (value m)
  /\ opt_wf SlpMeta.wf SlpMeta.wire (slpMeta m)
  /\ opt_wf SlpToken.wf SlpToken.wire (slpToken m)
  /\ int32_range (network m).
End Utxo.

(** *** ScriptUtxos *)
Module ScriptUtxos.
Record t : Type := mk { outputScript : bytes; utxos : list Utxo.t }.

Definition base : t := mk [] [].

Definition with_outputScript (v : bytes) (m : t) : t :=
  mk v (utxos m).
Definition with_utxos (v : list Utxo.t) (m : t) : t :=
  mk (outputScript m) v.

Definition encode (message : t) (writer : Writer) : Writer :=
  let writer :=
    if negb (List.length (outputScript message) =? 0)%nat
    then Writer_bytes (outputScript message) (Writer_uint32 10 writer) else writer in
  let writer :=
    fold_left
      (fun writer v =>
         Writer_ldelim (Utxo.encode v (Writer_fork (Writer_uint32 18 writer))))
      (utxos message) writer in
  writer.

Definition field (fuel : nat) (tag : Z) (reader : Reader) (message : t)
  : result (t * Reader) :=
  match Z.shiftr tag 3 with
  | 1 => '(v, reader) <- Reader_bytes reader ;; Ok (with_outputScript v message, reader)
  | 2 =>
      '(length, reader) <- Reader_uint32 reader ;;
      '(v, reader) <- Utxo.decode fuel reader (Some length) ;;
      Ok (with_utxos (utxos message ++ [v]) message, reader)
  | _ => reader <- Reader_skipType fuel (Z.land tag 7) reader ;; Ok (message, reader)
  end.

Definition decode (fuel : nat) (reader : Reader) (length : option Z)
  : result (t * Reader) :=
  decode_loop field fuel (decode_end reader length) reader base.

Definition wire (m : t) : bytes :=
  f_bytes 1 (outputScript m)
  ++ f_rep 2 (map Utxo.wire (utxos m)).

Definition wf (m : t) : Prop :=
  fits (outputScript m)
  /\ list_wf Utxo.wf Utxo.wire (utxos m).
End ScriptUtxos.

(** *** Utxos *)
Module Utxos.
Record t : Type := mk { scriptUtxos : list ScriptUtxos.t }.

Definition base : t := mk [].

Definition with_scriptUtxos (v : list ScriptUtxos.t) (m : t) : t :=
  mk v.

Definition encode (message : t) (writer : Writer) : Writer :=
  let writer :=
    fold_left
      (fun writer v =>
         Writer_ldelim (ScriptUtxos.encode v (Writer_fork (Writer_uint32 10 writer))))
      (scriptUtxos message) writer in
  writer.

Definition field (fuel : nat) (tag : Z) (reader : Reader) (message : t)
  : result (t * Reader) :=
  match Z.shiftr tag 3 with
  | 1 =>
      '(length, reader) <- Reader_uint32 reader ;;
      '(v, reader) <- ScriptUtxos.decode fuel reader (Some length) ;;
      Ok (with_scriptUtxos (scriptUtxos message ++ [v]) message, reader)
  | _ => reader <- Reader_skipType fuel (Z.land tag 7) reader ;; Ok (message, reader)
  end.

Definition decode (fuel : nat) (reader : Reader) (length : option Z)
  : result (t * Reader) :=
  decode_loop field fuel (decode_end reader length) reader base.

Definition wire (m : t) : bytes :=
  f_rep 1 (map ScriptUtxos.wire (scriptUtxos m)).

Definition wf (m : t) : Prop :=
  list_wf ScriptUtxos.wf ScriptUtxos.wire (scriptUtxos m).
End Utxos.

(** *** UtxoState *)
Module UtxoState.
Record t : Type := mk { height : Z; isConfirmed : bool; state : Z }.

Definition base : t := mk 0 false 0.

Definition with_height (v : Z) (m : t) : t :=
  mk v (isConfirmed m) (state m).
Definition with_isConfirmed (v : bool) (m : t) : t :=
  mk (height m) v (state m).
Definition with_state (v : Z) (m : t) : t :=
  mk (height m) (isConfirmed m) v.

Definition encode (message : t) (writer : Writer) : Writer :=
  let writer :=
    if negb (height message =? 0)
    then Writer_int32 (height message) (Writer_uint32 8 writer) else writer in
  let writer :=
    if isConfirmed message
    then Writer_bool (isConfirmed message) (Writer_uint32 16 writer) else writer in
  let writer :=
    if negb (state message =? 0)
    then Writer_int32 (state message) (Writer_uint32 24 writer) else writer in
  writer.

Definition field (fuel : nat) (tag : Z) (reader : Reader) (message : t)
  : result (t * Reader) :=
  match Z.shiftr tag 3 with
  | 1 => '(v, reader) <- Reader_int32 reader ;; Ok (with_height v message, reader)
  | 2 => '(v, reader) <- Reader_bool reader ;; Ok (with_isConfirmed v message, reader)
  | 3 => '(v, reader) <- Reader_int32 reader ;; Ok (with_state v message, reader)
  | _ => reader <- Reader_skipType fuel (Z.land tag 7) reader ;; Ok (message, reader)
  end.

Definition decode (fuel : nat) (reader : Reader) (length : option Z)
  : result (t * Reader) :=
  decode_loop field fuel (decode_end reader length) reader base.

Definition wire (m : t) : bytes :=
  f_int32 1 (height m)
  ++ f_bool 2 (isConfirmed m)
  ++ f_int32 3 (state m).

Definition wf (m : t) : Prop :=
  int32_range (height m)
  /\ int32_range (state m).
End UtxoState.

(** *** ValidateUtxoRequest *)
Module ValidateUtxoRequest.
Record t : Type := mk { outpoints : list OutPoint.t }.

Definition base : t := mk [].

Definition with_outpoints (v : list OutPoint.t) (m : t) : t :=
  mk v.

Definition encode (message : t) (writer : Writer) : Writer :=
  let writer :=
    fold_left
      (fun writer v =>
         Writer_ldelim (OutPoint.encode v (Writer_fork (Writer_uint32 10 writer))))
      (outpoints message) writer in
  writer.

Definition field (fuel : nat) (tag : Z) (reader : Reader) (message : t)
  : result (t * Reader) :=
  match Z.shiftr tag 3 with
  | 1 =>
      '(length, reader) <- Reader_uint32 reader ;;
      '(v, reader) <- OutPoint.decode fuel reader (Some length) ;;
      Ok (with_outpoints (outpoints message ++ [v]) message, reader)
  | _ => reader <- Reader_skipType fuel (Z.land tag 7) reader ;; Ok (message, reader)
  end.

Definition decode (fuel : nat) (reader : Reader) (length : option Z)
  : result (t * Reader) :=
  decode_loop field fuel (decode_end reader length) reader base.

Definition wire (m : t) : bytes :=
  f_rep 1 (map OutPoint.wire (outpoints m)).

Definition wf (m : t) : Prop :=
  list_wf OutPoint.wf OutPoint.wire (outpoints m).
End ValidateUtxoRequest.

(** *** ValidateUtxoResponse *)
Module ValidateUtxoResponse.
Record t : Type := mk { utxoStates : list UtxoState.t }.

Definition base : t := mk [].

Definition with_utxoStates (v : list UtxoState.t) (m : t) : t :=
  mk v.

Definition encode (message : t) (writer : Writer) : Writer :=
  let writer :=
    fold_left
      (fun writer v =>
         Writer_ldelim (UtxoState.encode v (Writer_fork (Writer_uint32 10 writer))))
      (utxoStates message) writer in
  writer.

Definition field (fuel : nat) (tag : Z) (reader : Reader) (message : t)
  : result (t * Reader) :=
  match Z.shiftr tag 3 with
  | 1 =>
      '(length, reader) <- Reader_uint32 reader ;;
      '(v, reader) <- UtxoState.decode fuel reader (Some length) ;;
      Ok (with_utxoStates (utxoStates message ++ [v]) message, reader)
  | _ => reader <- Reader_skipType fuel (Z.land tag 7) reader ;; Ok (message, reader)
  end.

Definition decode (fuel : nat) (reader : Reader) (length : option Z)
  : result (t * Reader) :=
  decode_loop field fuel (decode_end reader length) reader base.

Definition wire (m : t) : bytes :=
  f_rep 1 (map UtxoState.wire (utxoStates m)).

Definition wf (m : t) : Prop :=
  list_wf UtxoState.wf UtxoState.wire (utxoStates m).
End ValidateUtxoResponse.

(** *** Subscription *)
Module Subscription.
Record t : Type := mk { scriptType : string; payload : bytes; isSubscribe : bool }.

Definition base : t := mk "" [] false.

Definition with_scriptType (v : string) (m : t) : t :=
  mk v (payload m) (isSubscribe m).
Definition with_payload (v : bytes) (m : t) : t :=
  mk (scriptType m) v (isSubscribe m).
Definition with_isSubscribe (v : bool) (m : t) : t :=
  mk (scriptType m) (payload m) v.

Definition encode (message : t) (writer : Writer) : Writer :=
  let writer :=
    if negb (scriptType message =? "")%string
    then Writer_string (scriptType message) (Writer_uint32 10 writer) else writer in
  let writer :=
    if negb (List.length (payload message) =? 0)%nat
    then Writer_bytes (payload message) (Writer_uint32 18 writer) else writer in
  let writer :=
    if isSubscribe message
    then Writer_bool (isSubscribe message) (Writer_uint32 24 writer) else writer in
  writer.

Definition field (fuel : nat) (tag : Z) (reader : Reader) (message : t)
  : result (t * Reader) :=
  match Z.shiftr tag 3 with
  | 1 => '(v, reader) <- Reader_string reader ;; Ok (with_scriptType v message, reader)
  | 2 => '(v, reader) <- Reader_bytes reader ;; Ok (with_payload v message, reader)
  | 3 => '(v, reader) <- Reader_bool reader ;; Ok (with_isSubscribe v message, reader)
  | _ => reader <- Reader_skipType fuel (Z.land tag 7) reader ;; Ok (message, reader)
  end.

Definition decode (fuel : nat) (reader : Reader) (length : option Z)
  : result (t * Reader) :=
  decode_loop field fuel (decode_end reader length) reader base.

Definition wire (m : t) : bytes :=
  f_string 1 (scriptType m)
  ++ f_bytes 2 (payload m)
  ++ f_bool 3 (isSubscribe m).

Definition wf (m : t) : Prop :=
  fits (list_byte_of_string (scriptType m))
  /\ fits (payload m).
End Subscription.

(** *** Error *)
Module Error.
Record t : Type := mk { errorCode : string; msg : string; isUserError : bool }.

Definition base : t := mk "" "" false.

Definition with_errorCode (v : string) (m : t) : t :=
  mk v (msg m) (isUserError m).
Definition with_msg (v : string) (m : t) : t :=
  mk (errorCode m) v (isUserError m).
Definition with_isUserError (v : bool) (m : t) : t :=
  mk (errorCode m) (msg m) v.

Definition encode (message : t) (writer : Writer) : Writer :=
  let writer :=
    if negb (errorCode message =? "")%string
    then Writer_string (errorCode message) (Writer_uint32 10 writer) else writer in
  let writer :=
    if negb (msg message =? "")%string
    then Writer_string (msg message) (Writer_uint32 18 writer) else writer in
  let writer :=
    if isUserError message
    then Writer_bool (isUserError message) (Writer_uint32 24 writer) else writer in
  writer.

Definition field (fuel : nat) (tag : Z) (reader : Reader) (message : t)
  : result (t * Reader) :=
  match Z.shiftr tag 3 with
  | 1 => '(v, reader) <- Reader_string reader ;; Ok (with_errorCode v message, reader)
  | 2 => '(v, reader) <- Reader_string reader ;; Ok (with_msg v message, reader)
  | 3 => '(v, reader) <- Reader_bool reader ;; Ok (with_isUserError v message, reader)
  | _ => reader <- Reader_skipType fuel (Z.land tag 7) reader ;; Ok (message, reader)
  end.

Definition decode (fuel : nat) (reader : Reader) (length : option Z)
  : result (t * Reader) :=
  decode_loop field fuel (decode_end reader length) reader base.

Definition wire (m : t) : bytes :=
  f_string 1 (errorCode m)
  ++ f_string 2 (msg m)
  ++ f_bool 3 (isUserError m).

Definition wf (m : t) : Prop :=
  fits (list_byte_of_string (errorCode m))
  /\ fits (list_byte_of_string (msg m)).
End Error.

(** *** BlockInfo *)
Module BlockInfo.
Record t : Type := mk {
  hash : bytes;
  prevHash : bytes;
  height : Z;
  nBits : Z;
  timestamp : Long;
  blockSize : Long;
  numTxs : Long;
  numInputs : Long;
  numOutputs : Long;
  sumInputSats : Long;
  sumCoinbaseOutputSats : Long;
  sumNormalOutputSats : Long;
  sumBurnedSats : Long
}.

Definition base : t := mk [] [] 0 0 Long_ZERO Long_UZERO Long_UZERO Long_UZERO Long_UZERO Long_ZERO Long_ZERO Long_ZERO Long_ZERO.

Definition with_hash (v : bytes) (m : t) : t :=
  mk v (prevHash m) (height m) (nBits m) (timestamp m) (blockSize m) (numTxs m)
     (numInputs m) (numOutputs m) (sumInputSats m) (sumCoinbaseOutputSats m)
     (sumNormalOutputSats m) (sumBurnedSats m).
Definition with_prevHash (v : bytes) (m : t) : t :=
  mk (hash m) v (height m) (nBits m) (timestamp m) (blockSize m) (numTxs m)
     (numInputs m) (numOutputs m) (sumInputSats m) (sumCoinbaseOutputSats m)
     (sumNormalOutputSats m) (sumBurnedSats m).
Definition with_height (v : Z) (m : t) : t :=
  mk (hash m) (prevHash m) v (nBits m) (timestamp m) (blockSize m) (numTxs m)
     (numInputs m) (numOutputs m) (sumInputSats m) (sumCoinbaseOutputSats m)
     (sumNormalOutputSats m) (sumBurnedSats m).
Definition with_nBits (v : Z) (m : t) : t :=
  mk (hash m) (prevHash m) (height m) v (timestamp m) (blockSize m) (numTxs m)
     (numInputs m) (numOutputs m) (sumInputSats m) (sumCoinbaseOutputSats m)
     (sumNormalOutputSats m) (sumBurnedSats m).
Definition with_timestamp (v : Long) (m : t) : t :=
  mk (hash m) (prevHash m) (height m) (nBits m) v (blockSize m) (numTxs m) (numInputs m)
     (numOutputs m) (sumInputSats m) (sumCoinbaseOutputSats m) (sumNormalOutputSats m)
     (sumBurnedSats m).
Definition with_blockSize (v : Long) (m : t) : t :=
  mk (hash m) (prevHash m) (height m) (nBits m) (timestamp m) v (numTxs m) (numInputs m)
     (numOutputs m) (sumInputSats m) (sumCoinbaseOutputSats m) (sumNormalOutputSats m)
     (sumBurnedSats m).
Definition with_numTxs (v : Long) (m : t) : t :=
  mk (hash m) (prevHash m) (height m) (nBits m) (timestamp m) (blockSize m) v
     (numInputs m) (numOutputs m) (sumInputSats m) (sumCoinbaseOutputSats m)
     (sumNormalOutputSats m) (sumBurnedSats m).
Definition with_numInputs (v : Long) (m : t) : t :=
  mk (hash m) (prevHash m) (height m) (nBits m) (timestamp m) (blockSize m) (numTxs m) v
     (numOutputs m) (sumInputSats m) (sumCoinbaseOutputSats m) (sumNormalOutputSats m)
     (sumBurnedSats m).
Definition with_numOutputs (v : Long) (m : t) : t :=
  mk (hash m) (prevHash m) (height m) (nBits m) (timestamp m) (blockSize m) (numTxs m)
     (numInputs m) v (sumInputSats m) (sumCoinbaseOutputSats m) (sumNormalOutputSats m)
     (sumBurnedSats m).
Definition with_sumInputSats (v : Long) (m : t) : t :=
  mk (hash m) (prevHash m) (height m) (nBits m) (timestamp m) (blockSize m) (numTxs m)
     (numInputs m) (numOutputs m) v (sumCoinbaseOutputSats m) (sumNormalOutputSats m)
     (sumBurnedSats m).
Definition with_sumCoinbaseOutputSats (v : Long) (m : t) : t :=
  mk (hash m) (prevHash m) (height m) (nBits m) (timestamp m) (blockSize m) (numTxs m)
     (numInputs m) (numOutputs m) (sumInputSats m) v (sumNormalOutputSats m)
     (sumBurnedSats m).
Definition with_sumNormalOutputSats (v : Long) (m : t) : t :=
  mk (hash m) (prevHash m) (height m) (nBits m) (timestamp m) (blockSize m) (numTxs m)
     (numInputs m) (numOutputs m) (sumInputSats m) (sumCoinbaseOutputSats m) v
     (sumBurnedSats m).
Definition with_sumBurnedSats (v : Long) (m : t) : t :=
  mk (hash m) (prevHash m) (height m) (nBits m) (timestamp m) (blockSize m) (numTxs m)
     (numInputs m) (numOutputs m) (sumInputSats m) (sumCoinbaseOutputSats m)
     (sumNormalOutputSats m) v.

Definition encode (message : t) (writer : Writer) : Writer :=
  let writer :=
    if negb (List.length (hash message) =? 0)%nat
    then Writer_bytes (hash message) (Writer_uint32 10 writer) else writer in
  let writer :=
    if negb (List.length (prevHash message) =? 0)%nat
    then Writer_bytes (prevHash message) (Writer_uint32 18 writer) else writer in
  let writer :=
    if negb (height message =? 0)
    then Writer_int32 (height message) (Writer_uint32 24 writer) else writer in
  let writer :=
    if negb (nBits message =? 0)
    then Writer_uint32 (nBits message) (Writer_uint32 32 writer) else writer in
  let writer :=
    if negb (Long_isZero (timestamp message))
    then Writer_int64 (timestamp message) (Writer_uint32 40 writer) else writer in
  let writer :=
    if negb (Long_isZero (blockSize message))
    then Writer_uint64 (blockSize message) (Writer_uint32 48 writer) else writer in
  let writer :=
    if negb (Long_isZero (numTxs message))
    then Writer_uint64 (numTxs message) (Writer_uint32 56 writer) else writer in
  let writer :=
    if negb (Long_isZero (numInputs message))
    then Writer_uint64 (numInputs message) (Writer_uint32 64 writer) else writer in
  let writer :=
    if negb (Long_isZero (numOutputs message))
    then Writer_uint64 (numOutputs message) (Writer_uint32 72 writer) else writer in
  let writer :=
    if negb (Long_isZero (sumInputSats message))
    then Writer_int64 (sumInputSats message) (Writer_uint32 80 writer) else writer in
  let writer :=
    if negb (Long_isZero (sumCoinbaseOutputSats message))
    then Writer_int64 (sumCoinbaseOutputSats message) (Writer_uint32 88 writer) else writer in
  let writer :=
    if negb (Long_isZero (sumNormalOutputSats message))
    then Writer_int64 (sumNormalOutputSats message) (Writer_uint32 96 writer) else writer in
  let writer :=
    if negb (Long_isZero (sumBurnedSats message))
    then Writer_int64 (sumBurnedSats message) (Writer_uint32 104 writer) else writer in
  writer.

Definition field (fuel : nat) (tag : Z) (reader : Reader) (message : t)
  : result (t * Reader) :=
  match Z.shiftr tag 3 with
  | 1 => '(v, reader) <- Reader_bytes reader ;; Ok (with_hash v message, reader)
  | 2 => '(v, reader) <- Reader_bytes reader ;; Ok (with_prevHash v message, reader)
  | 3 => '(v, reader) <- Reader_int32 reader ;; Ok (with_height v message, reader)
  | 4 => '(v, reader) <- Reader_uint32 reader ;; Ok (with_nBits v message, reader)
  | 5 => '(v, reader) <- Reader_int64 reader ;; Ok (with_timestamp v message, reader)
  | 6 => '(v, reader) <- Reader_uint64 reader ;; Ok (with_blockSize v message, reader)
  | 7 => '(v, reader) <- Reader_uint64 reader ;; Ok (with_numTxs v message, reader)
  | 8 => '(v, reader) <- Reader_uint64 reader ;; Ok (with_numInputs v message, reader)
  | 9 => '(v, reader) <- Reader_uint64 reader ;; Ok (with_numOutputs v message, reader)
  | 10 => '(v, reader) <- Reader_int64 reader ;; Ok (with_sumInputSats v message, reader)
  | 11 => '(v, reader) <- Reader_int64 reader ;; Ok (with_sumCoinbaseOutputSats v message, reader)
  | 12 => '(v, reader) <- Reader_int64 reader ;; Ok (with_sumNormalOutputSats v message, reader)
  | 13 => '(v, reader) <- Reader_int64 reader ;; Ok (with_sumBurnedSats v message, reader)
  | _ => reader <- Reader_skipType fuel (Z.land tag 7) reader ;; Ok (message, reader)
  end.

Definition decode (fuel : nat) (reader : Reader) (length : option Z)
  : result (t * Reader) :=
  decode_loop field fuel (decode_end reader length) reader base.

Definition wire (m : t) : bytes :=
  f_bytes 1 (hash m)
  ++ f_bytes 2 (prevHash m)
  ++ f_int32 3 (height m)
  ++ f_uint32 4 (nBits m)
  ++ f_int64 5 (timestamp m)
  ++ f_int64 6 (blockSize m)
  ++ f_int64 7 (numTxs m)
  ++ f_int64 8 (numInputs m)
  ++ f_int64 9 (numOutputs m)
  ++ f_int64 10 (sumInputSats m)
  ++ f_int64 11 (sumCoinbaseOutputSats m)
  ++ f_int64 12 (sumNormalOutputSats m)
  ++ f_int64 13 (sumBurnedSats m).

Definition wf (m : t) : Prop :=
  fits (hash m)
  /\ fits (prevHash m)
  /\ int32_range (height m)
  /\ uint32_range (nBits m)
  /\ Long_wf false (timestamp m)
  /\ Long_wf true (blockSize m)
  /\ Long_wf true (numTxs m)
  /\ Long_wf true (numInputs m)
  /\ Long_wf true (numOutputs m)
  /\ Long_wf false (sumInputSats m)
  /\ Long_wf false (sumCoinbaseOutputSats m)
  /\ Long_wf false (sumNormalOutputSats m)
  /\ Long_wf false (sumBurnedSats m).
End BlockInfo.

(** *** Block *)
Module Block.
Record t : Type := mk { blockInfo : option BlockInfo.t; txs : list Tx.t }.

Definition base : t := mk None [].

Definition with_blockInfo (v : option BlockInfo.t) (m : t) : t :=
  mk v (txs m).
Definition with_txs (v : list Tx.t) (m : t) : t :=
  mk (blockInfo m) v.

Definition encode (message : t) (writer : Writer) : Writer :=
  let writer :=
    match blockInfo message with
    | Some v =>
        Writer_ldelim (BlockInfo.encode v (Writer_fork (Writer_uint32 10 writer)))
    | None => writer
    end in
  let writer :=
    fold_left
      (fun writer v =>
         Writer_ldelim (Tx.encode v (Writer_fork (Writer_uint32 18 writer))))
      (txs message) writer in
  writer.

Definition field (fuel : nat) (tag : Z) (reader : Reader) (message : t)
  : result (t * Reader) :=
  match Z.shiftr tag 3 with
  | 1 =>
      '(length, reader) <- Reader_uint32 reader ;;
      '(v, reader) <- BlockInfo.decode fuel reader (Some length) ;;
      Ok (with_blockInfo (Some v) message, reader)
  | 2 =>
      '(length, reader) <- Reader_uint32 reader ;;
      '(v, reader) <- Tx.decode fuel reader (Some length) ;;
      Ok (with_txs (txs message ++ [v]) message, reader)
  | _ => reader <- Reader_skipType fuel (Z.land tag 7) reader ;; Ok (message, reader)
  end.

Definition decode (fuel : nat) (reader : Reader) (length : option Z)
  : result (t * Reader) :=
  decode_loop field fuel (decode_end reader length) reader base.

Definition wire (m : t) : bytes :=
  f_msg 1 (option_map BlockInfo.wire (blockInfo m))
  ++ f_rep 2 (map Tx.wire (txs m)).

Definition wf (m : t) : Prop :=
  opt_wf BlockInfo.wf BlockInfo.wire (blockInfo m)
  /\ list_wf Tx.wf Tx.wire (txs m).
End Block.

(** *** TxHistoryPage *)
Module TxHistoryPage.
Record t : Type := mk { txs : list Tx.t; numPages : Z }.

Definition base : t := mk [] 0.

Definition with_txs (v : list Tx.t) (m : t) : t :=
  mk v (numPages m).
Definition with_numPages (v : Z) (m : t) : t :=
  mk (txs m) v.

Definition encode (message : t) (writer : Writer) : Writer :=
  let writer :=
    fold_left
      (fun writer v =>
         Writer_ldelim (Tx.encode v (Writer_fork (Writer_uint32 10 writer))))
      (txs message) writer in
  let writer :=
    if negb (numPages message =? 0)
    then Writer_uint32 (numPages message) (Writer_uint32 16 writer) else writer in
  writer.

Definition field (fuel : nat) (tag : Z) (reader : Reader) (message : t)
  : result (t * Reader) :=
  match Z.shiftr tag 3 with
  | 1 =>
      '(length, reader) <- Reader_uint32 reader ;;
      '(v, reader) <- Tx.decode fuel reader (Some length) ;;
      Ok (with_txs (txs message ++ [v]) message, reader)
  | 2 => '(v, reader) <- Reader_uint32 reader ;; Ok (with_numPages v message, reader)
  | _ => reader <- Reader_skipType fuel (Z.land tag 7) reader ;; Ok (message, reader)
  end.

Definition decode (fuel : nat) (reader : Reader) (length : option Z)
  : result (t * Reader) :=
  decode_loop field fuel (decode_end reader length) reader base.

Definition wire (m : t) : bytes :=
  f_rep 1 (map Tx.wire (txs m))
  ++ f_uint32 2 (numPages m).

Definition wf (m : t) : Prop :=
  list_wf Tx.wf Tx.wire (txs m)
  /\ uint32_range (numPages m).
End TxHistoryPage.

(** *** Blocks *)
Module Blocks.
Record t : Type := mk { blocks : list BlockInfo.t }.

Definition base : t := mk [].

Definition with_blocks (v : list BlockInfo.t) (m : t) : t :=
  mk v.

Definition encode (message : t) (writer : Writer) : Writer :=
  let writer :=
    fold_left
      (fun writer v =>
         Writer_ldelim (BlockInfo.encode v (Writer_fork (Writer_uint32 10 writer))))
      (blocks message) writer in
  writer.

Definition field (fuel : nat) (tag : Z) (reader : Reader) (message : t)
  : result (t * Reader) :=
  match Z.shiftr tag 3 with
  | 1 =>
      '(length, reader) <- Reader_uint32 reader ;;
      '(v, reader) <- BlockInfo.decode fuel reader (Some length) ;;
      Ok (with_blocks (blocks message ++ [v]) message, reader)
  | _ => reader <- Reader_skipType fuel (Z.land tag 7) reader ;; Ok (message, reader)
  end.

Definition decode (fuel : nat) (reader : Reader) (length : option Z)
  : result (t * Reader) :=
  decode_loop field fuel (decode_end reader length) reader base.

Definition wire (m : t) : bytes :=
  f_rep 1 (map BlockInfo.wire (blocks m)).

Definition wf (m : t) : Prop :=
  list_wf BlockInfo.wf BlockInfo.wire (blocks m).
End Blocks.

(** *** BroadcastTxRequest *)
Module BroadcastTxRequest.
Record t : Type := mk { rawTx : bytes; skipSlpCheck : bool }.

Definition base : t := mk [] false.

Definition with_rawTx (v : bytes) (m : t) : t :=
  mk v (skipSlpCheck m).
Definition with_skipSlpCheck (v : bool) (m : t) : t :=
  mk (rawTx m) v.

Definition encode (message : t) (writer : Writer) : Writer :=
  let writer :=
    if negb (List.length (rawTx message) =? 0)%nat
    then Writer_bytes (rawTx message) (Writer_uint32 10 writer) else writer in
  let writer :=
    if skipSlpCheck message
    then Writer_bool (skipSlpCheck message) (Writer_uint32 16 writer) else writer in
  writer.

Definition field (fuel : nat) (tag : Z) (reader : Reader) (message : t)
  : result (t * Reader) :=
  match Z.shiftr tag 3 with
  | 1 => '(v, reader) <- Reader_bytes reader ;; Ok (with_rawTx v message, reader)
  | 2 => '(v, reader) <- Reader_bool reader ;; Ok (with_skipSlpCheck v message, reader)
  | _ => reader <- Reader_skipType fuel (Z.land tag 7) reader ;; Ok (message, reader)
  end.

Definition decode (fuel : nat) (reader : Reader) (length : option Z)
  : result (t * Reader) :=
  decode_loop field fuel (decode_end reader length) reader base.

Definition wire (m : t) : bytes :=
  f_bytes 1 (rawTx m)
  ++ f_bool 2 (skipSlpCheck m).

Definition wf (m : t) : Prop :=
  fits (rawTx m).
End BroadcastTxRequest.

(** *** BroadcastTxResponse *)
Module BroadcastTxResponse.
Record t : Type := mk { txid : bytes }.

Definition base : t := mk [].

Definition with_txid (v : bytes) (m : t) : t :=
  mk v.

Definition encode (message : t) (writer : Writer) : Writer :=
  let writer :=
    if negb (List.length (txid message) =? 0)%nat
    then Writer_bytes (txid message) (Writer_uint32 10 writer) else writer in
  writer.

Definition field (fuel : nat) (tag : Z) (reader : Reader) (message : t)
  : result (t * Reader) :=
  match Z.shiftr tag 3 with
  | 1 => '(v, reader) <- Reader_bytes reader ;; Ok (with_txid v message, reader)
  | _ => reader <- Reader_skipType fuel (Z.land tag 7) reader ;; Ok (message, reader)
  end.

Definition decode (fuel : nat) (reader : Reader) (length : option Z)
  : result (t * Reader) :=
  decode_loop field fuel (decode_end reader length) reader base.

Definition wire (m : t) : bytes :=
  f_bytes 1 (txid m).

Definition wf (m : t) : Prop :=
  fits (txid m).
End BroadcastTxResponse.

(** *** MsgAddedToMempool *)
Module MsgAddedToMempool.
Record t : Type := mk { txid : bytes }.

Definition base : t := mk [].

Definition with_txid (v : bytes) (m : t) : t :=
  mk v.

Definition encode (message : t) (writer : Writer) : Writer :=
  let writer :=
    if negb (List.length (txid message) =? 0)%nat
    then Writer_bytes (txid message) (Writer_uint32 10 writer) else writer in
  writer.

Definition field (fuel : nat) (tag : Z) (reader : Reader) (message : t)
  : result (t * Reader) :=
  match Z.shiftr tag 3 with
  | 1 => '(v, reader) <- Reader_bytes reader ;; Ok (with_txid v message, reader)
  | _ => reader <- Reader_skipType fuel (Z.land tag 7) reader ;; Ok (message, reader)
  end.

Definition decode (fuel : nat) (reader : Reader) (length : option Z)
  : result (t * Reader) :=
  decode_loop field fuel (decode_end reader length) reader base.

Definition wire (m : t) : bytes :=
  f_bytes 1 (txid m).

Definition wf (m : t) : Prop :=
  fits (txid m).
End MsgAddedToMempool.

(** *** MsgRemovedFromMempool *)
Module MsgRemovedFromMempool.
Record t : Type := mk { txid : bytes }.

Definition base : t := mk [].

Definition with_txid (v : bytes) (m : t) : t :=
  mk v.

Definition encode (message : t) (writer : Writer) : Writer :=
  let writer :=
    if negb (List.length (txid message) =? 0)%nat
    then Writer_bytes (txid message) (Writer_uint32 10 writer) else writer in
  writer.

Definition field (fuel : nat) (tag : Z) (reader : Reader) (message : t)
  : result (t * Reader) :=
  match Z.shiftr tag 3 with
  | 1 => '(v, reader) <- Reader_bytes reader ;; Ok (with_txid v message, reader)
  | _ => reader <- Reader_skipType fuel (Z.land tag 7) reader ;; Ok (message, reader)
  end.

Definition decode (fuel : nat) (reader : Reader) (length : option Z)
  : result (t * Reader) :=
  decode_loop field fuel (decode_end reader length) reader base.

Definition wire (m : t) : bytes :=
  f_bytes 1 (txid m).

Definition wf (m : t) : Prop :=
  fits (txid m).
End MsgRemovedFromMempool.

(** *** MsgConfirmed *)
Module MsgConfirmed.
Record t : Type := mk { txid : bytes }.

Definition base : t := mk [].

Definition with_txid (v : bytes) (m : t) : t :=
  mk v.

Definition encode (message : t) (writer : Writer) : Writer :=
  let writer :=
    if negb (List.length (txid message) =? 0)%nat
    then Writer_bytes (txid message) (Writer_uint32 10 writer) else writer in
  writer.

Definition field (fuel : nat) (tag : Z) (reader : Reader) (message : t)
  : result (t * Reader) :=
  match Z.shiftr tag 3 with
  | 1 => '(v, reader) <- Reader_bytes reader ;; Ok (with_txid v message, reader)
  | _ => reader <- Reader_skipType fuel (Z.land tag 7) reader ;; Ok (message, reader)
  end.

Definition decode (fuel : nat) (reader : Reader) (length : option Z)
  : result (t * Reader) :=
  decode_loop field fuel (decode_end reader length) reader base.

Definition wire (m : t) : bytes :=
  f_bytes 1 (txid m).

Definition wf (m : t) : Prop :=
  fits (txid m).
End MsgConfirmed.

(** *** MsgReorg *)
Module MsgReorg.
Record t : Type := mk { txid : bytes }.

Definition base : t := mk [].

Definition with_txid (v : bytes) (m : t) : t :=
  mk v.

Definition encode (message : t) (writer : Writer) : Writer :=
  let writer :=
    if negb (List.length (txid message) =? 0)%nat
    then Writer_bytes (txid message) (Writer_uint32 10 writer) else writer in
  writer.

Definition field (fuel : nat) (tag : Z) (reader : Reader) (message : t)
  : result (t * Reader) :=
  match Z.shiftr tag 3 with
  | 1 => '(v, reader) <- Reader_bytes reader ;; Ok (with_txid v message, reader)
  | _ => reader <- Reader_skipType fuel (Z.land tag 7) reader ;; Ok (message, reader)
  end.

Definition decode (fuel : nat) (reader : Reader) (length : option Z)
  : result (t * Reader) :=
  decode_loop field fuel (decode_end reader length) reader base.

Definition wire (m : t) : bytes :=
  f_bytes 1 (txid m).

Definition wf (m : t) : Prop :=
  fits (txid m).
End MsgReorg.

(** *** SubscribeMsg *)
Module SubscribeMsg.
Record t : Type := mk {
  error : option Error.t;
  AddedToMempool : option MsgAddedToMempool.t;
  RemovedFromMempool : option MsgRemovedFromMempool.t;
  Confirmed : option MsgConfirmed.t;
  Reorg : option MsgReorg.t
}.

Definition base : t := mk None None None None None.

Definition with_error (v : option Error.t) (m : t) : t :=
  mk v (AddedToMempool m) (RemovedFromMempool m) (Confirmed m) (Reorg m).
Definition with_AddedToMempool (v : option MsgAddedToMempool.t) (m : t) : t :=
  mk (error m) v (RemovedFromMempool m) (Confirmed m) (Reorg m).
Definition with_RemovedFromMempool (v : option MsgRemovedFromMempool.t) (m : t) : t :=
  mk (error m) (AddedToMempool m) v (Confirmed m) (Reorg m).
Definition with_Confirmed (v : option MsgConfirmed.t) (m : t) : t :=
  mk (error m) (AddedToMempool m) (RemovedFromMempool m) v (Reorg m).
Definition with_Reorg (v : option MsgReorg.t) (m : t) : t :=
  mk (error m) (AddedToMempool m) (RemovedFromMempool m) (Confirmed m) v.

Definition encode (message : t) (writer : Writer) : Writer :=
  let writer :=
    match error message with
    | Some v =>
        Writer_ldelim (Error.encode v (Writer_fork (Writer_uint32 10 writer)))
    | None => writer
    end in
  let writer :=
    match AddedToMempool message with
    | Some v =>
        Writer_ldelim (MsgAddedToMempool.encode v (Writer_fork (Writer_uint32 18 writer)))
    | None => writer
    end in
  let writer :=
    match RemovedFromMempool message with
    | Some v =>
        Writer_ldelim (MsgRemovedFromMempool.encode v (Writer_fork (Writer_uint32 26 writer)))
    | None => writer
    end in
  let writer :=
    match Confirmed message with
    | Some v =>
        Writer_ldelim (MsgConfirmed.encode v (Writer_fork (Writer_uint32 34 writer)))
    | None => writer
    end in
  let writer :=
    match Reorg message with
    | Some v =>
        Writer_ldelim (MsgReorg.encode v (Writer_fork (Writer_uint32 42 writer)))
    | None => writer
    end in
  writer.

Definition field (fuel : nat) (tag : Z) (reader : Reader) (message : t)
  : result (t * Reader) :=
  match Z.shiftr tag 3 with
  | 1 =>
      '(length, reader) <- Reader_uint32 reader ;;
      '(v, reader) <- Error.decode fuel reader (Some length) ;;
      Ok (with_error (Some v) message, reader)
  | 2 =>
      '(length, reader) <- Reader_uint32 reader ;;
      '(v, reader) <- MsgAddedToMempool.decode fuel reader (Some length) ;;
      Ok (with_AddedToMempool (Some v) message, reader)
  | 3 =>
      '(length, reader) <- Reader_uint32 reader ;;
      '(v, reader) <- MsgRemovedFromMempool.decode fuel reader (Some length) ;;
      Ok (with_RemovedFromMempool (Some v) message, reader)
  | 4 =>
      '(length, reader) <- Reader_uint32 reader ;;
      '(v, reader) <- MsgConfirmed.decode fuel reader (Some length) ;;
      Ok (with_Confirmed (Some v) message, reader)
  | 5 =>
      '(length, reader) <- Reader_uint32 reader ;;
      '(v, reader) <- MsgReorg.decode fuel reader (Some length) ;;
      Ok (with_Reorg (Some v) message, reader)
  | _ => reader <- Reader_skipType fuel (Z.land tag 7) reader ;; Ok (message, reader)
  end.

Definition decode (fuel : nat) (reader : Reader) (length : option Z)
  : result (t * Reader) :=
  decode_loop field fuel (decode_end reader length) reader base.

Definition wire (m : t) : bytes :=
  f_msg 1 (option_map Error.wire (error m))
  ++ f_msg 2 (option_map MsgAddedToMempool.wire (AddedToMempool m))
  ++ f_msg 3 (option_map MsgRemovedFromMempool.wire (RemovedFromMempool m))
  ++ f_msg 4 (option_map MsgConfirmed.wire (Confirmed m))
  ++ f_msg 5 (option_map MsgReorg.wire (Reorg m)).

Definition wf (m : t) : Prop :=
  opt_wf Error.wf Error.wire (error m)
  /\ opt_wf MsgAddedToMempool.wf MsgAddedToMempool.wire (AddedToMempool m)
  /\ opt_wf MsgRemovedFromMempool.wf MsgRemovedFromMempool.wire (RemovedFromMempool m)
  /\ opt_wf MsgConfirmed.wf MsgConfirmed.wire (Confirmed m)
  /\ opt_wf MsgReorg.wf MsgReorg.wire (Reorg m).
End SubscribeMsg.

(** *** The enums as JSON

    [object: any] is a number, a string or some other value, and a [case]
    of the [switch] is taken when [object === label]. *)
Inductive JsValue : Type :=
| JsNumber (n : Z)
| JsString (s : string)
| JsOther.

Definition strict_eq (a b : JsValue) : bool :=
  match a, b with
  | JsNumber n, JsNumber n' => n =? n'
  | JsString s, JsString s' => (s =? s')%string
  | _, _ => false
  end.

Definition slpTokenTypeFromJSON (object : JsValue) : Z :=
  if strict_eq object (JsNumber 0) || strict_eq object (JsString "FUNGIBLE")
  then SlpTokenType.FUNGIBLE
  else if strict_eq object (JsNumber 1) || strict_eq object (JsString "NFT1_GROUP")
  then SlpTokenType.NFT1_GROUP
  else if strict_eq object (JsNumber 2) || strict_eq object (JsString "NFT1_CHILD")
  then SlpTokenType.NFT1_CHILD
  else if strict_eq object (JsNumber 3) || strict_eq object (JsString "UNKNOWN_TOKEN_TYPE")
  then SlpTokenType.UNKNOWN_TOKEN_TYPE
  else if strict_eq object (JsNumber (-1)) || strict_eq object (JsString "UNRECOGNIZED")
  then SlpTokenType.UNRECOGNIZED
  else SlpTokenType.UNRECOGNIZED.

Definition slpTokenTypeToJSON (object : Z) : string :=
  if object =? SlpTokenType.FUNGIBLE then "FUNGIBLE"
  else if object =? SlpTokenType.NFT1_GROUP then "NFT1_GROUP"
  else if object =? SlpTokenType.NFT1_CHILD then "NFT1_CHILD"
  else if object =? SlpTokenType.UNKNOWN_TOKEN_TYPE then "UNKNOWN_TOKEN_TYPE"
  else "UNKNOWN".

Definition slpTxTypeFromJSON (object : JsValue) : Z :=
  if strict_eq object (JsNumber 0) || strict_eq object (JsString "GENESIS")
  then SlpTxType.GENESIS
  else if strict_eq object (JsNumber 1) || strict_eq object (JsString "SEND")
  then SlpTxType.SEND
  else if strict_eq object (JsNumber 2) || strict_eq object (JsString "MINT")
  then SlpTxType.MINT
  else if strict_eq object (JsNumber 3) || strict_eq object (JsString "UNKNOWN_TX_TYPE")
  then SlpTxType.UNKNOWN_TX_TYPE
  else if strict_eq object (JsNumber (-1)) || strict_eq object (JsString "UNRECOGNIZED")
  then SlpTxType.UNRECOGNIZED
  else SlpTxType.UNRECOGNIZED.

Definition slpTxTypeToJSON (object : Z) : string :=
  if object =? SlpTxType.GENESIS then "GENESIS"
  else if object =? SlpTxType.SEND then "SEND"
  else if object =? SlpTxType.MINT then "MINT"
  else if object =? SlpTxType.UNKNOWN_TX_TYPE then "UNKNOWN_TX_TYPE"
  else "UNKNOWN".

Definition networkFromJSON (object : JsValue) : Z :=
  if strict_eq object (JsNumber 0) || strict_eq object (JsString "BCH")
  then Network.BCH
  else if strict_eq object (JsNumber 1) || strict_eq object (JsString "XEC")
  then Network.XEC
  else if strict_eq object (JsNumber 2) || strict_eq object (JsString "XPI")
  then Network.XPI
  else if strict_eq object (JsNumber 3) || strict_eq object (JsString "XRG")
  then Network.XRG
  else if strict_eq object (JsNumber (-1)) || strict_eq object (JsString "UNRECOGNIZED")
  then Network.UNRECOGNIZED
  else Network.UNRECOGNIZED.

Definition networkToJSON (object : Z) : string :=
  if object =? Network.BCH then "BCH"
  else if object =? Network.XEC then "XEC"
  else if object =? Network.XPI then "XPI"
  else if object =? Network.XRG then "XRG"
  else "UNKNOWN".

Definition utxoStateVariantFromJSON (object : JsValue) : Z :=
  if strict_eq object (JsNumber 0) || strict_eq object (JsString "UNSPENT")
  then UtxoStateVariant.UNSPENT
  else if strict_eq object (JsNumber 1) || strict_eq object (JsString "SPENT")
  then UtxoStateVariant.SPENT
  else if strict_eq object (JsNumber 2) || strict_eq object (JsString "NO_SUCH_TX")
  then UtxoStateVariant.NO_SUCH_TX
  else if strict_eq object (JsNumber 3) || strict_eq object (JsString "NO_SUCH_OUTPUT")
  then UtxoStateVariant.NO_SUCH_OUTPUT
  else if strict_eq object (JsNumber (-1)) || strict_eq object (JsString "UNRECOGNIZED")
  then UtxoStateVariant.UNRECOGNIZED
  else UtxoStateVariant.UNRECOGNIZED.

Definition utxoStateVariantToJSON (object : Z) : string :=
  if object =? UtxoStateVariant.UNSPENT then "UNSPENT"
  else if object =? UtxoStateVariant.SPENT then "SPENT"
  else if object =? UtxoStateVariant.NO_SUCH_TX then "NO_SUCH_TX"
  else if object =? UtxoStateVariant.NO_SUCH_OUTPUT then "NO_SUCH_OUTPUT"
  else "UNKNOWN".

End proto.

(** ** hex.ts

    Modelled from the spec: [ts/chronik-client/hex.ts], which [index.ts]
    imports [toHex], [toHexRev], [fromHex] and [fromHexRev] from, is not
    among the sources.  The spec says that hashes travel in natural byte
    order on the wire and are shown in reversed ("display") order at the
    client boundary; the four functions are modelled after their names and
    types: lower-case hexadecimal, two digits per byte, the [Rev] variants
    with the bytes in reverse order.  [fromHex] rejects a string that is
    not an even number of lower-case hex digits. *)
Module hex.

Definition hexDigits : list ascii :=
  ["0"; "1"; "2"; "3"; "4"; "5"; "6"; "7"; "8"; "9"; "a"; "b"; "c"; "d"; "e"; "f"]%char.

Definition hexDigit (n : Z) : ascii := nth (Z.to_nat n) hexDigits "0"%char.

Definition byteToHex (b : byte) : string :=
  String (hexDigit (byte_to_Z b / 16)) (String (hexDigit (byte_to_Z b mod 16)) "").

Fixpoint toHex (buffer : bytes) : string :=
  match buffer with
  | [] => ""
  | b :: buffer' => byteToHex b ++ toHex buffer'
  end.

Definition toHexRev (buffer : bytes) : string := toHex (rev buffer).

Fixpoint indexOf (c : ascii) (digits : list ascii) (i : Z) : option Z :=
  match digits with
  | [] => None
  | d :: digits' => if Ascii.eqb c d then Some i else indexOf c digits' (i + 1)
  end.

Definition digitValue (c : ascii) : option Z := indexOf c hexDigits 0.

Fixpoint fromHex (str : string) : result bytes :=
  match str with
  | EmptyString => Ok []
  | String _ EmptyString => Throw (JsError "Odd hex length")
  | String c1 (String c2 str') =>
      match digitValue c1, digitValue c2 with
      | Some h, Some l => bs <- fromHex str' ;; Ok (byte_of_Z (16 * h + l) :: bs)
      | _, _ => Throw (JsError "Invalid hex pair")
      end
  end.

Definition fromHexRev (str : string) : result bytes :=
  bs <- fromHex str ;; Ok (rev bs).

End hex.

(** ** index.ts: the interfaces of the client *)

Inductive Network : Type := BCH | XEC | XPI | XRG.

Inductive SlpTxType : Type := GENESIS | SEND | MINT | UNKNOWN_TX_TYPE.

Inductive SlpTokenType : Type :=
  FUNGIBLE | NFT1_GROUP | NFT1_CHILD | UNKNOWN_TOKEN_TYPE.

Inductive UtxoStateVariant : Type := UNSPENT | SPENT | NO_SUCH_TX | NO_SUCH_OUTPUT.

Module OutPoint.
Record t : Type := mk { txid : string; outIdx : Z }.
End OutPoint.

Module SlpToken.
Record t : Type := mk { amount : Long; isMintBaton : bool }.
End SlpToken.

Module SlpBurn.
Record t : Type := mk { token : SlpToken.t; tokenId : string }.
End SlpBurn.

Module SlpGenesisInfo.
Record t : Type := mk {
  tokenTicker : string;
  tokenName : string;
  tokenDocumentUrl : string;
  tokenDocumentHash : string;
  decimals : Z
}.
End SlpGenesisInfo.

Module SlpMeta.
Record t : Type := mk {
  tokenType : SlpTokenType;
  txType : SlpTxType;
  tokenId : string;
  groupTokenId : option string
}.
End SlpMeta.

Module SlpTxData.
Record t : Type := mk { slpMeta : SlpMeta.t; genesisInfo : option SlpGenesisInfo.t }.
End SlpTxData.

Module BlockMetadata.
Record t : Type := mk { height : Z; hash : string; timestamp : Long }.
End BlockMetadata.

Module TxInput.
Record t : Type := mk {
  prevOut : OutPoint.t;
  inputScript : string;
  outputScript : option string;
  value : Long;
  sequenceNo : Z;
  slpBurn : option SlpBurn.t;
  slpToken : option SlpToken.t
}.
End TxInput.

Module TxOutput.
Record t : Type := mk {
  value : Long;
  outputScript : string;
  slpToken : option SlpToken.t;
  spentBy : option OutPoint.t
}.
End TxOutput.

Module Tx.
Record t : Type := mk {
  txid : string;
  version : Z;
  inputs : list TxInput.t;
  outputs : list TxOutput.t;
  lockTime : Z;
  slpTxData : option SlpTxData.t;
  slpErrorMsg : option string;
  block : option BlockMetadata.t;
  timeFirstSeen : Long;
  network : Network
}.
End Tx.

Module Utxo.
Record t : Type := mk {
  outpoint : OutPoint.t;
  blockHeight : Z;
  isCoinbase : bool;
  value : Long;
  slpMeta : option SlpMeta.t;
  slpToken : option SlpToken.t;
  network : Network
}.
End Utxo.

Module ScriptUtxos.
Record t : Type := mk { outputScript : string; utxos : list Utxo.t }.
End ScriptUtxos.

Module BlockInfo.
Record t : Type := mk {
  hash : string;
  prevHash : string;
  height : Z;
  nBits : Z;
  timestamp : Long;
  blockSize : Long;
  numTxs : Long;
  numInputs : Long;
  numOutputs : Long;
  sumInputSats : Long;
  sumCoinbaseOutputSats : Long;
  sumNormalOutputSats : Long;
  sumBurnedSats : Long
}.
End BlockInfo.

Module UtxoState.
Record t : Type := mk { height : Z; isConfirmed : bool; state : UtxoStateVariant }.
End UtxoState.

(** ** index.ts: the conversion functions *)

(** A number inside a template string. *)
Definition show (n : Z) : string := NilZero.string_of_int (Z.to_int n).

(** A [switch] over the values of an enum of [chronik.ts]. *)
Definition convertToNetwork (network : Z) : result Network :=
  if network =? proto.Network.BCH then Ok BCH
  else if network =? proto.Network.XEC then Ok XEC
  else if network =? proto.Network.XPI then Ok XPI
  else if network =? proto.Network.XRG then Ok XRG
  else Throw (JsError ("Unknown network: " ++ show network)).

Definition convertToUtxoStateVariant (variant : Z) : result UtxoStateVariant :=
  if variant =? proto.UtxoStateVariant.UNSPENT then Ok UNSPENT
  else if variant =? proto.UtxoStateVariant.SPENT then Ok SPENT
  else if variant =? proto.UtxoStateVariant.NO_SUCH_TX then Ok NO_SUCH_TX
  else if variant =? proto.UtxoStateVariant.NO_SUCH_OUTPUT then Ok NO_SUCH_OUTPUT
  else Throw (JsError ("Unknown UtxoStateVariant: " ++ show variant)).

Definition convertToSlpToken (token : proto.SlpToken.t) : SlpToken.t :=
  SlpToken.mk (proto.SlpToken.amount token) (proto.SlpToken.isMintBaton token).

Definition convertToSlpBurn (burn : proto.SlpBurn.t) : result SlpBurn.t :=
  match proto.SlpBurn.token burn with
  | None => Throw (JsError "Invalid burn: token is undefined")
  | Some token =>
      Ok (SlpBurn.mk (convertToSlpToken token) (hex.toHex (proto.SlpBurn.tokenId burn)))
  end.

Definition convertToBlockInfo (block : proto.BlockInfo.t) : BlockInfo.t :=
  BlockInfo.mk
    (hex.toHexRev (proto.BlockInfo.hash block))
    (hex.toHexRev (proto.BlockInfo.prevHash block))
    (proto.BlockInfo.height block)
    (proto.BlockInfo.nBits block)
    (proto.BlockInfo.timestamp block)
    (proto.BlockInfo.blockSize block)
    (proto.BlockInfo.numTxs block)
    (proto.BlockInfo.numInputs block)
    (proto.BlockInfo.numOutputs block)
    (proto.BlockInfo.sumInputSats block)
    (proto.BlockInfo.sumCoinbaseOutputSats block)
    (proto.BlockInfo.sumNormalOutputSats block)
    (proto.BlockInfo.sumBurnedSats block).

Definition convertToBlockMeta (block : proto.BlockMetadata.t) : BlockMetadata.t :=
  BlockMetadata.mk
    (proto.BlockMetadata.height block)
    (hex.toHexRev (proto.BlockMetadata.hash block))
    (proto.BlockMetadata.timestamp block).

(** [new TextDecoder().decode(bytes)] *)
Definition TextDecoder_decode (bs : bytes) : string := string_of_list_byte bs.

Definition convertToSlpGenesisInfo (info : proto.SlpGenesisInfo.t) : SlpGenesisInfo.t :=
  SlpGenesisInfo.mk
    (TextDecoder_decode (proto.SlpGenesisInfo.tokenTicker info))
    (TextDecoder_decode (proto.SlpGenesisInfo.tokenName info))
    (TextDecoder_decode (proto.SlpGenesisInfo.tokenDocumentUrl info))
    (hex.toHex (proto.SlpGenesisInfo.tokenDocumentHash info))
    (proto.SlpGenesisInfo.decimals info).

Definition convertToSlpMeta (slpMeta : proto.SlpMeta.t) : result SlpMeta.t :=
  let tokenType := proto.SlpMeta.tokenType slpMeta in
  let txType := proto.SlpMeta.txType slpMeta in
  tokenType <-
    (if tokenType =? proto.SlpTokenType.FUNGIBLE then Ok FUNGIBLE
     else if tokenType =? proto.SlpTokenType.NFT1_GROUP then Ok NFT1_GROUP
     else if tokenType =? proto.SlpTokenType.NFT1_CHILD then Ok NFT1_CHILD
     else if tokenType =? proto.SlpTokenType.UNKNOWN_TOKEN_TYPE then Ok UNKNOWN_TOKEN_TYPE
     else Throw (JsError ("Invalid token type: " ++ show tokenType))) ;;
  txType <-
    (if txType =? proto.SlpTxType.GENESIS then Ok GENESIS
     else if txType =? proto.SlpTxType.SEND then Ok SEND
     else if txType =? proto.SlpTxType.MINT then Ok MINT
     else if txType =? proto.SlpTxType.UNKNOWN_TX_TYPE then Ok UNKNOWN_TX_TYPE
     else Throw (JsError ("Invalid token type: " ++ show txType))) ;;
  Ok (SlpMeta.mk tokenType txType
        (hex.toHex (proto.SlpMeta.tokenId slpMeta))
        (if (List.length (proto.SlpMeta.groupTokenId slpMeta) =? 32)%nat
         then Some (hex.toHex (proto.SlpMeta.groupTokenId slpMeta))
         else None)).

Definition convertToSlpTxData (slpTxData : proto.SlpTxData.t) : result SlpTxData.t :=
  match proto.SlpTxData.slpMeta slpTxData with
  | None => Throw (JsError "Invalid slpTxData: slpMeta is undefined")
  | Some slpMeta =>
      slpMeta <- convertToSlpMeta slpMeta ;;
      Ok (SlpTxData.mk slpMeta
            (option_map convertToSlpGenesisInfo (proto.SlpTxData.genesisInfo slpTxData)))
  end.

Definition convertToTxOutput (output : proto.TxOutput.t) : TxOutput.t :=
  TxOutput.mk
    (proto.TxOutput.value output)
    (hex.toHex (proto.TxOutput.outputScript output))
    (option_map convertToSlpToken (proto.TxOutput.slpToken output))
    (match proto.TxOutput.spentBy output with
     | Some spentBy =>
         Some (OutPoint.mk (hex.toHex (proto.OutPoint.txid spentBy))
                 (proto.OutPoint.outIdx spentBy))
     | None => None
     end).

Definition convertToTxInput (input : proto.TxInput.t) : result TxInput.t :=
  match proto.TxInput.prevOut input with
  | None => Throw (JsError "Invalid proto, no prevOut")
  | Some prevOut =>
      slpBurn <-
        match proto.TxInput.slpBurn input with
        | Some slpBurn => slpBurn <- convertToSlpBurn slpBurn ;; Ok (Some slpBurn)
        | None => Ok None
        end ;;
      Ok (TxInput.mk
            (OutPoint.mk (hex.toHexRev (proto.OutPoint.txid prevOut))
               (proto.OutPoint.outIdx prevOut))
            (hex.toHex (proto.TxInput.inputScript input))
            (if (0 <? List.length (proto.TxInput.outputScript input))%nat
             then Some (hex.toHex (proto.TxInput.outputScript input))
             else None)
            (proto.TxInput.value input)
            (proto.TxInput.sequenceNo input)
            slpBurn
            (option_map convertToSlpToken (proto.TxInput.slpToken input)))
  end.

Definition convertToUtxo (utxo : proto.Utxo.t) : result Utxo.t :=
  match proto.Utxo.outpoint utxo with
  | None => Throw (JsError "UTXO outpoint is undefined")
  | Some outpoint =>
      slpMeta <-
        match proto.Utxo.slpMeta utxo with
        | Some slpMeta => slpMeta <- convertToSlpMeta slpMeta ;; Ok (Some slpMeta)
        | None => Ok None
        end ;;
      network <- convertToNetwork (proto.Utxo.network utxo) ;;
      Ok (Utxo.mk
            (OutPoint.mk (hex.toHexRev (proto.OutPoint.txid outpoint))
               (proto.OutPoint.outIdx outpoint))
            (proto.Utxo.blockHeight utxo)
            (proto.Utxo.isCoinbase utxo)
            (proto.Utxo.value utxo)
            slpMeta
            (option_map convertToSlpToken (proto.Utxo.slpToken utxo))
            network)
  end.

Definition convertToTx (tx : proto.Tx.t) : result Tx.t :=
  inputs <- mapM convertToTxInput (proto.Tx.inputs tx) ;;
  let outputs := map convertToTxOutput (proto.Tx.outputs tx) in
  slpTxData <-
    match proto.Tx.slpTxData tx with
    | Some slpTxData => slpTxData <- convertToSlpTxData slpTxData ;; Ok (Some slpTxData)
    | None => Ok None
    end ;;
  network <- convertToNetwork (proto.Tx.network tx) ;;
  Ok (Tx.mk
        (hex.toHexRev (proto.Tx.txid tx))
        (proto.Tx.version tx)
        inputs
        outputs
        (proto.Tx.lockTime tx)
        slpTxData
        (if negb (String.length (proto.Tx.slpErrorMsg tx) =? 0)%nat
         then Some (proto.Tx.slpErrorMsg tx) else None)
        (option_map convertToBlockMeta (proto.Tx.block tx))
        (proto.Tx.timeFirstSeen tx)
        network).

(** ** index.ts: the HTTP helpers

    axios is the transport: a request either fails (the promise rejects) or
    yields a response with a status and a body; [validateStatus: undefined]
    makes every status a response. *)
Record AxiosResponse : Type := mkResponse { status : Z; data : bytes }.

Record Axios : Type := mkAxios {
  axios_get : string -> result AxiosResponse;
  axios_post : string -> bytes -> result AxiosResponse
}.

Definition ensureResponseErrorThrown (response : AxiosResponse) (path : string)
  : result unit :=
  if negb (status response =? 200) then
    error <- Wire.decode_bytes proto.Error.decode (data response) ;;
    Throw (JsError ("Failed getting " ++ path ++ " (" ++ proto.Error.errorCode error
                    ++ "): " ++ proto.Error.msg error))
  else Ok tt.

Definition _get (axios : Axios) (url path : string) : result bytes :=
  response <- axios_get axios (url ++ path) ;;
  _ <- ensureResponseErrorThrown response path ;;
  Ok (data response).

Definition _post (axios : Axios) (url path : string) (body : bytes) : result bytes :=
  response <- axios_post axios (url ++ path) body ;;
  _ <- ensureResponseErrorThrown response path ;;
  Ok (data response).

(** ** index.ts: [ChronikClient] *)

(** [s.endsWith(suffix)] *)
Fixpoint endsWith (s suffix : string) : bool :=
  (s =? suffix)%string
  || match s with
     | EmptyString => false
     | String _ s' => endsWith s' suffix
     end.

(** [s.startsWith(prefix)] *)
Definition startsWith (s prefix : string) : bool := String.prefix prefix s.

(** [s.substr(start)] *)
Definition substr (s : string) (start : nat) : string :=
  substring start (String.length s - start) s.

Record ChronikClient : Type := mkClient { _url : string; _wsUrl : string }.

Definition ChronikClient_new (url : string) : result ChronikClient :=
  if endsWith url "/" then
    Throw (JsError ("`url` cannot end with '/', got: " ++ url))
  else if startsWith url "https://" then
    Ok (mkClient url ("wss://" ++ substr url (String.length "https://")))
  else if startsWith url "http://" then
    Ok (mkClient url ("ws://" ++ substr url (String.length "http://")))
  else
    Throw (JsError ("`url` must start with 'https://' or 'http://', got: " ++ url)).

Definition ChronikClient_tx (axios : Axios) (client : ChronikClient) (txid : string)
  : result Tx.t :=
  data <- _get axios (_url client) ("/tx/" ++ txid) ;;
  tx <- Wire.decode_bytes proto.Tx.decode data ;;
  convertToTx tx.

(** The request of [validateUtxos]:
    [outpoints.map(outpoint => ({ txid: fromHexRev(outpoint.txid), outIdx: outpoint.outIdx }))] *)
Definition validateUtxos_outpoint (outpoint : OutPoint.t) : result proto.OutPoint.t :=
  txid <- hex.fromHexRev (OutPoint.txid outpoint) ;;
  Ok (proto.OutPoint.mk txid (OutPoint.outIdx outpoint)).

Definition validateUtxos_request (outpoints : list OutPoint.t) : result bytes :=
  outpoints <- mapM validateUtxos_outpoint outpoints ;;
  Ok (Wire.Writer_finish
        (proto.ValidateUtxoRequest.encode
           (proto.ValidateUtxoRequest.mk outpoints) Wire.Writer_create)).

(** The result of [validateUtxos]:
    [state => ({ height: state.height, isConfirmed: state.isConfirmed,
                 state: convertToUtxoStateVariant(state.state) })] *)
Definition validateUtxos_state (state : proto.UtxoState.t) : result UtxoState.t :=
  variant <- convertToUtxoStateVariant (proto.UtxoState.state state) ;;
  Ok (UtxoState.mk (proto.UtxoState.height state) (proto.UtxoState.isConfirmed state)
        variant).

Definition ChronikClient_validateUtxos (axios : Axios) (client : ChronikClient)
    (outpoints : list OutPoint.t) : result (list UtxoState.t) :=
  request <- validateUtxos_request outpoints ;;
  data <- _post axios (_url client) "/validate-utxos" request ;;
  validationStates <- Wire.decode_bytes proto.ValidateUtxoResponse.decode data ;;
  mapM validateUtxos_state (proto.ValidateUtxoResponse.utxoStates validationStates).

(** [ScriptEndpoint.utxos] *)
Definition ScriptEndpoint_utxos (axios : Axios) (url scriptType scriptPayload : string)
  : result (list ScriptUtxos.t) :=
  data <- _get axios url ("/script/" ++ scriptType ++ "/" ++ scriptPayload ++ "/utxos") ;;
  utxos <- Wire.decode_bytes proto.Utxos.decode data ;;
  mapM (fun scriptUtxos =>
          utxos <- mapM convertToUtxo (proto.ScriptUtxos.utxos scriptUtxos) ;;
          Ok (ScriptUtxos.mk (hex.toHex (proto.ScriptUtxos.outputScript scriptUtxos)) utxos))
       (proto.Utxos.scriptUtxos utxos).

(** ** index.ts: [WsEndpoint]

    The endpoint is its fields; the websockets it creates are numbered in
    the order of their creation, and [trace] records what the endpoint does
    to the outside: the sockets it opens, the calls of [send] that return,
    the sockets it closes and its calls of [config.onReconnect].

    A socket is an object of the WebSocket interface (the [ws] package
    under Node, the browser's own otherwise), which is not part of the
    sources; of it the endpoint's current socket keeps its [readyState]:
    a new socket is CONNECTING, it is OPEN from its [open] event on,
    CLOSING once [close()] was called on it and CLOSED from its [close]
    event on.  [send] throws while the socket is CONNECTING and returns in
    every other state; what a socket does with a frame is not modelled.
    A socket raises [open] only while it is CONNECTING.

    [onopen] and [onclose] are the events of the current socket with the
    handlers [ws.onopen] and [ws.onclose] that [_connect] installs; a method
    that throws keeps the changes it made before. *)
Module WsEndpoint.

Record Sub : Type := mkSub { scriptType : string; scriptPayload : string }.

Inductive ReadyState : Type := CONNECTING | OPEN | CLOSING | CLOSED.

Inductive effect : Type :=
| NewWebSocket (id : nat) (url : string)
| Send (id : nat) (frame : bytes)
| CloseSocket (id : nat)
| OnReconnect.

Record t : Type := mk {
  _ws : option nat;
  _wsUrl : string;
  onReconnect : bool;      (* [config.onReconnect !== undefined] *)
  _closed : bool;
  _subs : list Sub;
  sockets : nat;           (* the number of sockets created so far *)
  readyState : ReadyState; (* [this._ws.readyState] *)
  trace : list effect
}.

Definition emit (ev : effect) (e : t) : t :=
  mk (_ws e) (_wsUrl e) (onReconnect e) (_closed e) (_subs e) (sockets e) (readyState e)
    (trace e ++ [ev]).

Definition with_subs (subs : list Sub) (e : t) : t :=
  mk (_ws e) (_wsUrl e) (onReconnect e) (_closed e) subs (sockets e) (readyState e)
    (trace e).

Definition with_readyState (state : ReadyState) (e : t) : t :=
  mk (_ws e) (_wsUrl e) (onReconnect e) (_closed e) (_subs e) (sockets e) state (trace e).

Definition _connect (e : t) : t :=
  let id := sockets e in
  emit (NewWebSocket id (_wsUrl e))
    (mk (Some id) (_wsUrl e) (onReconnect e) (_closed e) (_subs e) (S id) CONNECTING
       (trace e)).

Definition new (wsUrl : string) (config_onReconnect : bool) : t :=
  _connect (mk None wsUrl config_onReconnect false [] 0 CLOSED []).

(** The frame of a subscription. *)
Definition frame (isSubscribe : bool) (scriptType : string) (payload : bytes) : bytes :=
  Wire.Writer_finish
    (proto.Subscription.encode
       (proto.Subscription.mk scriptType payload isSubscribe) Wire.Writer_create).

(** The error of [send] on a socket that is not open yet. *)
Definition not_open : error := JsError "WebSocket is not open: readyState 0 (CONNECTING)".

(** [this._ws.send(data)] *)
Definition WebSocket_send (ws : nat) (data : bytes) (e : t) : result unit * t :=
  match readyState e with
  | CONNECTING => (Throw not_open, e)
  | _ => (Ok tt, emit (Send ws data) e)
  end.

Definition _subUnsub (isSubscribe : bool) (scriptType scriptPayload : string) (e : t)
  : result unit * t :=
  match hex.fromHex scriptPayload with
  | Throw err => (Throw err, e)
  | Ok payload =>
      let encodedSubscription := frame isSubscribe scriptType payload in
      match _ws e with
      | None => (Throw (JsError "Invalid state; _ws is undefined"), e)
      | Some ws => WebSocket_send ws encodedSubscription e
      end
  end.

Definition subscribe (scriptType scriptPayload : string) (e : t) : result unit * t :=
  _subUnsub true scriptType scriptPayload
    (with_subs (_subs e ++ [mkSub scriptType scriptPayload]) e).

Definition unsubscribe (scriptType scriptPayload : string) (e : t) : result unit * t :=
  _subUnsub false scriptType scriptPayload
    (with_subs
       (filter
          (fun sub =>
             negb (WsEndpoint.scriptType sub =? scriptType)%string
             || negb (WsEndpoint.scriptPayload sub =? scriptPayload)%string)
          (_subs e))
       e).

(** [this._closed = true; this._ws?.close()]; [close()] on a socket leaves
    a CLOSED socket as it is and makes any other CLOSING. *)
Definition close (e : t) : t :=
  let e :=
    mk (_ws e) (_wsUrl e) (onReconnect e) true (_subs e) (sockets e) (readyState e)
      (trace e) in
  match _ws e with
  | Some ws =>
      emit (CloseSocket ws)
        (with_readyState (match readyState e with CLOSED => CLOSED | _ => CLOSING end) e)
  | None => e
  end.

(** [this._subs.forEach(sub => this._subUnsub(true, sub.scriptType, sub.scriptPayload))] *)
Fixpoint resubscribe (subs : list Sub) (e : t) : result unit * t :=
  match subs with
  | [] => (Ok tt, e)
  | sub :: subs' =>
      match _subUnsub true (scriptType sub) (scriptPayload sub) e with
      | (Ok _, e) => resubscribe subs' e
      | (Throw err, e) => (Throw err, e)
      end
  end.

(** The current socket opens: it is OPEN, and [ws.onopen] runs. *)
Definition onopen (e : t) : result unit * t :=
  let e := with_readyState OPEN e in
  resubscribe (_subs e) e.

(** The current socket closes: it is CLOSED, and [ws.onclose] runs. *)
Definition onclose (e : t) : t :=
  let e := with_readyState CLOSED e in
  if _closed e then e
  else
    let e := if onReconnect e then emit OnReconnect e else e in
    _connect e.

(** What may happen to an endpoint: calls of its methods and events of
    its current socket. *)
Inductive action : Type :=
| Subscribe (scriptType scriptPayload : string)
| Unsubscribe (scriptType scriptPayload : string)
| Close
| SocketOpened
| SocketClosed.

Definition act (e : t) (a : action) : t :=
  match a with
  | Subscribe scriptType scriptPayload => snd (subscribe scriptType scriptPayload e)
  | Unsubscribe scriptType scriptPayload => snd (unsubscribe scriptType scriptPayload e)
  | Close => close e
  | SocketOpened =>
      match readyState e with
      | CONNECTING => snd (onopen e)
      | _ => e
      end
  | SocketClosed => onclose e
  end.

Definition acts (e : t) (l : list action) : t := fold_left act l e.

(** The subscribe frame of an entry of the subscription list. *)
Definition subscribe_frame (sub : Sub) : result bytes :=
  payload <- hex.fromHex (scriptPayload sub) ;;
  Ok (frame true (scriptType sub) payload).

(** The sockets opened in a trace. *)
Definition opened (tr : list effect) : list nat :=
  flat_map (fun ev => match ev with NewWebSocket id _ => [id] | _ => [] end) tr.

End WsEndpoint.

(** ** index.ts: the other queries of the client *)

Module Block.
Record t : Type := mk { blockInfo : BlockInfo.t; txs : list Tx.t }.
End Block.

Module TxHistoryPage.
Record t : Type := mk { txs : list Tx.t; numPages : Z }.
End TxHistoryPage.

Definition convertToBlock (block : proto.Block.t) : result Block.t :=
  match proto.Block.blockInfo block with
  | None => Throw (JsError "Block has no blockInfo")
  | Some blockInfo =>
      txs <- mapM convertToTx (proto.Block.txs block) ;;
      Ok (Block.mk (convertToBlockInfo blockInfo) txs)
  end.

(** [hashOrHeight: string | number] inside a template string. *)
Definition showHashOrHeight (hashOrHeight : string + Z) : string :=
  match hashOrHeight with
  | inl hash => hash
  | inr height => show height
  end.

Definition ChronikClient_block (axios : Axios) (client : ChronikClient)
    (hashOrHeight : string + Z) : result Block.t :=
  data <- _get axios (_url client) ("/block/" ++ showHashOrHeight hashOrHeight) ;;
  block <- Wire.decode_bytes proto.Block.decode data ;;
  convertToBlock block.

Definition ChronikClient_blocks (axios : Axios) (client : ChronikClient)
    (startHeight endHeight : Z) : result (list BlockInfo.t) :=
  data <- _get axios (_url client)
            ("/blocks/" ++ show startHeight ++ "/" ++ show endHeight) ;;
  blocks <- Wire.decode_bytes proto.Blocks.decode data ;;
  Ok (map convertToBlockInfo (proto.Blocks.blocks blocks)).

(** [ChronikClient.script] and the endpoint it returns. *)
Record ScriptEndpoint : Type := mkScriptEndpoint {
  ScriptEndpoint_url : string;
  _scriptType : string;
  _scriptPayload : string
}.

Definition ChronikClient_script (client : ChronikClient) (scriptType scriptPayload : string)
  : ScriptEndpoint :=
  mkScriptEndpoint (_url client) scriptType scriptPayload.

(** The query string of [ScriptEndpoint.history]. *)
Definition history_query (page pageSize : option Z) : string :=
  match page, pageSize with
  | Some page, Some pageSize => "?page=" ++ show page ++ "&page_size=" ++ show pageSize
  | Some page, None => "?page=" ++ show page
  | None, Some pageSize => "?page_size=" ++ show pageSize
  | None, None => ""
  end.

Definition ScriptEndpoint_history (axios : Axios) (endpoint : ScriptEndpoint)
    (page pageSize : option Z) : result TxHistoryPage.t :=
  let query := history_query page pageSize in
  data <- _get axios (ScriptEndpoint_url endpoint)
            ("/script/" ++ _scriptType endpoint ++ "/" ++ _scriptPayload endpoint
             ++ "/history" ++ query) ;;
  historyPage <- Wire.decode_bytes proto.TxHistoryPage.decode data ;;
  txs <- mapM convertToTx (proto.TxHistoryPage.txs historyPage) ;;
  Ok (TxHistoryPage.mk txs (proto.TxHistoryPage.numPages historyPage)).

(** [ChronikClient.ws]; of [config] the endpoint's model keeps whether
    [onReconnect] is defined. *)
Definition ChronikClient_ws (client : ChronikClient) (config_onReconnect : bool)
  : WsEndpoint.t :=
  WsEndpoint.new (_wsUrl client ++ "/ws") config_onReconnect.

(** ** index.ts: the messages of the websocket *)

Module SubscribeMsg.
Inductive t : Type :=
| Error (errorCode msg : string) (isUserError : bool)
| MsgAddedToMempool (txid : string)
| MsgRemovedFromMempool (txid : string)
| MsgConfirmed (txid : string)
| MsgReorg (txid : string).
End SubscribeMsg.

(** [WsEndpoint._handleMsg]: [Ok (Some msg)] is the call
    [config.onMessage(msg)], [Ok None] a return without a call; the bytes
    are those of the event, a [Buffer] or the content of a [Blob]. *)
Definition _handleMsg (config_onMessage : bool) (data : bytes)
  : result (option SubscribeMsg.t) :=
  if negb config_onMessage then Ok None
  else
    msg <- Wire.decode_bytes proto.SubscribeMsg.decode data ;;
    match proto.SubscribeMsg.error msg with
    | Some error =>
        Ok (Some (SubscribeMsg.Error (proto.Error.errorCode error) (proto.Error.msg error)
                    (proto.Error.isUserError error)))
    | None =>
    match proto.SubscribeMsg.AddedToMempool msg with
    | Some added =>
        Ok (Some (SubscribeMsg.MsgAddedToMempool
                    (hex.toHexRev (proto.MsgAddedToMempool.txid added))))
    | None =>
    match proto.SubscribeMsg.RemovedFromMempool msg with
    | Some removed =>
        Ok (Some (SubscribeMsg.MsgRemovedFromMempool
                    (hex.toHexRev (proto.MsgRemovedFromMempool.txid removed))))
    | None =>
    match proto.SubscribeMsg.Confirmed msg with
    | Some confirmed =>
        Ok (Some (SubscribeMsg.MsgConfirmed
                    (hex.toHexRev (proto.MsgConfirmed.txid confirmed))))
    | None =>
    match proto.SubscribeMsg.Reorg msg with
    | Some reorg =>
        Ok (Some (SubscribeMsg.MsgReorg (hex.toHexRev (proto.MsgReorg.txid reorg))))
    | None => Throw (JsError "Unknown message: [object Object]")
    end end end end end.

(** ** chronik.proto: the schema file

    The messages [Utxo] and [Utxos] and the enums as
    [chronik-http/proto/chronik.proto] declares them.  The messages
    [OutPoint], [BlockMetadata], [SlpMeta] and [SlpToken] which they nest
    have the same fields, numbers and types in the schema file as in
    [chronik.ts], so the modules of [proto] stand for them.  [wire] is the
    proto3 encoding of a message of the schema: the fields in the order of
    their numbers, a field that holds its default value left out. *)
Module RefSchema.
Import Wire.

Module SlpTxType.
Definition GENESIS : Z := 0.
Definition SEND : Z := 1.
Definition MINT : Z := 2.
Definition UNKNOWN_TX_TYPE : Z := 3.
End SlpTxType.

Module Network.
Definition BCH : Z := 0.
Definition XEC : Z := 1.
Definition XPI : Z := 2.
Definition XRG : Z := 3.
End Network.

Module UtxoStateVariant.
Definition UNSPENT : Z := 0.
Definition SPENT : Z := 1.
Definition NO_SUCH_TX : Z := 2.
Definition NO_SUCH_OUTPUT : Z := 3.
End UtxoStateVariant.

Module Utxo.
Record t : Type := mk {
  outpoint : option proto.OutPoint.t;         (* OutPoint outpoint = 1 *)
  block : option proto.BlockMetadata.t;       (* BlockMetadata block = 2 *)
  is_coinbase : bool;                         (* bool is_coinbase = 3 *)
  output_script : bytes;                      (* bytes output_script = 4 *)
  value : Long;                               (* int64 value = 5 *)
  slp_meta : option proto.SlpMeta.t;          (* SlpMeta slp_meta = 6 *)
  slp_token : option proto.SlpToken.t;        (* SlpToken slp_token = 7 *)
  time_first_seen : Long;                     (* int64 time_first_seen = 8 *)
  network : Z                                 (* Network network = 9 *)
}.

Definition wire (m : t) : bytes :=
  f_msg 1 (option_map proto.OutPoint.wire (outpoint m))
  ++ f_msg 2 (option_map proto.BlockMetadata.wire (block m))
  ++ f_bool 3 (is_coinbase m)
  ++ f_bytes 4 (output_script m)
  ++ f_int64 5 (value m)
  ++ f_msg 6 (option_map proto.SlpMeta.wire (slp_meta m))
  ++ f_msg 7 (option_map proto.SlpToken.wire (slp_token m))
  ++ f_int64 8 (time_first_seen m)
  ++ f_int32 9 (network m).

Definition wf (m : t) : Prop :=
  opt_wf proto.OutPoint.wf proto.OutPoint.wire (outpoint m)
  /\ opt_wf proto.BlockMetadata.wf proto.BlockMetadata.wire (block m)
  /\ fits (output_script m)
  /\ Long_wf false (value m)
  /\ opt_wf proto.SlpMeta.wf proto.SlpMeta.wire (slp_meta m)
  /\ opt_wf proto.SlpToken.wf proto.SlpToken.wire (slp_token m)
  /\ Long_wf false (time_first_seen m)
  /\ int32_range (network m).

(** The message of [chronik.ts] with the fields the two have in common. *)
Definition common (m : t) : proto.Utxo.t :=
  proto.Utxo.mk (outpoint m) 0 (is_coinbase m) (value m) (slp_meta m) (slp_token m)
    (network m).
End Utxo.

Module Utxos.
Record t : Type := mk { utxos : list Utxo.t }.  (* repeated Utxo utxos = 1 *)

Definition wire (m : t) : bytes := f_rep 1 (map Utxo.wire (utxos m)).
End Utxos.

(** The claim of wire compatibility for [Utxo]: the decoder of [chronik.ts]
    reads every message of the schema, and reads the fields the schema
    declares at their numbers. *)
Definition Utxo_reads_schema : Prop :=
  forall u : Utxo.t,
    Utxo.wf u ->
    exists m : proto.Utxo.t,
      decode_bytes proto.Utxo.decode (Utxo.wire u) = Ok m
      /\ proto.Utxo.outpoint m = Utxo.outpoint u
      /\ proto.Utxo.isCoinbase m = Utxo.is_coinbase u
      /\ proto.Utxo.value m = Utxo.value u
      /\ proto.Utxo.slpMeta m = Utxo.slp_meta u
      /\ proto.Utxo.slpToken m = Utxo.slp_token u
      /\ proto.Utxo.network m = Utxo.network u.

End RefSchema.

(** * Reading back what was written

    [run field fuel p suffix tl m] is the decoding loop of a message at
    position [p] with [suffix] left of the message and [tl] after it;
    [step] is one turn of the loop. *)
Import Wire.

Definition run {M : Type} (field : nat -> Z -> Reader -> M -> result (M * Reader))
    (fuel p : nat) (suffix tl : bytes) (m : M) : result (M * Reader) :=
  decode_loop field fuel (p + List.length suffix) (mkReader p (suffix ++ tl)) m.

Definition step {M : Type} (field : nat -> Z -> Reader -> M -> result (M * Reader))
    (fuel : nat) (r : Reader) (m : M) : result (M * Reader) :=
  '(tag, r) <- Reader_uint32 r ;; field fuel tag r m.

(** The loop, started on [chunk] with message [m], reaches the end of
    [chunk] with message [m'], whatever follows. *)
Definition chunk_ok {M : Type} (field : nat -> Z -> Reader -> M -> result (M * Reader))
    (chunk : bytes) (m m' : M) : Prop :=
  forall fuel p suffix tl,
    (List.length (chunk ++ suffix ++ tl) < fuel)%nat ->
    exists fuel',
      (List.length (suffix ++ tl) < fuel')%nat /\
      run field fuel p (chunk ++ suffix) tl m
      = run field fuel' (p + List.length chunk) suffix tl m'.

(** One turn of the loop reads exactly the non-empty [chunk]. *)
Definition field_ok {M : Type} (field : nat -> Z -> Reader -> M -> result (M * Reader))
    (chunk : bytes) (m m' : M) : Prop :=
  chunk <> [] /\
  forall fuel p tl,
    (List.length (chunk ++ tl) <= fuel)%nat ->
    step field fuel (mkReader p (chunk ++ tl)) m
    = Ok (m', mkReader (p + List.length chunk) tl).

(** A message type whose encoding decodes back. *)
Definition roundtrips {N : Type} (nfield : nat -> Z -> Reader -> N -> result (N * Reader))
    (nbase : N) (nwire : N -> bytes) (nwf : N -> Prop) : Prop :=
  forall x, nwf x -> chunk_ok nfield (nwire x) nbase x.

(** The endpoint [e'] differs from [e] at most by frames sent. *)
Definition sent_only (e e' : WsEndpoint.t) : Prop :=
  WsEndpoint._subs e' = WsEndpoint._subs e
  /\ WsEndpoint._ws e' = WsEndpoint._ws e
  /\ WsEndpoint._closed e' = WsEndpoint._closed e
  /\ WsEndpoint.sockets e' = WsEndpoint.sockets e
  /\ WsEndpoint._wsUrl e' = WsEndpoint._wsUrl e
  /\ WsEndpoint.onReconnect e' = WsEndpoint.onReconnect e
  /\ WsEndpoint.opened (WsEndpoint.trace e') = WsEndpoint.opened (WsEndpoint.trace e).

(** What holds of an endpoint at any time after its construction: it has
    a current socket, the one created last. *)
Definition WsEndpoint_inv (wsUrl : string) (config_onReconnect : bool)
    (e : WsEndpoint.t) : Prop :=
  WsEndpoint._wsUrl e = wsUrl
  /\ WsEndpoint.onReconnect e = config_onReconnect
  /\ WsEndpoint._ws e = Some (Nat.pred (WsEndpoint.sockets e)).

(** The calls of [subscribe] and [unsubscribe] among the actions. *)
Definition is_call (a : WsEndpoint.action) : Prop :=
  match a with
  | WsEndpoint.Subscribe _ _ | WsEndpoint.Unsubscribe _ _ => True
  | _ => False
  end.

(** ** Tactics *)

Ltac len := repeat rewrite length_app in *; cbn [List.length] in *; try lia.

Ltac fld := first [ lia | assumption | intros; reflexivity ].

Ltac wf_tac :=
  repeat first
    [ split
    | apply Forall_nil
    | apply Forall_cons
    | progress cbv [proto.Tx.wf proto.TxInput.wf proto.TxOutput.wf proto.OutPoint.wf
                    proto.SlpToken.wf proto.SlpBurn.wf proto.SlpMeta.wf
                    proto.SlpTxData.wf proto.SlpGenesisInfo.wf proto.BlockMetadata.wf
                    proto.UtxoState.wf proto.ValidateUtxoRequest.wf
                    proto.ValidateUtxoResponse.wf proto.Error.wf
                    opt_wf list_wf Long_wf int32_range uint32_range fits]
    | reflexivity
    | (vm_compute; congruence) ].

(** ** Statements about the other code *)

(** [decode(encode(m).finish())] is [m], for the messages in [wf]. *)
Definition decodes_back {M : Type} (encode : M -> Writer -> Writer)
    (decode : nat -> Reader -> option Z -> result (M * Reader)) (wf : M -> Prop) : Prop :=
  forall m, wf m -> decode_bytes decode (Writer_finish (encode m Writer_create)) = Ok m.

(** [finish()] of a fresh writer after [encode]. *)
Definition encoded {M : Type} (encode : M -> Writer -> Writer) (m : M) : bytes :=
  Writer_finish (encode m Writer_create).

(** An enum value the conversion functions know. *)
Definition known (v : Z) : Prop := v = 0 \/ v = 1 \/ v = 2 \/ v = 3.

Ltac wf_all :=
  repeat first
    [ split
    | apply Forall_nil
    | apply Forall_cons
    | progress cbv [proto.Tx.wf proto.TxInput.wf proto.TxOutput.wf proto.OutPoint.wf
                    proto.SlpToken.wf proto.SlpBurn.wf proto.SlpMeta.wf
                    proto.SlpTxData.wf proto.SlpGenesisInfo.wf proto.BlockMetadata.wf
                    proto.UtxoState.wf proto.ValidateUtxoRequest.wf
                    proto.ValidateUtxoResponse.wf proto.Error.wf
                    proto.Utxo.wf proto.ScriptUtxos.wf proto.Utxos.wf
                    proto.Subscription.wf proto.BlockInfo.wf proto.Block.wf
                    proto.Blocks.wf proto.TxHistoryPage.wf
                    proto.BroadcastTxRequest.wf proto.BroadcastTxResponse.wf
                    proto.MsgAddedToMempool.wf proto.MsgRemovedFromMempool.wf
                    proto.MsgConfirmed.wf proto.MsgReorg.wf proto.SubscribeMsg.wf
                    opt_wf list_wf Long_wf int32_range uint32_range fits]
    | reflexivity
    | (vm_compute; congruence) ].

(** The payload of a field of wire type [wt]: a varint, 8 bytes, a length
    and as many bytes, or 4 bytes. *)
Definition payload_of (wt : Z) (payload : bytes) : Prop :=
  (wt = 0 /\ exists v : Long, payload = enc_uint64 v)
  \/ (wt = 1 /\ List.length payload = 8%nat)
  \/ (wt = 2 /\ exists bs : bytes, fits bs /\ payload = enc_bytes bs)
  \/ (wt = 5 /\ List.length payload = 4%nat).

(** The messages the conversion functions of [index.ts] accept. *)
Definition meta_convertible (slpMeta : proto.SlpMeta.t) : Prop :=
  known (proto.SlpMeta.tokenType slpMeta) /\ known (proto.SlpMeta.txType slpMeta).

Definition input_convertible (input : proto.TxInput.t) : Prop :=
  proto.TxInput.prevOut input <> None
  /\ forall slpBurn,
       proto.TxInput.slpBurn input = Some slpBurn -> proto.SlpBurn.token slpBurn <> None.

Definition tx_convertible (tx : proto.Tx.t) : Prop :=
  Forall input_convertible (proto.Tx.inputs tx)
  /\ (forall slpTxData,
         proto.Tx.slpTxData tx = Some slpTxData ->
         exists slpMeta,
           proto.SlpTxData.slpMeta slpTxData = Some slpMeta /\ meta_convertible slpMeta)
  /\ known (proto.Tx.network tx).

Definition utxo_convertible (utxo : proto.Utxo.t) : Prop :=
  proto.Utxo.outpoint utxo <> None
  /\ (forall slpMeta, proto.Utxo.slpMeta utxo = Some slpMeta -> meta_convertible slpMeta)
  /\ known (proto.Utxo.network utxo).

(** A server that never answers 200. *)
Definition never_200 (axios : Axios) : Prop :=
  (forall url r, axios_get axios url = Ok r -> status r <> 200)
  /\ (forall url body r, axios_post axios url body = Ok r -> status r <> 200).

(** The calls of [config.onReconnect] in a trace. *)
Definition reconnects (tr : list WsEndpoint.effect) : nat :=
  List.length
    (filter (fun ev => match ev with WsEndpoint.OnReconnect => true | _ => false end) tr).

(** The closings of a socket among the actions that come before the first
    call of [close()]. *)
Fixpoint closings_before_close (history : list WsEndpoint.action) : nat :=
  match history with
  | [] => 0
  | WsEndpoint.Close :: _ => 0
  | WsEndpoint.SocketClosed :: history' => S (closings_before_close history')
  | _ :: history' => closings_before_close history'
  end.

(** The urls of the sockets opened in a trace. *)
Definition opened_urls (tr : list WsEndpoint.effect) : list string :=
  flat_map (fun ev => match ev with WsEndpoint.NewWebSocket _ url => [url] | _ => [] end) tr.

(** The trace of [e'] is the trace of [e] and frames sent. *)
Definition sends_appended (e e' : WsEndpoint.t) : Prop :=
  exists sends,
    WsEndpoint.trace e' = WsEndpoint.trace e ++ sends
    /\ Forall (fun ev => exists id frame, ev = WsEndpoint.Send id frame) sends.

(** The sockets of an endpoint, as its trace shows them: numbered in the
    order of their creation, all to the endpoint's url, with a call of
    [config.onReconnect], when there is one, for each socket but the
    first. *)
Definition WsEndpoint_sockets_inv (wsUrl : string) (config_onReconnect : bool)
    (e : WsEndpoint.t) : Prop :=
  WsEndpoint._wsUrl e = wsUrl
  /\ WsEndpoint.onReconnect e = config_onReconnect
  /\ (0 < WsEndpoint.sockets e)%nat
  /\ WsEndpoint.opened (WsEndpoint.trace e) = seq 0 (WsEndpoint.sockets e)
  /\ opened_urls (WsEndpoint.trace e) = repeat wsUrl (WsEndpoint.sockets e)
  /\ reconnects (WsEndpoint.trace e)
     = if config_onReconnect then Nat.pred (WsEndpoint.sockets e) else 0%nat.
(** * Lemmas on the writer and the reader *)

Lemma byte_to_of_Z (z : Z) : byte_to_Z (byte_of_Z z) = z mod 256.
Proof.
  unfold byte_to_Z, byte_of_Z.
  assert (Hb : 0 <= z mod 256 < 256) by (apply Z.mod_pos_bound; lia).
  destruct (Byte.of_N (Z.to_N (z mod 256))) as [b|] eqn:E.
  - apply Byte.to_of_N in E. rewrite E. lia.
  - apply Byte.of_N_None_iff in E. lia.
Qed.

Lemma varint_S (n : nat) (v : Z) :
  varint (S n) v
  = if v <? 128 then [byte_of_Z v]
    else byte_of_Z (v mod 128 + 128) :: varint n (v / 128).
Proof. reflexivity. Qed.

Lemma read_varint_varint (n : nat) :
  forall (k : nat) (v m acc : Z) (p : nat) (tl : bytes),
    (n < k)%nat -> 0 <= v < 128 ^ Z.of_nat (S n) ->
    read_varint k m acc p (varint (S n) v ++ tl)
    = Ok (acc + v * m, mkReader (p + List.length (varint (S n) v)) tl).
Proof.
  induction n as [|n IH]; intros k v m acc p tl Hk Hv;
    (destruct k as [|k]; [lia|]);
    rewrite varint_S; destruct (v <? 128) eqn:E.
  1, 3: pose proof (proj1 (Z.ltb_lt _ _) E) as E1; cbn [app read_varint List.length];
    rewrite byte_to_of_Z;
    rewrite (Z.mod_small v 256) by lia; rewrite (Z.mod_small v 128) by lia;
    rewrite E; do 2 f_equal; f_equal; lia.
  - apply Z.ltb_ge in E. change (128 ^ Z.of_nat 1) with 128 in Hv. lia.
  - apply Z.ltb_ge in E. cbn [app read_varint List.length].
    rewrite byte_to_of_Z.
    assert (Hm : 0 <= v mod 128 < 128) by (apply Z.mod_pos_bound; lia).
    rewrite (Z.mod_small (v mod 128 + 128) 256) by lia.
    replace ((v mod 128 + 128) mod 128) with (v mod 128)
      by (apply (Z.mod_unique _ _ 1); lia).
    destruct (v mod 128 + 128 <? 128) eqn:E'; [apply Z.ltb_lt in E'; lia|].
    rewrite IH.
    + do 2 f_equal.
      * rewrite (Z.div_mod v 128) at 3 by lia. ring.
      * f_equal. lia.
    + lia.
    + rewrite Nat2Z.inj_succ, Z.pow_succ_r in Hv by lia.
      split; [apply Z.div_pos; lia|].
      apply Z.div_lt_upper_bound; lia.
Qed.

Lemma push_nil w : push [] w = w.
Proof. destruct w; unfold push; cbn. now rewrite app_nil_r. Qed.

Lemma push_push a b w : push b (push a w) = push (a ++ b) w.
Proof. unfold push; cbn. now rewrite app_assoc. Qed.

Lemma push_if (c : bool) a w : (if c then push a w else w) = push (if c then a else []) w.
Proof. destruct c; [reflexivity | now rewrite push_nil]. Qed.

Lemma Writer_uint32_push v w : Writer_uint32 v w = push (enc_uint32 v) w.
Proof. reflexivity. Qed.

Lemma Writer_int32_push v w : Writer_int32 v w = push (enc_int32 v) w.
Proof. unfold Writer_int32, enc_int32. now destruct (toInt32 v <? 0). Qed.

Lemma Writer_uint64_push v w : Writer_uint64 v w = push (enc_uint64 v) w.
Proof. reflexivity. Qed.

Lemma Writer_int64_push v w : Writer_int64 v w = push (enc_uint64 v) w.
Proof. reflexivity. Qed.

Lemma Writer_bool_push v w : Writer_bool v w = push (enc_bool v) w.
Proof. reflexivity. Qed.

Lemma Writer_bytes_push v w : Writer_bytes v w = push (enc_bytes v) w.
Proof. unfold Writer_bytes, enc_bytes. now rewrite Writer_uint32_push, push_push. Qed.

Lemma Writer_string_push v w :
  Writer_string v w = push (enc_bytes (list_byte_of_string v)) w.
Proof. apply Writer_bytes_push. Qed.

Lemma Writer_ldelim_push body w :
  Writer_ldelim (push body (Writer_fork w)) = push (enc_bytes body) w.
Proof.
  unfold Writer_ldelim, Writer_fork, Writer_reset, push, enc_bytes, Writer_uint32.
  cbn. destruct w; cbn. now rewrite app_assoc.
Qed.

Lemma Reader_varint_varint32 v p tl :
  0 <= v < 4294967296 ->
  Reader_varint (mkReader p (varint32 v ++ tl))
  = Ok (v, mkReader (p + List.length (varint32 v)) tl).
Proof.
  intros Hv. unfold Reader_varint, varint32. cbn [pos rest].
  rewrite read_varint_varint; [now rewrite Z.mul_1_r | lia |].
  change (128 ^ Z.of_nat 5) with 34359738368. lia.
Qed.

Lemma Reader_varint_varint64 v p tl :
  0 <= v < 18446744073709551616 ->
  Reader_varint (mkReader p (varint64 v ++ tl))
  = Ok (v, mkReader (p + List.length (varint64 v)) tl).
Proof.
  intros Hv. unfold Reader_varint, varint64. cbn [pos rest].
  rewrite read_varint_varint; [now rewrite Z.mul_1_r | lia |].
  change (128 ^ Z.of_nat 10) with 1180591620717411303424. lia.
Qed.

Lemma toUint32_range v : 0 <= toUint32 v < 4294967296.
Proof. unfold toUint32. apply Z.mod_pos_bound. lia. Qed.

Lemma toInt32_range v : -2147483648 <= toInt32 v < 2147483648.
Proof.
  unfold toInt32.
  pose proof (Z.mod_pos_bound (v + 2147483648) 4294967296). lia.
Qed.

Lemma toUint32_id v : 0 <= v < 4294967296 -> toUint32 v = v.
Proof. intros. unfold toUint32. now apply Z.mod_small. Qed.

Lemma toInt32_id v : -2147483648 <= v < 2147483648 -> toInt32 v = v.
Proof. intros. unfold toInt32. rewrite Z.mod_small; lia. Qed.

Lemma toUint32_idem v : toUint32 (toUint32 v) = toUint32 v.
Proof. apply toUint32_id, toUint32_range. Qed.

Lemma toInt32_idem v : toInt32 (toInt32 v) = toInt32 v.
Proof. apply toInt32_id, toInt32_range. Qed.

Lemma Reader_uint32_enc v p tl :
  Reader_uint32 (mkReader p (enc_uint32 v ++ tl))
  = Ok (toUint32 v, mkReader (p + List.length (enc_uint32 v)) tl).
Proof.
  unfold Reader_uint32, enc_uint32.
  rewrite Reader_varint_varint32 by apply toUint32_range.
  cbn. now rewrite toUint32_idem.
Qed.

Lemma Reader_int32_enc v p tl :
  Reader_int32 (mkReader p (enc_int32 v ++ tl))
  = Ok (toInt32 v, mkReader (p + List.length (enc_int32 v)) tl).
Proof.
  unfold Reader_int32, enc_int32.
  pose proof (toInt32_range v) as Hr.
  destruct (toInt32 v <? 0) eqn:E.
  - apply Z.ltb_lt in E. rewrite Reader_varint_varint64 by lia. cbn.
    do 2 f_equal. unfold toInt32 at 1.
    replace (toInt32 v + 18446744073709551616 + 2147483648)
      with (toInt32 v + 2147483648 + 4294967296 * 4294967296) by lia.
    rewrite Z.mod_add by lia. rewrite Z.mod_small; lia.
  - apply Z.ltb_ge in E. rewrite Reader_varint_varint32 by lia. cbn.
    now rewrite toInt32_idem.
Qed.

Lemma toInt32_toUint32 v : toInt32 (toUint32 v) = toInt32 v.
Proof.
  unfold toInt32, toUint32. now rewrite Zplus_mod_idemp_l.
Qed.

Lemma LongBits_range l : 0 <= LongBits l < 18446744073709551616.
Proof.
  unfold LongBits.
  pose proof (toUint32_range (low l)). pose proof (toUint32_range (high l)). lia.
Qed.

Lemma toLong_LongBits u l : Long_wf u l -> toLong (LongBits l) u = l.
Proof.
  intros (Hl & Hh & Hu). unfold int32_range in *.
  destruct l as [lo hi un]. cbn in *. subst un.
  unfold toLong, LongBits. cbn [low high].
  pose proof (toUint32_range lo) as Rl. pose proof (toUint32_range hi) as Rh.
  f_equal.
  - rewrite <- (toInt32_id lo) at 2 by lia. rewrite <- (toInt32_toUint32 lo).
    unfold toInt32.
    replace (toUint32 lo + 4294967296 * toUint32 hi + 2147483648)
      with (toUint32 lo + 2147483648 + toUint32 hi * 4294967296) by lia.
    now rewrite Z.mod_add by lia.
  - replace ((toUint32 lo + 4294967296 * toUint32 hi) / 4294967296) with (toUint32 hi).
    + rewrite toInt32_toUint32. now apply toInt32_id.
    + apply Z.div_unique with (r := toUint32 lo); lia.
Qed.

Lemma Reader_uint64_enc l p tl :
  Reader_uint64 (mkReader p (enc_uint64 l ++ tl))
  = Ok (toLong (LongBits l) true, mkReader (p + List.length (enc_uint64 l)) tl).
Proof.
  unfold Reader_uint64, enc_uint64.
  now rewrite Reader_varint_varint64 by apply LongBits_range.
Qed.

Lemma Reader_int64_enc l p tl :
  Reader_int64 (mkReader p (enc_uint64 l ++ tl))
  = Ok (toLong (LongBits l) false, mkReader (p + List.length (enc_uint64 l)) tl).
Proof.
  unfold Reader_int64, enc_uint64.
  now rewrite Reader_varint_varint64 by apply LongBits_range.
Qed.

Lemma Reader_bool_enc b p tl :
  Reader_bool (mkReader p (enc_bool b ++ tl))
  = Ok (b, mkReader (p + List.length (enc_bool b)) tl).
Proof.
  destruct b; cbn; do 3 f_equal; lia.
Qed.

Lemma Reader_bytes_enc bs p tl :
  Z.of_nat (List.length bs) < 4294967296 ->
  Reader_bytes (mkReader p (enc_bytes bs ++ tl))
  = Ok (bs, mkReader (p + List.length (enc_bytes bs)) tl).
Proof.
  intros Hl. unfold Reader_bytes, enc_bytes. rewrite <- app_assoc.
  rewrite Reader_uint32_enc. cbn [bind pos rest].
  rewrite toUint32_id by lia. rewrite Nat2Z.id.
  destruct (Nat.ltb_spec (List.length (bs ++ tl)) (List.length bs)) as [H|H].
  - rewrite length_app in H. lia.
  - rewrite firstn_app, Nat.sub_diag, firstn_all, firstn_O, app_nil_r.
    rewrite skipn_app, Nat.sub_diag, skipn_all, skipn_O. cbn [app].
    do 3 f_equal. rewrite length_app. lia.
Qed.

Lemma Reader_string_enc s p tl :
  Z.of_nat (List.length (list_byte_of_string s)) < 4294967296 ->
  Reader_string (mkReader p (enc_bytes (list_byte_of_string s) ++ tl))
  = Ok (s, mkReader (p + List.length (enc_bytes (list_byte_of_string s))) tl).
Proof.
  intros Hl. unfold Reader_string. rewrite Reader_bytes_enc by assumption.
  cbn [bind]. now rewrite string_of_list_byte_of_string.
Qed.

Lemma run_nil {M} (field : nat -> Z -> Reader -> M -> result (M * Reader))
    fuel p tl m :
  run field (S fuel) p [] tl m = Ok (m, mkReader p tl).
Proof.
  unfold run. cbn [decode_loop pos List.length app].
  rewrite Nat.add_0_r, Nat.ltb_irrefl. reflexivity.
Qed.

Lemma run_cons {M} (field : nat -> Z -> Reader -> M -> result (M * Reader))
    fuel p chunk suffix tl m m' :
  chunk <> [] ->
  step field fuel (mkReader p (chunk ++ suffix ++ tl)) m
  = Ok (m', mkReader (p + List.length chunk) (suffix ++ tl)) ->
  run field (S fuel) p (chunk ++ suffix) tl m
  = run field fuel (p + List.length chunk) suffix tl m'.
Proof.
  intros Hne Hstep. unfold run. cbn [decode_loop pos].
  rewrite length_app.
  destruct (Nat.ltb_spec p (p + (List.length chunk + List.length suffix))) as [H|H].
  - unfold step in Hstep. rewrite <- app_assoc.
    destruct (Reader_uint32 _) as [[tag r]|e]; cbn [bind] in *; [|discriminate].
    rewrite Hstep. cbn [bind]. now rewrite Nat.add_assoc.
  - destruct chunk; [congruence | cbn in H; lia].
Qed.


Lemma key_nonempty n wt tl : key n wt ++ tl <> [].
Proof.
  unfold key, enc_uint32, varint32. rewrite varint_S.
  destruct (_ <? 128); discriminate.
Qed.

(** * The decoding loop, field by field *)


Lemma key_length n wt : (1 <= List.length (key n wt))%nat.
Proof.
  unfold key, enc_uint32, varint32. rewrite varint_S.
  destruct (_ <? 128); cbn [List.length]; lia.
Qed.

Lemma Reader_uint32_key n wt p tl :
  0 <= n * 8 + wt < 4294967296 ->
  Reader_uint32 (mkReader p (key n wt ++ tl))
  = Ok (n * 8 + wt, mkReader (p + List.length (key n wt)) tl).
Proof.
  intros H. unfold key. rewrite Reader_uint32_enc. now rewrite toUint32_id.
Qed.

Section Chunks.
Context {M : Type} (field : nat -> Z -> Reader -> M -> result (M * Reader)).

Lemma chunk_ok_nil m : chunk_ok field [] m m.
Proof.
  intros fuel p suffix tl H. exists fuel. cbn [app List.length] in *.
  now rewrite Nat.add_0_r.
Qed.

Lemma chunk_ok_app a b m m1 m2 :
  chunk_ok field a m m1 -> chunk_ok field b m1 m2 -> chunk_ok field (a ++ b) m m2.
Proof.
  intros Ha Hb fuel p suffix tl Hlen.
  destruct (Ha fuel p (b ++ suffix) tl) as (f1 & Hf1 & E1); [len|].
  destruct (Hb f1 (p + List.length a)%nat suffix tl) as (f2 & Hf2 & E2); [len|].
  exists f2. split; [assumption|].
  rewrite <- app_assoc, E1, E2, length_app, Nat.add_assoc. reflexivity.
Qed.

Lemma field_chunk_ok chunk m m' :
  field_ok field chunk m m' -> chunk_ok field chunk m m'.
Proof.
  intros [Hne Hstep] fuel p suffix tl Hlen.
  destruct fuel as [|fuel]; [lia|].
  exists fuel. split.
  - destruct chunk; [congruence|]. len.
  - apply run_cons; [assumption|]. apply Hstep. len.
Qed.

Lemma chunk_ok_run chunk m m' fuel p tl :
  chunk_ok field chunk m m' ->
  (List.length (chunk ++ tl) < fuel)%nat ->
  run field fuel p chunk tl m = Ok (m', mkReader (p + List.length chunk) tl).
Proof.
  intros H Hlen. destruct (H fuel p [] tl) as (f' & Hf' & E); [exact Hlen|].
  rewrite app_nil_r in E. rewrite E.
  destruct f' as [|f']; [lia|]. apply run_nil.
Qed.

End Chunks.

Section Fields.
Context {M : Type} (field : nat -> Z -> Reader -> M -> result (M * Reader)).

(** A field: its key, then its payload. *)
Lemma field_ok_key n wt payload m m' :
  0 <= n * 8 + wt < 4294967296 ->
  (forall fuel p tl,
      (List.length (payload ++ tl) < fuel)%nat ->
      field fuel (n * 8 + wt) (mkReader p (payload ++ tl)) m
      = Ok (m', mkReader (p + List.length payload) tl)) ->
  field_ok field (key n wt ++ payload) m m'.
Proof.
  intros Hk H. split; [apply key_nonempty|].
  intros fuel p tl Hlen. unfold step. rewrite <- app_assoc.
  rewrite Reader_uint32_key by assumption. cbn [bind].
  rewrite H.
  - rewrite length_app, Nat.add_assoc. reflexivity.
  - pose proof (key_length n wt). len.
Qed.

Lemma chunk_f_bytes n (set : bytes -> M -> M) bs m :
  0 <= n * 8 + 2 < 4294967296 ->
  (forall fuel r m,
      field fuel (n * 8 + 2) r m = '(v, r) <- Reader_bytes r ;; Ok (set v m, r)) ->
  fits bs -> set [] m = m ->
  chunk_ok field (f_bytes n bs) m (set bs m).
Proof.
  intros Hk Hf Hfit Hd. unfold f_bytes.
  destruct bs as [|b bs]; cbn [List.length Nat.eqb negb].
  - rewrite Hd. apply chunk_ok_nil.
  - apply field_chunk_ok, field_ok_key; [assumption|].
    intros fuel p tl _. rewrite Hf, Reader_bytes_enc by exact Hfit. reflexivity.
Qed.

Lemma chunk_f_string n (set : string -> M -> M) s m :
  0 <= n * 8 + 2 < 4294967296 ->
  (forall fuel r m,
      field fuel (n * 8 + 2) r m = '(v, r) <- Reader_string r ;; Ok (set v m, r)) ->
  fits (list_byte_of_string s) -> set ""%string m = m ->
  chunk_ok field (f_string n s) m (set s m).
Proof.
  intros Hk Hf Hfit Hd. unfold f_string.
  destruct (String.eqb_spec s "") as [->|Hne]; cbn [negb].
  - rewrite Hd. apply chunk_ok_nil.
  - apply field_chunk_ok, field_ok_key; [assumption|].
    intros fuel p tl _. rewrite Hf, Reader_string_enc by exact Hfit. reflexivity.
Qed.

Lemma chunk_f_uint32 n (set : Z -> M -> M) v m :
  0 <= n * 8 + 0 < 4294967296 ->
  (forall fuel r m,
      field fuel (n * 8 + 0) r m = '(v, r) <- Reader_uint32 r ;; Ok (set v m, r)) ->
  uint32_range v -> set 0 m = m ->
  chunk_ok field (f_uint32 n v) m (set v m).
Proof.
  intros Hk Hf Hr Hd. unfold f_uint32.
  destruct (Z.eqb_spec v 0) as [->|Hne]; cbn [negb].
  - rewrite Hd. apply chunk_ok_nil.
  - apply field_chunk_ok, field_ok_key; [assumption|].
    intros fuel p tl _. rewrite Hf, Reader_uint32_enc. cbn [bind].
    now rewrite toUint32_id by exact Hr.
Qed.

Lemma chunk_f_int32 n (set : Z -> M -> M) v m :
  0 <= n * 8 + 0 < 4294967296 ->
  (forall fuel r m,
      field fuel (n * 8 + 0) r m = '(v, r) <- Reader_int32 r ;; Ok (set v m, r)) ->
  int32_range v -> set 0 m = m ->
  chunk_ok field (f_int32 n v) m (set v m).
Proof.
  intros Hk Hf Hr Hd. unfold f_int32.
  destruct (Z.eqb_spec v 0) as [->|Hne]; cbn [negb].
  - rewrite Hd. apply chunk_ok_nil.
  - apply field_chunk_ok, field_ok_key; [assumption|].
    intros fuel p tl _. rewrite Hf, Reader_int32_enc. cbn [bind].
    now rewrite toInt32_id by exact Hr.
Qed.

Lemma Long_isZero_eq u l : Long_wf u l -> Long_isZero l = true -> l = mkLong 0 0 u.
Proof.
  intros (_ & _ & Hu) Hz. destruct l as [lo hi un]. cbn in *. subst un.
  unfold Long_isZero in Hz. cbn in Hz.
  apply andb_true_iff in Hz. destruct Hz as [Hh Hl].
  apply Z.eqb_eq in Hh, Hl. now subst.
Qed.

Lemma chunk_f_int64 n (set : Long -> M -> M) l m :
  0 <= n * 8 + 0 < 4294967296 ->
  (forall fuel r m,
      field fuel (n * 8 + 0) r m = '(v, r) <- Reader_int64 r ;; Ok (set v m, r)) ->
  Long_wf false l -> set Long_ZERO m = m ->
  chunk_ok field (f_int64 n l) m (set l m).
Proof.
  intros Hk Hf Hr Hd. unfold f_int64.
  destruct (Long_isZero l) eqn:E; cbn [negb].
  - rewrite (Long_isZero_eq false l) by assumption. fold Long_ZERO.
    rewrite Hd. apply chunk_ok_nil.
  - apply field_chunk_ok, field_ok_key; [assumption|].
    intros fuel p tl _. rewrite Hf, Reader_int64_enc. cbn [bind].
    now rewrite toLong_LongBits by exact Hr.
Qed.

Lemma chunk_f_uint64 n (set : Long -> M -> M) l m :
  0 <= n * 8 + 0 < 4294967296 ->
  (forall fuel r m,
      field fuel (n * 8 + 0) r m = '(v, r) <- Reader_uint64 r ;; Ok (set v m, r)) ->
  Long_wf true l -> set Long_UZERO m = m ->
  chunk_ok field (f_int64 n l) m (set l m).
Proof.
  intros Hk Hf Hr Hd. unfold f_int64.
  destruct (Long_isZero l) eqn:E; cbn [negb].
  - rewrite (Long_isZero_eq true l) by assumption. fold Long_UZERO.
    rewrite Hd. apply chunk_ok_nil.
  - apply field_chunk_ok, field_ok_key; [assumption|].
    intros fuel p tl _. rewrite Hf, Reader_uint64_enc. cbn [bind].
    now rewrite toLong_LongBits by exact Hr.
Qed.

Lemma chunk_f_bool n (set : bool -> M -> M) b m :
  0 <= n * 8 + 0 < 4294967296 ->
  (forall fuel r m,
      field fuel (n * 8 + 0) r m = '(v, r) <- Reader_bool r ;; Ok (set v m, r)) ->
  set false m = m ->
  chunk_ok field (f_bool n b) m (set b m).
Proof.
  intros Hk Hf Hd. unfold f_bool. destruct b.
  - apply field_chunk_ok, field_ok_key; [assumption|].
    intros fuel p tl _. rewrite Hf, Reader_bool_enc. reflexivity.
  - rewrite Hd. apply chunk_ok_nil.
Qed.

(** Nested messages. *)
Section Nested.
Context {N : Type} (nfield : nat -> Z -> Reader -> N -> result (N * Reader))
        (nbase : N) (nwire : N -> bytes) (nwf : N -> Prop).
Hypothesis Hrt : roundtrips nfield nbase nwire nwf.

Lemma nested_payload (k : N -> M -> M) n m x :
  (forall fuel r m,
      field fuel (n * 8 + 2) r m
      = '(length, r) <- Reader_uint32 r ;;
        '(v, r) <- decode_loop nfield fuel (decode_end r (Some length)) r nbase ;;
        Ok (k v m, r)) ->
  nwf x -> fits (nwire x) ->
  forall fuel p tl,
    (List.length (enc_bytes (nwire x) ++ tl) < fuel)%nat ->
    field fuel (n * 8 + 2) (mkReader p (enc_bytes (nwire x) ++ tl)) m
    = Ok (k x m, mkReader (p + List.length (enc_bytes (nwire x))) tl).
Proof.
  intros Hf Hx Hfit fuel p tl Hlen. rewrite Hf. unfold enc_bytes in *.
  rewrite <- app_assoc, Reader_uint32_enc. cbn [bind].
  rewrite toUint32_id by (unfold fits in Hfit; lia).
  unfold decode_end. cbn [pos]. rewrite Nat2Z.id.
  fold (run nfield fuel
          (p + List.length (enc_uint32 (Z.of_nat (List.length (nwire x)))))
          (nwire x) tl nbase).
  rewrite (chunk_ok_run nfield (nwire x) nbase x); [| apply Hrt, Hx | len].
  cbn [bind]. rewrite length_app, Nat.add_assoc. reflexivity.
Qed.

Lemma chunk_f_msg n (set : option N -> M -> M) o m :
  0 <= n * 8 + 2 < 4294967296 ->
  (forall fuel r m,
      field fuel (n * 8 + 2) r m
      = '(length, r) <- Reader_uint32 r ;;
        '(v, r) <- decode_loop nfield fuel (decode_end r (Some length)) r nbase ;;
        Ok (set (Some v) m, r)) ->
  opt_wf nwf nwire o -> set None m = m ->
  chunk_ok field (f_msg n (option_map nwire o)) m (set o m).
Proof.
  intros Hk Hf Hwf Hd. destruct o as [x|]; cbn [f_msg option_map].
  - destruct Hwf as [Hx Hfit].
    apply field_chunk_ok, field_ok_key; [assumption|].
    apply (nested_payload (fun v m => set (Some v) m)); assumption.
  - rewrite Hd. apply chunk_ok_nil.
Qed.

Lemma chunk_f_rep n (add : N -> M -> M) (setl : list N -> M -> M) l m :
  0 <= n * 8 + 2 < 4294967296 ->
  (forall fuel r m,
      field fuel (n * 8 + 2) r m
      = '(length, r) <- Reader_uint32 r ;;
        '(v, r) <- decode_loop nfield fuel (decode_end r (Some length)) r nbase ;;
        Ok (add v m, r)) ->
  (forall l x, add x (setl l m) = setl (l ++ [x]) m) ->
  list_wf nwf nwire l -> setl [] m = m ->
  chunk_ok field (f_rep n (map nwire l)) m (setl l m).
Proof.
  intros Hk Hf Hadd Hwf Hd.
  enough (G : forall l2 l1, list_wf nwf nwire l2 ->
              chunk_ok field (f_rep n (map nwire l2)) (setl l1 m) (setl (l1 ++ l2) m)).
  { rewrite <- Hd at 1. apply (G l []). exact Hwf. }
  clear l Hwf. induction l2 as [|x l2 IH]; intros l1 Hwf.
  - rewrite app_nil_r. apply chunk_ok_nil.
  - inversion Hwf as [|? ? [Hx Hfit] Hwf']; subst.
    unfold f_rep. cbn [map List.concat]. fold (f_rep n (map nwire l2)).
    apply chunk_ok_app with (m1 := setl (l1 ++ [x]) m).
    + apply field_chunk_ok, field_ok_key; [assumption|].
      rewrite <- Hadd. apply (nested_payload add); assumption.
    + replace (l1 ++ x :: l2) with ((l1 ++ [x]) ++ l2) by (now rewrite <- app_assoc).
      apply IH. exact Hwf'.
Qed.

End Nested.
End Fields.

(** * What the encoders write *)

Lemma w_bytes n bs w :
  (if negb (List.length bs =? 0)%nat
   then Writer_bytes bs (Writer_uint32 (n * 8 + 2) w) else w)
  = push (f_bytes n bs) w.
Proof.
  unfold f_bytes, key. rewrite Writer_bytes_push, Writer_uint32_push, push_push.
  apply push_if.
Qed.

Lemma w_string n s w :
  (if negb (s =? "")%string
   then Writer_string s (Writer_uint32 (n * 8 + 2) w) else w)
  = push (f_string n s) w.
Proof.
  unfold f_string, key. rewrite Writer_string_push, Writer_uint32_push, push_push.
  apply push_if.
Qed.

Lemma w_uint32 n v w :
  (if negb (v =? 0) then Writer_uint32 v (Writer_uint32 (n * 8 + 0) w) else w)
  = push (f_uint32 n v) w.
Proof.
  unfold f_uint32, key. rewrite !Writer_uint32_push, push_push. apply push_if.
Qed.

Lemma w_int32 n v w :
  (if negb (v =? 0) then Writer_int32 v (Writer_uint32 (n * 8 + 0) w) else w)
  = push (f_int32 n v) w.
Proof.
  unfold f_int32, key. rewrite Writer_int32_push, Writer_uint32_push, push_push.
  apply push_if.
Qed.

Lemma w_int64 n v w :
  (if negb (Long_isZero v) then Writer_int64 v (Writer_uint32 (n * 8 + 0) w) else w)
  = push (f_int64 n v) w.
Proof.
  unfold f_int64, key. rewrite Writer_int64_push, Writer_uint32_push, push_push.
  apply push_if.
Qed.

Lemma w_uint64 n v w :
  (if negb (Long_isZero v) then Writer_uint64 v (Writer_uint32 (n * 8 + 0) w) else w)
  = push (f_int64 n v) w.
Proof. apply w_int64. Qed.

Lemma w_bool n (b : bool) w :
  (if b then Writer_bool b (Writer_uint32 (n * 8 + 0) w) else w)
  = push (f_bool n b) w.
Proof.
  unfold f_bool, key. rewrite Writer_bool_push, Writer_uint32_push, push_push.
  apply push_if.
Qed.

Section NestedEncode.
Context {N : Type} (encode : N -> Writer -> Writer) (wire : N -> bytes).
Hypothesis Henc : forall x w, encode x w = push (wire x) w.

Lemma w_nested n x w :
  Writer_ldelim (encode x (Writer_fork (Writer_uint32 (n * 8 + 2) w)))
  = push (key n 2 ++ enc_bytes (wire x)) w.
Proof.
  rewrite Henc, Writer_ldelim_push, Writer_uint32_push, push_push. reflexivity.
Qed.

Lemma w_msg n o w :
  match o with
  | Some v => Writer_ldelim (encode v (Writer_fork (Writer_uint32 (n * 8 + 2) w)))
  | None => w
  end
  = push (f_msg n (option_map wire o)) w.
Proof.
  destruct o as [x|]; cbn [f_msg option_map].
  - apply w_nested.
  - now rewrite push_nil.
Qed.

Lemma w_rep n l w :
  fold_left
    (fun writer v => Writer_ldelim (encode v (Writer_fork (Writer_uint32 (n * 8 + 2) writer))))
    l w
  = push (f_rep n (map wire l)) w.
Proof.
  revert w. induction l as [|x l IH]; intros w; cbn [fold_left map].
  - unfold f_rep. cbn. now rewrite push_nil.
  - rewrite IH, w_nested, push_push. reflexivity.
Qed.
End NestedEncode.

Lemma OutPoint_encode_wire m w :
  proto.OutPoint.encode m w = push (proto.OutPoint.wire m) w.
Proof.
  unfold proto.OutPoint.encode, proto.OutPoint.wire.
  rewrite (w_bytes 1), (w_uint32 2), ?push_push.
  now rewrite <- ?app_assoc.
Qed.

Lemma SlpToken_encode_wire m w :
  proto.SlpToken.encode m w = push (proto.SlpToken.wire m) w.
Proof.
  unfold proto.SlpToken.encode, proto.SlpToken.wire.
  rewrite (w_uint64 1), (w_bool 2), ?push_push.
  now rewrite <- ?app_assoc.
Qed.

Lemma SlpBurn_encode_wire m w :
  proto.SlpBurn.encode m w = push (proto.SlpBurn.wire m) w.
Proof.
  unfold proto.SlpBurn.encode, proto.SlpBurn.wire.
  rewrite (w_msg _ _ SlpToken_encode_wire 1), (w_bytes 2), ?push_push.
  now rewrite <- ?app_assoc.
Qed.

Lemma SlpGenesisInfo_encode_wire m w :
  proto.SlpGenesisInfo.encode m w = push (proto.SlpGenesisInfo.wire m) w.
Proof.
  unfold proto.SlpGenesisInfo.encode, proto.SlpGenesisInfo.wire.
  rewrite (w_bytes 1), (w_bytes 2), (w_bytes 3), (w_bytes 4), (w_uint32 5), ?push_push.
  now rewrite <- ?app_assoc.
Qed.

Lemma SlpMeta_encode_wire m w :
  proto.SlpMeta.encode m w = push (proto.SlpMeta.wire m) w.
Proof.
  unfold proto.SlpMeta.encode, proto.SlpMeta.wire.
  rewrite (w_int32 1), (w_int32 2), (w_bytes 3), (w_bytes 4), ?push_push.
  now rewrite <- ?app_assoc.
Qed.

Lemma SlpTxData_encode_wire m w :
  proto.SlpTxData.encode m w = push (proto.SlpTxData.wire m) w.
Proof.
  unfold proto.SlpTxData.encode, proto.SlpTxData.wire.
  rewrite (w_msg _ _ SlpMeta_encode_wire 1), (w_msg _ _ SlpGenesisInfo_encode_wire 2), ?push_push.
  now rewrite <- ?app_assoc.
Qed.

Lemma BlockMetadata_encode_wire m w :
  proto.BlockMetadata.encode m w = push (proto.BlockMetadata.wire m) w.
Proof.
  unfold proto.BlockMetadata.encode, proto.BlockMetadata.wire.
  rewrite (w_int32 1), (w_bytes 2), (w_int64 3), ?push_push.
  now rewrite <- ?app_assoc.
Qed.

Lemma TxInput_encode_wire m w :
  proto.TxInput.encode m w = push (proto.TxInput.wire m) w.
Proof.
  unfold proto.TxInput.encode, proto.TxInput.wire.
  rewrite (w_msg _ _ OutPoint_encode_wire 1), (w_bytes 2), (w_bytes 3), (w_int64 4),
    (w_uint32 5), (w_msg _ _ SlpBurn_encode_wire 6),
    (w_msg _ _ SlpToken_encode_wire 7), ?push_push.
  now rewrite <- ?app_assoc.
Qed.

Lemma TxOutput_encode_wire m w :
  proto.TxOutput.encode m w = push (proto.TxOutput.wire m) w.
Proof.
  unfold proto.TxOutput.encode, proto.TxOutput.wire.
  rewrite (w_int64 1), (w_bytes 2), (w_msg _ _ SlpToken_encode_wire 3),
    (w_msg _ _ OutPoint_encode_wire 4), ?push_push.
  now rewrite <- ?app_assoc.
Qed.

Lemma Tx_encode_wire m w :
  proto.Tx.encode m w = push (proto.Tx.wire m) w.
Proof.
  unfold proto.Tx.encode, proto.Tx.wire.
  rewrite (w_bytes 1), (w_int32 2), (w_rep _ _ TxInput_encode_wire 3),
    (w_rep _ _ TxOutput_encode_wire 4), (w_uint32 5),
    (w_msg _ _ SlpTxData_encode_wire 6), (w_string 7),
    (w_msg _ _ BlockMetadata_encode_wire 8), (w_int64 9), (w_int32 10), ?push_push.
  now rewrite <- ?app_assoc.
Qed.

Lemma Utxo_encode_wire m w :
  proto.Utxo.encode m w = push (proto.Utxo.wire m) w.
Proof.
  unfold proto.Utxo.encode, proto.Utxo.wire.
  rewrite (w_msg _ _ OutPoint_encode_wire 1), (w_int32 2), (w_bool 3), (w_int64 5),
    (w_msg _ _ SlpMeta_encode_wire 6), (w_msg _ _ SlpToken_encode_wire 7),
    (w_int32 9), ?push_push.
  now rewrite <- ?app_assoc.
Qed.

Lemma ScriptUtxos_encode_wire m w :
  proto.ScriptUtxos.encode m w = push (proto.ScriptUtxos.wire m) w.
Proof.
  unfold proto.ScriptUtxos.encode, proto.ScriptUtxos.wire.
  rewrite (w_bytes 1), (w_rep _ _ Utxo_encode_wire 2), ?push_push.
  now rewrite <- ?app_assoc.
Qed.

Lemma Utxos_encode_wire m w :
  proto.Utxos.encode m w = push (proto.Utxos.wire m) w.
Proof.
  unfold proto.Utxos.encode, proto.Utxos.wire.
  rewrite (w_rep _ _ ScriptUtxos_encode_wire 1), ?push_push.
  now rewrite <- ?app_assoc.
Qed.

Lemma UtxoState_encode_wire m w :
  proto.UtxoState.encode m w = push (proto.UtxoState.wire m) w.
Proof.
  unfold proto.UtxoState.encode, proto.UtxoState.wire.
  rewrite (w_int32 1), (w_bool 2), (w_int32 3), ?push_push.
  now rewrite <- ?app_assoc.
Qed.

Lemma ValidateUtxoRequest_encode_wire m w :
  proto.ValidateUtxoRequest.encode m w = push (proto.ValidateUtxoRequest.wire m) w.
Proof.
  unfold proto.ValidateUtxoRequest.encode, proto.ValidateUtxoRequest.wire.
  rewrite (w_rep _ _ OutPoint_encode_wire 1), ?push_push.
  now rewrite <- ?app_assoc.
Qed.

Lemma ValidateUtxoResponse_encode_wire m w :
  proto.ValidateUtxoResponse.encode m w = push (proto.ValidateUtxoResponse.wire m) w.
Proof.
  unfold proto.ValidateUtxoResponse.encode, proto.ValidateUtxoResponse.wire.
  rewrite (w_rep _ _ UtxoState_encode_wire 1), ?push_push.
  now rewrite <- ?app_assoc.
Qed.

Lemma Subscription_encode_wire m w :
  proto.Subscription.encode m w = push (proto.Subscription.wire m) w.
Proof.
  unfold proto.Subscription.encode, proto.Subscription.wire.
  rewrite (w_string 1), (w_bytes 2), (w_bool 3), ?push_push.
  now rewrite <- ?app_assoc.
Qed.

Lemma Error_encode_wire m w :
  proto.Error.encode m w = push (proto.Error.wire m) w.
Proof.
  unfold proto.Error.encode, proto.Error.wire.
  rewrite (w_string 1), (w_string 2), (w_bool 3), ?push_push.
  now rewrite <- ?app_assoc.
Qed.

Lemma finish_push bs : Writer_finish (push bs Writer_create) = bs.
Proof. reflexivity. Qed.

(** * Decoding what was encoded, message by message *)


Lemma OutPoint_roundtrips :
  roundtrips proto.OutPoint.field proto.OutPoint.base proto.OutPoint.wire proto.OutPoint.wf.
Proof.
  intros [txid_ outIdx_] Hwf.
  unfold proto.OutPoint.wf in Hwf. unfold proto.OutPoint.wire. cbn [
    proto.OutPoint.txid proto.OutPoint.outIdx ] in *.
  repeat match goal with H : _ /\ _ |- _ => destruct H end.
  apply chunk_ok_app with
    (m1 := (proto.OutPoint.mk txid_ 0)).
  { apply (chunk_f_bytes _ 1 proto.OutPoint.with_txid); fld. }
  apply (chunk_f_uint32 _ 2 proto.OutPoint.with_outIdx); fld.
Qed.

Lemma SlpToken_roundtrips :
  roundtrips proto.SlpToken.field proto.SlpToken.base proto.SlpToken.wire proto.SlpToken.wf.
Proof.
  intros [amount_ isMintBaton_] Hwf.
  unfold proto.SlpToken.wf in Hwf. unfold proto.SlpToken.wire. cbn [
    proto.SlpToken.amount proto.SlpToken.isMintBaton ] in *.
  repeat match goal with H : _ /\ _ |- _ => destruct H end.
  apply chunk_ok_app with
    (m1 := (proto.SlpToken.mk amount_ false)).
  { apply (chunk_f_uint64 _ 1 proto.SlpToken.with_amount); fld. }
  apply (chunk_f_bool _ 2 proto.SlpToken.with_isMintBaton); fld.
Qed.

Lemma SlpBurn_roundtrips :
  roundtrips proto.SlpBurn.field proto.SlpBurn.base proto.SlpBurn.wire proto.SlpBurn.wf.
Proof.
  intros [token_ tokenId_] Hwf.
  unfold proto.SlpBurn.wf in Hwf. unfold proto.SlpBurn.wire. cbn [
    proto.SlpBurn.token proto.SlpBurn.tokenId ] in *.
  repeat match goal with H : _ /\ _ |- _ => destruct H end.
  apply chunk_ok_app with
    (m1 := (proto.SlpBurn.mk token_ [])).
  { apply (chunk_f_msg _ _ _ _ _ SlpToken_roundtrips 1 proto.SlpBurn.with_token); fld. }
  apply (chunk_f_bytes _ 2 proto.SlpBurn.with_tokenId); fld.
Qed.

Lemma SlpGenesisInfo_roundtrips :
  roundtrips proto.SlpGenesisInfo.field proto.SlpGenesisInfo.base proto.SlpGenesisInfo.wire proto.SlpGenesisInfo.wf.
Proof.
  intros [tokenTicker_ tokenName_ tokenDocumentUrl_ tokenDocumentHash_ decimals_] Hwf.
  unfold proto.SlpGenesisInfo.wf in Hwf. unfold proto.SlpGenesisInfo.wire. cbn [
    proto.SlpGenesisInfo.tokenTicker proto.SlpGenesisInfo.tokenName
    proto.SlpGenesisInfo.tokenDocumentUrl proto.SlpGenesisInfo.tokenDocumentHash
    proto.SlpGenesisInfo.decimals ] in *.
  repeat match goal with H : _ /\ _ |- _ => destruct H end.
  apply chunk_ok_app with
    (m1 := (proto.SlpGenesisInfo.mk tokenTicker_ [] [] [] 0)).
  { apply (chunk_f_bytes _ 1 proto.SlpGenesisInfo.with_tokenTicker); fld. }
  apply chunk_ok_app with
    (m1 := (proto.SlpGenesisInfo.mk tokenTicker_ tokenName_ [] [] 0)).
  { apply (chunk_f_bytes _ 2 proto.SlpGenesisInfo.with_tokenName); fld. }
  apply chunk_ok_app with
    (m1 := (proto.SlpGenesisInfo.mk tokenTicker_ tokenName_ tokenDocumentUrl_ [] 0)).
  { apply (chunk_f_bytes _ 3 proto.SlpGenesisInfo.with_tokenDocumentUrl); fld. }
  apply chunk_ok_app with
    (m1 := (proto.SlpGenesisInfo.mk tokenTicker_ tokenName_ tokenDocumentUrl_ tokenDocumentHash_ 0)).
  { apply (chunk_f_bytes _ 4 proto.SlpGenesisInfo.with_tokenDocumentHash); fld. }
  apply (chunk_f_uint32 _ 5 proto.SlpGenesisInfo.with_decimals); fld.
Qed.

Lemma SlpMeta_roundtrips :
  roundtrips proto.SlpMeta.field proto.SlpMeta.base proto.SlpMeta.wire proto.SlpMeta.wf.
Proof.
  intros [tokenType_ txType_ tokenId_ groupTokenId_] Hwf.
  unfold proto.SlpMeta.wf in Hwf. unfold proto.SlpMeta.wire. cbn [
    proto.SlpMeta.tokenType proto.SlpMeta.txType proto.SlpMeta.tokenId
    proto.SlpMeta.groupTokenId ] in *.
  repeat match goal with H : _ /\ _ |- _ => destruct H end.
  apply chunk_ok_app with
    (m1 := (proto.SlpMeta.mk tokenType_ 0 [] [])).
  { apply (chunk_f_int32 _ 1 proto.SlpMeta.with_tokenType); fld. }
  apply chunk_ok_app with
    (m1 := (proto.SlpMeta.mk tokenType_ txType_ [] [])).
  { apply (chunk_f_int32 _ 2 proto.SlpMeta.with_txType); fld. }
  apply chunk_ok_app with
    (m1 := (proto.SlpMeta.mk tokenType_ txType_ tokenId_ [])).
  { apply (chunk_f_bytes _ 3 proto.SlpMeta.with_tokenId); fld. }
  apply (chunk_f_bytes _ 4 proto.SlpMeta.with_groupTokenId); fld.
Qed.

Lemma SlpTxData_roundtrips :
  roundtrips proto.SlpTxData.field proto.SlpTxData.base proto.SlpTxData.wire proto.SlpTxData.wf.
Proof.
  intros [slpMeta_ genesisInfo_] Hwf.
  unfold proto.SlpTxData.wf in Hwf. unfold proto.SlpTxData.wire. cbn [
    proto.SlpTxData.slpMeta proto.SlpTxData.genesisInfo ] in *.
  repeat match goal with H : _ /\ _ |- _ => destruct H end.
  apply chunk_ok_app with
    (m1 := (proto.SlpTxData.mk slpMeta_ None)).
  { apply (chunk_f_msg _ _ _ _ _ SlpMeta_roundtrips 1 proto.SlpTxData.with_slpMeta); fld. }
  apply (chunk_f_msg _ _ _ _ _ SlpGenesisInfo_roundtrips 2 proto.SlpTxData.with_genesisInfo); fld.
Qed.

Lemma BlockMetadata_roundtrips :
  roundtrips proto.BlockMetadata.field proto.BlockMetadata.base proto.BlockMetadata.wire proto.BlockMetadata.wf.
Proof.
  intros [height_ hash_ timestamp_] Hwf.
  unfold proto.BlockMetadata.wf in Hwf. unfold proto.BlockMetadata.wire. cbn [
    proto.BlockMetadata.height proto.BlockMetadata.hash proto.BlockMetadata.timestamp ] in *.
  repeat match goal with H : _ /\ _ |- _ => destruct H end.
  apply chunk_ok_app with
    (m1 := (proto.BlockMetadata.mk height_ [] Long_ZERO)).
  { apply (chunk_f_int32 _ 1 proto.BlockMetadata.with_height); fld. }
  apply chunk_ok_app with
    (m1 := (proto.BlockMetadata.mk height_ hash_ Long_ZERO)).
  { apply (chunk_f_bytes _ 2 proto.BlockMetadata.with_hash); fld. }
  apply (chunk_f_int64 _ 3 proto.BlockMetadata.with_timestamp); fld.
Qed.

Lemma TxInput_roundtrips :
  roundtrips proto.TxInput.field proto.TxInput.base proto.TxInput.wire proto.TxInput.wf.
Proof.
  intros [prevOut_ inputScript_ outputScript_ value_ sequenceNo_ slpBurn_ slpToken_] Hwf.
  unfold proto.TxInput.wf in Hwf. unfold proto.TxInput.wire. cbn [
    proto.TxInput.prevOut proto.TxInput.inputScript proto.TxInput.outputScript
    proto.TxInput.value proto.TxInput.sequenceNo proto.TxInput.slpBurn
    proto.TxInput.slpToken ] in *.
  repeat match goal with H : _ /\ _ |- _ => destruct H end.
  apply chunk_ok_app with
    (m1 := (proto.TxInput.mk prevOut_ [] [] Long_ZERO 0 None None)).
  { apply (chunk_f_msg _ _ _ _ _ OutPoint_roundtrips 1 proto.TxInput.with_prevOut); fld. }
  apply chunk_ok_app with
    (m1 := (proto.TxInput.mk prevOut_ inputScript_ [] Long_ZERO 0 None None)).
  { apply (chunk_f_bytes _ 2 proto.TxInput.with_inputScript); fld. }
  apply chunk_ok_app with
    (m1 := (proto.TxInput.mk prevOut_ inputScript_ outputScript_ Long_ZERO 0 None None)).
  { apply (chunk_f_bytes _ 3 proto.TxInput.with_outputScript); fld. }
  apply chunk_ok_app with
    (m1 := (proto.TxInput.mk prevOut_ inputScript_ outputScript_ value_ 0 None None)).
  { apply (chunk_f_int64 _ 4 proto.TxInput.with_value); fld. }
  apply chunk_ok_app with
    (m1 := (proto.TxInput.mk prevOut_ inputScript_ outputScript_ value_ sequenceNo_ None None)).
  { apply (chunk_f_uint32 _ 5 proto.TxInput.with_sequenceNo); fld. }
  apply chunk_ok_app with
    (m1 := (proto.TxInput.mk prevOut_ inputScript_ outputScript_ value_ sequenceNo_ slpBurn_ None)).
  { apply (chunk_f_msg _ _ _ _ _ SlpBurn_roundtrips 6 proto.TxInput.with_slpBurn); fld. }
  apply (chunk_f_msg _ _ _ _ _ SlpToken_roundtrips 7 proto.TxInput.with_slpToken); fld.
Qed.

Lemma TxOutput_roundtrips :
  roundtrips proto.TxOutput.field proto.TxOutput.base proto.TxOutput.wire proto.TxOutput.wf.
Proof.
  intros [value_ outputScript_ slpToken_ spentBy_] Hwf.
  unfold proto.TxOutput.wf in Hwf. unfold proto.TxOutput.wire. cbn [
    proto.TxOutput.value proto.TxOutput.outputScript proto.TxOutput.slpToken
    proto.TxOutput.spentBy ] in *.
  repeat match goal with H : _ /\ _ |- _ => destruct H end.
  apply chunk_ok_app with
    (m1 := (proto.TxOutput.mk value_ [] None None)).
  { apply (chunk_f_int64 _ 1 proto.TxOutput.with_value); fld. }
  apply chunk_ok_app with
    (m1 := (proto.TxOutput.mk value_ outputScript_ None None)).
  { apply (chunk_f_bytes _ 2 proto.TxOutput.with_outputScript); fld. }
  apply chunk_ok_app with
    (m1 := (proto.TxOutput.mk value_ outputScript_ slpToken_ None)).
  { apply (chunk_f_msg _ _ _ _ _ SlpToken_roundtrips 3 proto.TxOutput.with_slpToken); fld. }
  apply (chunk_f_msg _ _ _ _ _ OutPoint_roundtrips 4 proto.TxOutput.with_spentBy); fld.
Qed.

Lemma Tx_roundtrips :
  roundtrips proto.Tx.field proto.Tx.base proto.Tx.wire proto.Tx.wf.
Proof.
  intros [txid_ version_ inputs_ outputs_ lockTime_ slpTxData_ slpErrorMsg_ block_ timeFirstSeen_ network_] Hwf.
  unfold proto.Tx.wf in Hwf. unfold proto.Tx.wire. cbn [
    proto.Tx.txid proto.Tx.version proto.Tx.inputs proto.Tx.outputs proto.Tx.lockTime
    proto.Tx.slpTxData proto.Tx.slpErrorMsg proto.Tx.block proto.Tx.timeFirstSeen
    proto.Tx.network ] in *.
  repeat match goal with H : _ /\ _ |- _ => destruct H end.
  apply chunk_ok_app with
    (m1 := (proto.Tx.mk txid_ 0 [] [] 0 None ""%string None Long_ZERO 0)).
  { apply (chunk_f_bytes _ 1 proto.Tx.with_txid); fld. }
  apply chunk_ok_app with
    (m1 := (proto.Tx.mk txid_ version_ [] [] 0 None ""%string None Long_ZERO 0)).
  { apply (chunk_f_int32 _ 2 proto.Tx.with_version); fld. }
  apply chunk_ok_app with
    (m1 := (proto.Tx.mk txid_ version_ inputs_ [] 0 None ""%string None Long_ZERO 0)).
  { apply (chunk_f_rep _ _ _ _ _ TxInput_roundtrips 3
             (fun v m => proto.Tx.with_inputs (proto.Tx.inputs m ++ [v]) m) proto.Tx.with_inputs); fld. }
  apply chunk_ok_app with
    (m1 := (proto.Tx.mk txid_ version_ inputs_ outputs_ 0 None ""%string None Long_ZERO 0)).
  { apply (chunk_f_rep _ _ _ _ _ TxOutput_roundtrips 4
             (fun v m => proto.Tx.with_outputs (proto.Tx.outputs m ++ [v]) m) proto.Tx.with_outputs); fld. }
  apply chunk_ok_app with
    (m1 := (proto.Tx.mk txid_ version_ inputs_ outputs_ lockTime_ None ""%string None Long_ZERO 0)).
  { apply (chunk_f_uint32 _ 5 proto.Tx.with_lockTime); fld. }
  apply chunk_ok_app with
    (m1 := (proto.Tx.mk txid_ version_ inputs_ outputs_ lockTime_ slpTxData_ ""%string None Long_ZERO 0)).
  { apply (chunk_f_msg _ _ _ _ _ SlpTxData_roundtrips 6 proto.Tx.with_slpTxData); fld. }
  apply chunk_ok_app with
    (m1 := (proto.Tx.mk txid_ version_ inputs_ outputs_ lockTime_ slpTxData_ slpErrorMsg_ None Long_ZERO 0)).
  { apply (chunk_f_string _ 7 proto.Tx.with_slpErrorMsg); fld. }
  apply chunk_ok_app with
    (m1 := (proto.Tx.mk txid_ version_ inputs_ outputs_ lockTime_ slpTxData_ slpErrorMsg_ block_ Long_ZERO 0)).
  { apply (chunk_f_msg _ _ _ _ _ BlockMetadata_roundtrips 8 proto.Tx.with_block); fld. }
  apply chunk_ok_app with
    (m1 := (proto.Tx.mk txid_ version_ inputs_ outputs_ lockTime_ slpTxData_ slpErrorMsg_ block_ timeFirstSeen_ 0)).
  { apply (chunk_f_int64 _ 9 proto.Tx.with_timeFirstSeen); fld. }
  apply (chunk_f_int32 _ 10 proto.Tx.with_network); fld.
Qed.

Lemma Utxo_roundtrips :
  roundtrips proto.Utxo.field proto.Utxo.base proto.Utxo.wire proto.Utxo.wf.
Proof.
  intros [outpoint_ blockHeight_ isCoinbase_ value_ slpMeta_ slpToken_ network_] Hwf.
  unfold proto.Utxo.wf in Hwf. unfold proto.Utxo.wire. cbn [
    proto.Utxo.outpoint proto.Utxo.blockHeight proto.Utxo.isCoinbase proto.Utxo.value
    proto.Utxo.slpMeta proto.Utxo.slpToken proto.Utxo.network ] in *.
  repeat match goal with H : _ /\ _ |- _ => destruct H end.
  apply chunk_ok_app with
    (m1 := (proto.Utxo.mk outpoint_ 0 false Long_ZERO None None 0)).
  { apply (chunk_f_msg _ _ _ _ _ OutPoint_roundtrips 1 proto.Utxo.with_outpoint); fld. }
  apply chunk_ok_app with
    (m1 := (proto.Utxo.mk outpoint_ blockHeight_ false Long_ZERO None None 0)).
  { apply (chunk_f_int32 _ 2 proto.Utxo.with_blockHeight); fld. }
  apply chunk_ok_app with
    (m1 := (proto.Utxo.mk outpoint_ blockHeight_ isCoinbase_ Long_ZERO None None 0)).
  { apply (chunk_f_bool _ 3 proto.Utxo.with_isCoinbase); fld. }
  apply chunk_ok_app with
    (m1 := (proto.Utxo.mk outpoint_ blockHeight_ isCoinbase_ value_ None None 0)).
  { apply (chunk_f_int64 _ 5 proto.Utxo.with_value); fld. }
  apply chunk_ok_app with
    (m1 := (proto.Utxo.mk outpoint_ blockHeight_ isCoinbase_ value_ slpMeta_ None 0)).
  { apply (chunk_f_msg _ _ _ _ _ SlpMeta_roundtrips 6 proto.Utxo.with_slpMeta); fld. }
  apply chunk_ok_app with
    (m1 := (proto.Utxo.mk outpoint_ blockHeight_ isCoinbase_ value_ slpMeta_ slpToken_ 0)).
  { apply (chunk_f_msg _ _ _ _ _ SlpToken_roundtrips 7 proto.Utxo.with_slpToken); fld. }
  apply (chunk_f_int32 _ 9 proto.Utxo.with_network); fld.
Qed.

Lemma ScriptUtxos_roundtrips :
  roundtrips proto.ScriptUtxos.field proto.ScriptUtxos.base proto.ScriptUtxos.wire proto.ScriptUtxos.wf.
Proof.
  intros [outputScript_ utxos_] Hwf.
  unfold proto.ScriptUtxos.wf in Hwf. unfold proto.ScriptUtxos.wire. cbn [
    proto.ScriptUtxos.outputScript proto.ScriptUtxos.utxos ] in *.
  repeat match goal with H : _ /\ _ |- _ => destruct H end.
  apply chunk_ok_app with
    (m1 := (proto.ScriptUtxos.mk outputScript_ [])).
  { apply (chunk_f_bytes _ 1 proto.ScriptUtxos.with_outputScript); fld. }
  apply (chunk_f_rep _ _ _ _ _ Utxo_roundtrips 2
             (fun v m => proto.ScriptUtxos.with_utxos (proto.ScriptUtxos.utxos m ++ [v]) m) proto.ScriptUtxos.with_utxos); fld.
Qed.

Lemma Utxos_roundtrips :
  roundtrips proto.Utxos.field proto.Utxos.base proto.Utxos.wire proto.Utxos.wf.
Proof.
  intros [scriptUtxos_] Hwf.
  unfold proto.Utxos.wf in Hwf. unfold proto.Utxos.wire. cbn [
    proto.Utxos.scriptUtxos ] in *.
  repeat match goal with H : _ /\ _ |- _ => destruct H end.
  apply (chunk_f_rep _ _ _ _ _ ScriptUtxos_roundtrips 1
             (fun v m => proto.Utxos.with_scriptUtxos (proto.Utxos.scriptUtxos m ++ [v]) m) proto.Utxos.with_scriptUtxos); fld.
Qed.

Lemma UtxoState_roundtrips :
  roundtrips proto.UtxoState.field proto.UtxoState.base proto.UtxoState.wire proto.UtxoState.wf.
Proof.
  intros [height_ isConfirmed_ state_] Hwf.
  unfold proto.UtxoState.wf in Hwf. unfold proto.UtxoState.wire. cbn [
    proto.UtxoState.height proto.UtxoState.isConfirmed proto.UtxoState.state ] in *.
  repeat match goal with H : _ /\ _ |- _ => destruct H end.
  apply chunk_ok_app with
    (m1 := (proto.UtxoState.mk height_ false 0)).
  { apply (chunk_f_int32 _ 1 proto.UtxoState.with_height); fld. }
  apply chunk_ok_app with
    (m1 := (proto.UtxoState.mk height_ isConfirmed_ 0)).
  { apply (chunk_f_bool _ 2 proto.UtxoState.with_isConfirmed); fld. }
  apply (chunk_f_int32 _ 3 proto.UtxoState.with_state); fld.
Qed.

Lemma ValidateUtxoRequest_roundtrips :
  roundtrips proto.ValidateUtxoRequest.field proto.ValidateUtxoRequest.base proto.ValidateUtxoRequest.wire proto.ValidateUtxoRequest.wf.
Proof.
  intros [outpoints_] Hwf.
  unfold proto.ValidateUtxoRequest.wf in Hwf. unfold proto.ValidateUtxoRequest.wire. cbn [
    proto.ValidateUtxoRequest.outpoints ] in *.
  repeat match goal with H : _ /\ _ |- _ => destruct H end.
  apply (chunk_f_rep _ _ _ _ _ OutPoint_roundtrips 1
             (fun v m => proto.ValidateUtxoRequest.with_outpoints (proto.ValidateUtxoRequest.outpoints m ++ [v]) m) proto.ValidateUtxoRequest.with_outpoints); fld.
Qed.

Lemma ValidateUtxoResponse_roundtrips :
  roundtrips proto.ValidateUtxoResponse.field proto.ValidateUtxoResponse.base proto.ValidateUtxoResponse.wire proto.ValidateUtxoResponse.wf.
Proof.
  intros [utxoStates_] Hwf.
  unfold proto.ValidateUtxoResponse.wf in Hwf. unfold proto.ValidateUtxoResponse.wire. cbn [
    proto.ValidateUtxoResponse.utxoStates ] in *.
  repeat match goal with H : _ /\ _ |- _ => destruct H end.
  apply (chunk_f_rep _ _ _ _ _ UtxoState_roundtrips 1
             (fun v m => proto.ValidateUtxoResponse.with_utxoStates (proto.ValidateUtxoResponse.utxoStates m ++ [v]) m) proto.ValidateUtxoResponse.with_utxoStates); fld.
Qed.

Lemma Subscription_roundtrips :
  roundtrips proto.Subscription.field proto.Subscription.base proto.Subscription.wire proto.Subscription.wf.
Proof.
  intros [scriptType_ payload_ isSubscribe_] Hwf.
  unfold proto.Subscription.wf in Hwf. unfold proto.Subscription.wire. cbn [
    proto.Subscription.scriptType proto.Subscription.payload
    proto.Subscription.isSubscribe ] in *.
  repeat match goal with H : _ /\ _ |- _ => destruct H end.
  apply chunk_ok_app with
    (m1 := (proto.Subscription.mk scriptType_ [] false)).
  { apply (chunk_f_string _ 1 proto.Subscription.with_scriptType); fld. }
  apply chunk_ok_app with
    (m1 := (proto.Subscription.mk scriptType_ payload_ false)).
  { apply (chunk_f_bytes _ 2 proto.Subscription.with_payload); fld. }
  apply (chunk_f_bool _ 3 proto.Subscription.with_isSubscribe); fld.
Qed.

Lemma Error_roundtrips :
  roundtrips proto.Error.field proto.Error.base proto.Error.wire proto.Error.wf.
Proof.
  intros [errorCode_ msg_ isUserError_] Hwf.
  unfold proto.Error.wf in Hwf. unfold proto.Error.wire. cbn [
    proto.Error.errorCode proto.Error.msg proto.Error.isUserError ] in *.
  repeat match goal with H : _ /\ _ |- _ => destruct H end.
  apply chunk_ok_app with
    (m1 := (proto.Error.mk errorCode_ ""%string false)).
  { apply (chunk_f_string _ 1 proto.Error.with_errorCode); fld. }
  apply chunk_ok_app with
    (m1 := (proto.Error.mk errorCode_ msg_ false)).
  { apply (chunk_f_string _ 2 proto.Error.with_msg); fld. }
  apply (chunk_f_bool _ 3 proto.Error.with_isUserError); fld.
Qed.

(** * Fields the decoder skips *)

Lemma skip_varint_varint (n : nat) :
  forall (v : Z) (p : nat) (tl : bytes),
    0 <= v < 128 ^ Z.of_nat (S n) ->
    skip_varint p (varint (S n) v ++ tl)
    = Ok (mkReader (p + List.length (varint (S n) v)) tl).
Proof.
  induction n as [|n IH]; intros v p tl Hv;
    rewrite varint_S; destruct (v <? 128) eqn:E.
  1, 3: pose proof (proj1 (Z.ltb_lt _ _) E) as E1; cbn [app skip_varint List.length];
    rewrite byte_to_of_Z, (Z.mod_small v 256) by lia;
    rewrite E; do 2 f_equal; lia.
  - apply Z.ltb_ge in E. change (128 ^ Z.of_nat 1) with 128 in Hv. lia.
  - apply Z.ltb_ge in E. cbn [app skip_varint List.length].
    rewrite byte_to_of_Z.
    assert (Hm : 0 <= v mod 128 < 128) by (apply Z.mod_pos_bound; lia).
    rewrite (Z.mod_small (v mod 128 + 128) 256) by lia.
    destruct (v mod 128 + 128 <? 128) eqn:E'; [apply Z.ltb_lt in E'; lia|].
    rewrite IH.
    + do 2 f_equal. lia.
    + rewrite Nat2Z.inj_succ, Z.pow_succ_r in Hv by lia.
      split; [apply Z.div_pos; lia|].
      apply Z.div_lt_upper_bound; lia.
Qed.

Lemma Reader_skip_app bs p tl :
  Reader_skip (Z.of_nat (List.length bs)) (mkReader p (bs ++ tl))
  = Ok (mkReader (p + List.length bs) tl).
Proof.
  unfold Reader_skip. cbn [pos rest]. rewrite Nat2Z.id.
  destruct (Nat.ltb_spec (List.length (bs ++ tl)) (List.length bs)) as [H|H].
  - rewrite length_app in H. lia.
  - now rewrite skipn_app, Nat.sub_diag, skipn_all, skipn_O.
Qed.

Section Skipped.
Context {M : Type} (field : nat -> Z -> Reader -> M -> result (M * Reader)).

Lemma chunk_skip_bytes n bs m :
  0 <= n * 8 + 2 < 4294967296 ->
  (forall fuel r m,
      field fuel (n * 8 + 2) r m = r <- Reader_skipType fuel 2 r ;; Ok (m, r)) ->
  fits bs ->
  chunk_ok field (f_bytes n bs) m m.
Proof.
  intros Hk Hf Hfit. unfold f_bytes.
  destruct bs as [|b bs]; cbn [List.length Nat.eqb negb]; [apply chunk_ok_nil|].
  apply field_chunk_ok, field_ok_key; [assumption|].
  intros fuel p tl Hlen. rewrite Hf.
  destruct fuel as [|fuel]; [lia|]. cbn [Reader_skipType].
  unfold enc_bytes. rewrite <- app_assoc, Reader_uint32_enc. cbn [bind].
  rewrite toUint32_id by (unfold fits in Hfit; lia).
  rewrite Reader_skip_app. cbn [bind].
  rewrite length_app, Nat.add_assoc. reflexivity.
Qed.

Lemma chunk_skip_int64 n l m :
  0 <= n * 8 + 0 < 4294967296 ->
  (forall fuel r m,
      field fuel (n * 8 + 0) r m = r <- Reader_skipType fuel 0 r ;; Ok (m, r)) ->
  chunk_ok field (f_int64 n l) m m.
Proof.
  intros Hk Hf. unfold f_int64.
  destruct (Long_isZero l); cbn [negb]; [apply chunk_ok_nil|].
  apply field_chunk_ok, field_ok_key; [assumption|].
  intros fuel p tl Hlen. rewrite Hf.
  destruct fuel as [|fuel]; [lia|]. cbn [Reader_skipType pos rest].
  unfold enc_uint64, varint64. rewrite skip_varint_varint; [reflexivity|].
  pose proof (LongBits_range l).
  change (128 ^ Z.of_nat 10) with 1180591620717411303424. lia.
Qed.

End Skipped.

(** * The other messages of chronik.ts *)

Lemma BlockInfo_encode_wire m w :
  proto.BlockInfo.encode m w = push (proto.BlockInfo.wire m) w.
Proof.
  unfold proto.BlockInfo.encode, proto.BlockInfo.wire.
  rewrite (w_bytes 1), (w_bytes 2), (w_int32 3), (w_uint32 4), (w_int64 5),
    (w_uint64 6), (w_uint64 7), (w_uint64 8), (w_uint64 9), (w_int64 10),
    (w_int64 11), (w_int64 12), (w_int64 13), ?push_push.
  now rewrite <- ?app_assoc.
Qed.

Lemma Block_encode_wire m w :
  proto.Block.encode m w = push (proto.Block.wire m) w.
Proof.
  unfold proto.Block.encode, proto.Block.wire.
  rewrite (w_msg _ _ BlockInfo_encode_wire 1), (w_rep _ _ Tx_encode_wire 2), ?push_push.
  now rewrite <- ?app_assoc.
Qed.

Lemma TxHistoryPage_encode_wire m w :
  proto.TxHistoryPage.encode m w = push (proto.TxHistoryPage.wire m) w.
Proof.
  unfold proto.TxHistoryPage.encode, proto.TxHistoryPage.wire.
  rewrite (w_rep _ _ Tx_encode_wire 1), (w_uint32 2), ?push_push.
  now rewrite <- ?app_assoc.
Qed.

Lemma Blocks_encode_wire m w :
  proto.Blocks.encode m w = push (proto.Blocks.wire m) w.
Proof.
  unfold proto.Blocks.encode, proto.Blocks.wire.
  rewrite (w_rep _ _ BlockInfo_encode_wire 1), ?push_push.
  now rewrite <- ?app_assoc.
Qed.

Lemma BroadcastTxRequest_encode_wire m w :
  proto.BroadcastTxRequest.encode m w = push (proto.BroadcastTxRequest.wire m) w.
Proof.
  unfold proto.BroadcastTxRequest.encode, proto.BroadcastTxRequest.wire.
  rewrite (w_bytes 1), (w_bool 2), ?push_push.
  now rewrite <- ?app_assoc.
Qed.

Lemma BroadcastTxResponse_encode_wire m w :
  proto.BroadcastTxResponse.encode m w = push (proto.BroadcastTxResponse.wire m) w.
Proof.
  unfold proto.BroadcastTxResponse.encode, proto.BroadcastTxResponse.wire.
  rewrite (w_bytes 1), ?push_push.
  now rewrite <- ?app_assoc.
Qed.

Lemma MsgAddedToMempool_encode_wire m w :
  proto.MsgAddedToMempool.encode m w = push (proto.MsgAddedToMempool.wire m) w.
Proof.
  unfold proto.MsgAddedToMempool.encode, proto.MsgAddedToMempool.wire.
  rewrite (w_bytes 1), ?push_push.
  now rewrite <- ?app_assoc.
Qed.

Lemma MsgRemovedFromMempool_encode_wire m w :
  proto.MsgRemovedFromMempool.encode m w = push (proto.MsgRemovedFromMempool.wire m) w.
Proof.
  unfold proto.MsgRemovedFromMempool.encode, proto.MsgRemovedFromMempool.wire.
  rewrite (w_bytes 1), ?push_push.
  now rewrite <- ?app_assoc.
Qed.

Lemma MsgConfirmed_encode_wire m w :
  proto.MsgConfirmed.encode m w = push (proto.MsgConfirmed.wire m) w.
Proof.
  unfold proto.MsgConfirmed.encode, proto.MsgConfirmed.wire.
  rewrite (w_bytes 1), ?push_push.
  now rewrite <- ?app_assoc.
Qed.

Lemma MsgReorg_encode_wire m w :
  proto.MsgReorg.encode m w = push (proto.MsgReorg.wire m) w.
Proof.
  unfold proto.MsgReorg.encode, proto.MsgReorg.wire.
  rewrite (w_bytes 1), ?push_push.
  now rewrite <- ?app_assoc.
Qed.

Lemma SubscribeMsg_encode_wire m w :
  proto.SubscribeMsg.encode m w = push (proto.SubscribeMsg.wire m) w.
Proof.
  unfold proto.SubscribeMsg.encode, proto.SubscribeMsg.wire.
  rewrite (w_msg _ _ Error_encode_wire 1),
    (w_msg _ _ MsgAddedToMempool_encode_wire 2),
    (w_msg _ _ MsgRemovedFromMempool_encode_wire 3),
    (w_msg _ _ MsgConfirmed_encode_wire 4), (w_msg _ _ MsgReorg_encode_wire 5), ?push_push.
  now rewrite <- ?app_assoc.
Qed.

Lemma BlockInfo_roundtrips :
  roundtrips proto.BlockInfo.field proto.BlockInfo.base proto.BlockInfo.wire proto.BlockInfo.wf.
Proof.
  intros [hash_ prevHash_ height_ nBits_ timestamp_ blockSize_ numTxs_ numInputs_ numOutputs_ sumInputSats_ sumCoinbaseOutputSats_ sumNormalOutputSats_ sumBurnedSats_] Hwf.
  unfold proto.BlockInfo.wf in Hwf. unfold proto.BlockInfo.wire. cbn [
    proto.BlockInfo.hash proto.BlockInfo.prevHash proto.BlockInfo.height
    proto.BlockInfo.nBits proto.BlockInfo.timestamp proto.BlockInfo.blockSize
    proto.BlockInfo.numTxs proto.BlockInfo.numInputs proto.BlockInfo.numOutputs
    proto.BlockInfo.sumInputSats proto.BlockInfo.sumCoinbaseOutputSats
    proto.BlockInfo.sumNormalOutputSats proto.BlockInfo.sumBurnedSats ] in *.
  repeat match goal with H : _ /\ _ |- _ => destruct H end.
  apply chunk_ok_app with
    (m1 := (proto.BlockInfo.mk hash_ [] 0 0 Long_ZERO Long_UZERO Long_UZERO Long_UZERO Long_UZERO Long_ZERO Long_ZERO Long_ZERO Long_ZERO)).
  { apply (chunk_f_bytes _ 1 proto.BlockInfo.with_hash); fld. }
  apply chunk_ok_app with
    (m1 := (proto.BlockInfo.mk hash_ prevHash_ 0 0 Long_ZERO Long_UZERO Long_UZERO Long_UZERO Long_UZERO Long_ZERO Long_ZERO Long_ZERO Long_ZERO)).
  { apply (chunk_f_bytes _ 2 proto.BlockInfo.with_prevHash); fld. }
  apply chunk_ok_app with
    (m1 := (proto.BlockInfo.mk hash_ prevHash_ height_ 0 Long_ZERO Long_UZERO Long_UZERO Long_UZERO Long_UZERO Long_ZERO Long_ZERO Long_ZERO Long_ZERO)).
  { apply (chunk_f_int32 _ 3 proto.BlockInfo.with_height); fld. }
  apply chunk_ok_app with
    (m1 := (proto.BlockInfo.mk hash_ prevHash_ height_ nBits_ Long_ZERO Long_UZERO Long_UZERO Long_UZERO Long_UZERO Long_ZERO Long_ZERO Long_ZERO Long_ZERO)).
  { apply (chunk_f_uint32 _ 4 proto.BlockInfo.with_nBits); fld. }
  apply chunk_ok_app with
    (m1 := (proto.BlockInfo.mk hash_ prevHash_ height_ nBits_ timestamp_ Long_UZERO Long_UZERO Long_UZERO Long_UZERO Long_ZERO Long_ZERO Long_ZERO Long_ZERO)).
  { apply (chunk_f_int64 _ 5 proto.BlockInfo.with_timestamp); fld. }
  apply chunk_ok_app with
    (m1 := (proto.BlockInfo.mk hash_ prevHash_ height_ nBits_ timestamp_ blockSize_ Long_UZERO Long_UZERO Long_UZERO Long_ZERO Long_ZERO Long_ZERO Long_ZERO)).
  { apply (chunk_f_uint64 _ 6 proto.BlockInfo.with_blockSize); fld. }
  apply chunk_ok_app with
    (m1 := (proto.BlockInfo.mk hash_ prevHash_ height_ nBits_ timestamp_ blockSize_ numTxs_ Long_UZERO Long_UZERO Long_ZERO Long_ZERO Long_ZERO Long_ZERO)).
  { apply (chunk_f_uint64 _ 7 proto.BlockInfo.with_numTxs); fld. }
  apply chunk_ok_app with
    (m1 := (proto.BlockInfo.mk hash_ prevHash_ height_ nBits_ timestamp_ blockSize_ numTxs_ numInputs_ Long_UZERO Long_ZERO Long_ZERO Long_ZERO Long_ZERO)).
  { apply (chunk_f_uint64 _ 8 proto.BlockInfo.with_numInputs); fld. }
  apply chunk_ok_app with
    (m1 := (proto.BlockInfo.mk hash_ prevHash_ height_ nBits_ timestamp_ blockSize_ numTxs_ numInputs_ numOutputs_ Long_ZERO Long_ZERO Long_ZERO Long_ZERO)).
  { apply (chunk_f_uint64 _ 9 proto.BlockInfo.with_numOutputs); fld. }
  apply chunk_ok_app with
    (m1 := (proto.BlockInfo.mk hash_ prevHash_ height_ nBits_ timestamp_ blockSize_ numTxs_ numInputs_ numOutputs_ sumInputSats_ Long_ZERO Long_ZERO Long_ZERO)).
  { apply (chunk_f_int64 _ 10 proto.BlockInfo.with_sumInputSats); fld. }
  apply chunk_ok_app with
    (m1 := (proto.BlockInfo.mk hash_ prevHash_ height_ nBits_ timestamp_ blockSize_ numTxs_ numInputs_ numOutputs_ sumInputSats_ sumCoinbaseOutputSats_ Long_ZERO Long_ZERO)).
  { apply (chunk_f_int64 _ 11 proto.BlockInfo.with_sumCoinbaseOutputSats); fld. }
  apply chunk_ok_app with
    (m1 := (proto.BlockInfo.mk hash_ prevHash_ height_ nBits_ timestamp_ blockSize_ numTxs_ numInputs_ numOutputs_ sumInputSats_ sumCoinbaseOutputSats_ sumNormalOutputSats_ Long_ZERO)).
  { apply (chunk_f_int64 _ 12 proto.BlockInfo.with_sumNormalOutputSats); fld. }
  apply (chunk_f_int64 _ 13 proto.BlockInfo.with_sumBurnedSats); fld.
Qed.

Lemma Block_roundtrips :
  roundtrips proto.Block.field proto.Block.base proto.Block.wire proto.Block.wf.
Proof.
  intros [blockInfo_ txs_] Hwf.
  unfold proto.Block.wf in Hwf. unfold proto.Block.wire. cbn [
    proto.Block.blockInfo proto.Block.txs ] in *.
  repeat match goal with H : _ /\ _ |- _ => destruct H end.
  apply chunk_ok_app with
    (m1 := (proto.Block.mk blockInfo_ [])).
  { apply (chunk_f_msg _ _ _ _ _ BlockInfo_roundtrips 1 proto.Block.with_blockInfo); fld. }
  apply (chunk_f_rep _ _ _ _ _ Tx_roundtrips 2
             (fun v m => proto.Block.with_txs (proto.Block.txs m ++ [v]) m) proto.Block.with_txs); fld.
Qed.

Lemma TxHistoryPage_roundtrips :
  roundtrips proto.TxHistoryPage.field proto.TxHistoryPage.base proto.TxHistoryPage.wire proto.TxHistoryPage.wf.
Proof.
  intros [txs_ numPages_] Hwf.
  unfold proto.TxHistoryPage.wf in Hwf. unfold proto.TxHistoryPage.wire. cbn [
    proto.TxHistoryPage.txs proto.TxHistoryPage.numPages ] in *.
  repeat match goal with H : _ /\ _ |- _ => destruct H end.
  apply chunk_ok_app with
    (m1 := (proto.TxHistoryPage.mk txs_ 0)).
  { apply (chunk_f_rep _ _ _ _ _ Tx_roundtrips 1
             (fun v m => proto.TxHistoryPage.with_txs (proto.TxHistoryPage.txs m ++ [v]) m) proto.TxHistoryPage.with_txs); fld. }
  apply (chunk_f_uint32 _ 2 proto.TxHistoryPage.with_numPages); fld.
Qed.

Lemma Blocks_roundtrips :
  roundtrips proto.Blocks.field proto.Blocks.base proto.Blocks.wire proto.Blocks.wf.
Proof.
  intros [blocks_] Hwf.
  unfold proto.Blocks.wf in Hwf. unfold proto.Blocks.wire. cbn [
    proto.Blocks.blocks ] in *.
  repeat match goal with H : _ /\ _ |- _ => destruct H end.
  apply (chunk_f_rep _ _ _ _ _ BlockInfo_roundtrips 1
             (fun v m => proto.Blocks.with_blocks (proto.Blocks.blocks m ++ [v]) m) proto.Blocks.with_blocks); fld.
Qed.

Lemma BroadcastTxRequest_roundtrips :
  roundtrips proto.BroadcastTxRequest.field proto.BroadcastTxRequest.base proto.BroadcastTxRequest.wire proto.BroadcastTxRequest.wf.
Proof.
  intros [rawTx_ skipSlpCheck_] Hwf.
  unfold proto.BroadcastTxRequest.wf in Hwf. unfold proto.BroadcastTxRequest.wire. cbn [
    proto.BroadcastTxRequest.rawTx proto.BroadcastTxRequest.skipSlpCheck ] in *.
  repeat match goal with H : _ /\ _ |- _ => destruct H end.
  apply chunk_ok_app with
    (m1 := (proto.BroadcastTxRequest.mk rawTx_ false)).
  { apply (chunk_f_bytes _ 1 proto.BroadcastTxRequest.with_rawTx); fld. }
  apply (chunk_f_bool _ 2 proto.BroadcastTxRequest.with_skipSlpCheck); fld.
Qed.

Lemma BroadcastTxResponse_roundtrips :
  roundtrips proto.BroadcastTxResponse.field proto.BroadcastTxResponse.base proto.BroadcastTxResponse.wire proto.BroadcastTxResponse.wf.
Proof.
  intros [txid_] Hwf.
  unfold proto.BroadcastTxResponse.wf in Hwf. unfold proto.BroadcastTxResponse.wire. cbn [
    proto.BroadcastTxResponse.txid ] in *.
  repeat match goal with H : _ /\ _ |- _ => destruct H end.
  apply (chunk_f_bytes _ 1 proto.BroadcastTxResponse.with_txid); fld.
Qed.

Lemma MsgAddedToMempool_roundtrips :
  roundtrips proto.MsgAddedToMempool.field proto.MsgAddedToMempool.base proto.MsgAddedToMempool.wire proto.MsgAddedToMempool.wf.
Proof.
  intros [txid_] Hwf.
  unfold proto.MsgAddedToMempool.wf in Hwf. unfold proto.MsgAddedToMempool.wire. cbn [
    proto.MsgAddedToMempool.txid ] in *.
  repeat match goal with H : _ /\ _ |- _ => destruct H end.
  apply (chunk_f_bytes _ 1 proto.MsgAddedToMempool.with_txid); fld.
Qed.

Lemma MsgRemovedFromMempool_roundtrips :
  roundtrips proto.MsgRemovedFromMempool.field proto.MsgRemovedFromMempool.base proto.MsgRemovedFromMempool.wire proto.MsgRemovedFromMempool.wf.
Proof.
  intros [txid_] Hwf.
  unfold proto.MsgRemovedFromMempool.wf in Hwf. unfold proto.MsgRemovedFromMempool.wire. cbn [
    proto.MsgRemovedFromMempool.txid ] in *.
  repeat match goal with H : _ /\ _ |- _ => destruct H end.
  apply (chunk_f_bytes _ 1 proto.MsgRemovedFromMempool.with_txid); fld.
Qed.

Lemma MsgConfirmed_roundtrips :
  roundtrips proto.MsgConfirmed.field proto.MsgConfirmed.base proto.MsgConfirmed.wire proto.MsgConfirmed.wf.
Proof.
  intros [txid_] Hwf.
  unfold proto.MsgConfirmed.wf in Hwf. unfold proto.MsgConfirmed.wire. cbn [
    proto.MsgConfirmed.txid ] in *.
  repeat match goal with H : _ /\ _ |- _ => destruct H end.
  apply (chunk_f_bytes _ 1 proto.MsgConfirmed.with_txid); fld.
Qed.

Lemma MsgReorg_roundtrips :
  roundtrips proto.MsgReorg.field proto.MsgReorg.base proto.MsgReorg.wire proto.MsgReorg.wf.
Proof.
  intros [txid_] Hwf.
  unfold proto.MsgReorg.wf in Hwf. unfold proto.MsgReorg.wire. cbn [
    proto.MsgReorg.txid ] in *.
  repeat match goal with H : _ /\ _ |- _ => destruct H end.
  apply (chunk_f_bytes _ 1 proto.MsgReorg.with_txid); fld.
Qed.

Lemma SubscribeMsg_roundtrips :
  roundtrips proto.SubscribeMsg.field proto.SubscribeMsg.base proto.SubscribeMsg.wire proto.SubscribeMsg.wf.
Proof.
  intros [error_ AddedToMempool_ RemovedFromMempool_ Confirmed_ Reorg_] Hwf.
  unfold proto.SubscribeMsg.wf in Hwf. unfold proto.SubscribeMsg.wire. cbn [
    proto.SubscribeMsg.error proto.SubscribeMsg.AddedToMempool
    proto.SubscribeMsg.RemovedFromMempool proto.SubscribeMsg.Confirmed
    proto.SubscribeMsg.Reorg ] in *.
  repeat match goal with H : _ /\ _ |- _ => destruct H end.
  apply chunk_ok_app with
    (m1 := (proto.SubscribeMsg.mk error_ None None None None)).
  { apply (chunk_f_msg _ _ _ _ _ Error_roundtrips 1 proto.SubscribeMsg.with_error); fld. }
  apply chunk_ok_app with
    (m1 := (proto.SubscribeMsg.mk error_ AddedToMempool_ None None None)).
  { apply (chunk_f_msg _ _ _ _ _ MsgAddedToMempool_roundtrips 2 proto.SubscribeMsg.with_AddedToMempool); fld. }
  apply chunk_ok_app with
    (m1 := (proto.SubscribeMsg.mk error_ AddedToMempool_ RemovedFromMempool_ None None)).
  { apply (chunk_f_msg _ _ _ _ _ MsgRemovedFromMempool_roundtrips 3 proto.SubscribeMsg.with_RemovedFromMempool); fld. }
  apply chunk_ok_app with
    (m1 := (proto.SubscribeMsg.mk error_ AddedToMempool_ RemovedFromMempool_ Confirmed_ None)).
  { apply (chunk_f_msg _ _ _ _ _ MsgConfirmed_roundtrips 4 proto.SubscribeMsg.with_Confirmed); fld. }
  apply (chunk_f_msg _ _ _ _ _ MsgReorg_roundtrips 5 proto.SubscribeMsg.with_Reorg); fld.
Qed.

(** * The claims *)

Lemma decode_bytes_roundtrip {N : Type}
    (nfield : nat -> Z -> Reader -> N -> result (N * Reader))
    (nbase : N) (nwire : N -> bytes) (nwf : N -> Prop) :
  roundtrips nfield nbase nwire nwf ->
  forall x, nwf x ->
    decode_bytes
      (fun fuel reader length =>
         decode_loop nfield fuel (decode_end reader length) reader nbase)
      (nwire x)
    = Ok x.
Proof.
  intros Hrt x Hx. unfold decode_bytes, decode_end, Reader_create, Reader_len.
  cbn [pos rest].
  pose proof (chunk_ok_run nfield (nwire x) nbase x
                (S (List.length (nwire x))) 0 [] (Hrt x Hx)) as H.
  unfold run in H. rewrite app_nil_r in H. rewrite H; [reflexivity | lia].
Qed.


(** C5: for every well-formed [Tx] message (every number in the range of
    its declared type, every [Long] of the signedness of its field, every
    byte string and nested message short enough for its length prefix),
    decoding the bytes produced by encoding it yields the message:
    [Tx.decode(Tx.encode(m).finish()) = m]. *)
Theorem Tx_decode_encode (m : proto.Tx.t) :
  proto.Tx.wf m ->
  decode_bytes proto.Tx.decode (Writer_finish (proto.Tx.encode m Writer_create)) = Ok m.
Proof.
  intros Hwf. rewrite Tx_encode_wire, finish_push.
  exact (decode_bytes_roundtrip _ _ _ _ Tx_roundtrips m Hwf).
Qed.

Lemma Tx_decode_encode_witness :
  let m :=
    proto.Tx.mk [x0b; xad; xc0; xde] 2
      [proto.TxInput.mk (Some (proto.OutPoint.mk [x01; x02; x03] 1)) [x51] [x76; xa9]
         (mkLong 546 0 false) 4294967295
         (Some (proto.SlpBurn.mk (Some (proto.SlpToken.mk (mkLong 7 0 true) false)) [xaa]))
         (Some (proto.SlpToken.mk (mkLong (-1) 1 true) true))]
      [proto.TxOutput.mk (mkLong (-2) (-1) false) [x6a] None
         (Some (proto.OutPoint.mk [xff] 0))]
      500000
      (Some (proto.SlpTxData.mk (Some (proto.SlpMeta.mk 1 (-1) [x11] []))
               (Some (proto.SlpGenesisInfo.mk [x41] [] [] [] 8))))
      "bad" (Some (proto.BlockMetadata.mk 700000 [x00; x01] (mkLong 1 0 false)))
      (mkLong 0 1 false) 3 in
  proto.Tx.wf m
  /\ decode_bytes proto.Tx.decode (Writer_finish (proto.Tx.encode m Writer_create)) = Ok m.
Proof.
  intros m.
  assert (Hwf : proto.Tx.wf m) by (subst m; wf_tac).
  split; [exact Hwf | exact (Tx_decode_encode m Hwf)].
Defined.

(** The schema's [Utxo] without a block, read by the decoder of
    [chronik.ts]. *)
Lemma Utxo_schema_chunks (u : RefSchema.Utxo.t) :
  RefSchema.Utxo.wf u -> RefSchema.Utxo.block u = None ->
  chunk_ok proto.Utxo.field (RefSchema.Utxo.wire u) proto.Utxo.base
    (RefSchema.Utxo.common u).
Proof.
  intros Hwf Hblock.
  destruct u as [outpoint_ block_ is_coinbase_ output_script_ value_ slp_meta_
                   slp_token_ time_first_seen_ network_].
  unfold RefSchema.Utxo.wf in Hwf.
  unfold RefSchema.Utxo.wire, RefSchema.Utxo.common.
  cbn [RefSchema.Utxo.outpoint RefSchema.Utxo.block RefSchema.Utxo.is_coinbase
       RefSchema.Utxo.output_script RefSchema.Utxo.value RefSchema.Utxo.slp_meta
       RefSchema.Utxo.slp_token RefSchema.Utxo.time_first_seen RefSchema.Utxo.network]
    in *.
  subst block_. cbn [option_map f_msg app].
  repeat match goal with H : _ /\ _ |- _ => destruct H end.
  apply chunk_ok_app with
    (m1 := proto.Utxo.mk outpoint_ 0 false Long_ZERO None None 0).
  { apply (chunk_f_msg _ _ _ _ _ OutPoint_roundtrips 1 proto.Utxo.with_outpoint); fld. }
  apply chunk_ok_app with
    (m1 := proto.Utxo.mk outpoint_ 0 is_coinbase_ Long_ZERO None None 0).
  { apply (chunk_f_bool _ 3 proto.Utxo.with_isCoinbase); fld. }
  apply chunk_ok_app with
    (m1 := proto.Utxo.mk outpoint_ 0 is_coinbase_ Long_ZERO None None 0).
  { apply (chunk_skip_bytes _ 4); fld. }
  apply chunk_ok_app with
    (m1 := proto.Utxo.mk outpoint_ 0 is_coinbase_ value_ None None 0).
  { apply (chunk_f_int64 _ 5 proto.Utxo.with_value); fld. }
  apply chunk_ok_app with
    (m1 := proto.Utxo.mk outpoint_ 0 is_coinbase_ value_ slp_meta_ None 0).
  { apply (chunk_f_msg _ _ _ _ _ SlpMeta_roundtrips 6 proto.Utxo.with_slpMeta); fld. }
  apply chunk_ok_app with
    (m1 := proto.Utxo.mk outpoint_ 0 is_coinbase_ value_ slp_meta_ slp_token_ 0).
  { apply (chunk_f_msg _ _ _ _ _ SlpToken_roundtrips 7 proto.Utxo.with_slpToken); fld. }
  apply chunk_ok_app with
    (m1 := proto.Utxo.mk outpoint_ 0 is_coinbase_ value_ slp_meta_ slp_token_ 0).
  { apply (chunk_skip_int64 _ 8); fld. }
  apply (chunk_f_int32 _ 9 proto.Utxo.with_network); fld.
Qed.

(** C3, as stated, fails: the schema's [Utxo] with a block of timestamp 1
    and nothing else is the bytes [12 02 18 01]; the decoder of
    [chronik.ts] reads field 2 as an [int32] and so takes the length 2 for
    the block height and the block's timestamp field for [isCoinbase]. *)
Lemma Utxo_codec_not_wire_compatible : ~ RefSchema.Utxo_reads_schema.
Proof.
  intros H.
  destruct (H (RefSchema.Utxo.mk None
                 (Some (proto.BlockMetadata.mk 0 [] (mkLong 1 0 false)))
                 false [] Long_ZERO None None Long_ZERO 0))
    as (m & Hdec & _ & Hcb & _).
  - cbv [RefSchema.Utxo.wf RefSchema.Utxo.outpoint RefSchema.Utxo.block
         RefSchema.Utxo.output_script RefSchema.Utxo.value RefSchema.Utxo.slp_meta
         RefSchema.Utxo.slp_token RefSchema.Utxo.time_first_seen
         RefSchema.Utxo.network].
    wf_tac.
  - vm_compute in Hdec. injection Hdec as <-. discriminate Hcb.
Qed.

(** C3, amended: the codec of [chronik.ts] agrees with the schema file on
    the fields 1 (outpoint), 3 (is_coinbase), 5 (value), 6 (slp_meta),
    7 (slp_token) and 9 (network) of [Utxo]: its decoder reads a schema
    [Utxo] that has no block into the message with these fields, skipping
    the fields 4 (output_script) and 8 (time_first_seen), and its encoder
    writes that message as the schema does when output_script and
    time_first_seen hold their defaults.  Field 2 is an [int32]
    [blockHeight] in [chronik.ts], and field 1 of [Utxos] a repeated
    [ScriptUtxos] (output_script = 1, repeated Utxo = 2). *)
Theorem Utxo_codec_agrees_on_common_fields (u : RefSchema.Utxo.t) :
  RefSchema.Utxo.wf u -> RefSchema.Utxo.block u = None ->
  decode_bytes proto.Utxo.decode (RefSchema.Utxo.wire u) = Ok (RefSchema.Utxo.common u)
  /\ Writer_finish (proto.Utxo.encode (RefSchema.Utxo.common u) Writer_create)
     = RefSchema.Utxo.wire
         (RefSchema.Utxo.mk (RefSchema.Utxo.outpoint u) None (RefSchema.Utxo.is_coinbase u)
            [] (RefSchema.Utxo.value u) (RefSchema.Utxo.slp_meta u)
            (RefSchema.Utxo.slp_token u) Long_ZERO (RefSchema.Utxo.network u))
  /\ (forall (m : proto.Utxo.t) (w : Writer),
         proto.Utxo.encode m w
         = push (f_msg 1 (option_map proto.OutPoint.wire (proto.Utxo.outpoint m))
                 ++ f_int32 2 (proto.Utxo.blockHeight m)
                 ++ f_bool 3 (proto.Utxo.isCoinbase m)
                 ++ f_int64 5 (proto.Utxo.value m)
                 ++ f_msg 6 (option_map proto.SlpMeta.wire (proto.Utxo.slpMeta m))
                 ++ f_msg 7 (option_map proto.SlpToken.wire (proto.Utxo.slpToken m))
                 ++ f_int32 9 (proto.Utxo.network m)) w)
  /\ (forall (m : proto.Utxos.t) (w : Writer),
         proto.Utxos.encode m w
         = push (f_rep 1
                   (map (fun s =>
                           f_bytes 1 (proto.ScriptUtxos.outputScript s)
                           ++ f_rep 2 (map proto.Utxo.wire (proto.ScriptUtxos.utxos s)))
                      (proto.Utxos.scriptUtxos m))) w).
Proof.
  intros Hwf Hblock. repeat split.
  - unfold decode_bytes, proto.Utxo.decode, decode_end, Reader_create, Reader_len.
    cbn [pos rest].
    pose proof (chunk_ok_run proto.Utxo.field (RefSchema.Utxo.wire u) proto.Utxo.base
                  (RefSchema.Utxo.common u)
                  (S (List.length (RefSchema.Utxo.wire u))) 0 []
                  (Utxo_schema_chunks u Hwf Hblock)) as H.
    unfold run in H. rewrite app_nil_r in H. rewrite H; [reflexivity | lia].
  - rewrite Utxo_encode_wire, finish_push. reflexivity.
  - apply Utxo_encode_wire.
  - apply Utxos_encode_wire.
Qed.

Lemma Utxo_codec_agrees_witness :
  let u :=
    RefSchema.Utxo.mk (Some (proto.OutPoint.mk [x01; x02] 3)) None true [x76; xa9]
      (mkLong 1000 0 false)
      (Some (proto.SlpMeta.mk 0 1 [xaa] []))
      (Some (proto.SlpToken.mk (mkLong 5 0 true) false))
      (mkLong 1650000000 0 false) 1 in
  RefSchema.Utxo.wf u /\ RefSchema.Utxo.block u = None
  /\ decode_bytes proto.Utxo.decode (RefSchema.Utxo.wire u) = Ok (RefSchema.Utxo.common u).
Proof.
  intros u.
  assert (Hwf : RefSchema.Utxo.wf u).
  { subst u.
    cbv [RefSchema.Utxo.wf RefSchema.Utxo.outpoint RefSchema.Utxo.block
         RefSchema.Utxo.output_script RefSchema.Utxo.value RefSchema.Utxo.slp_meta
         RefSchema.Utxo.slp_token RefSchema.Utxo.time_first_seen
         RefSchema.Utxo.network].
    wf_tac. }
  split; [exact Hwf|]. split; [reflexivity|].
  exact (proj1 (Utxo_codec_agrees_on_common_fields u Hwf eq_refl)).
Defined.

(** C2: [Tx.encode] writes txid as field 1, version as field 2, the inputs
    as field 3, the outputs as field 4, lockTime as field 5, the token data
    as field 6, the token error message as field 7, the block metadata as
    field 8, timeFirstSeen as field 9 and the network as field 10 ([key n t]
    is the tag of field [n]); and the enums of [chronik.ts] have the values
    of the schema file: Network BCH=0, XEC=1, XPI=2, XRG=3; token tx type
    GENESIS=0, SEND=1, MINT=2, UNKNOWN=3; UtxoStateVariant UNSPENT=0,
    SPENT=1, NO_SUCH_TX=2, NO_SUCH_OUTPUT=3. *)
Theorem Tx_encode_field_numbers :
  (forall (m : proto.Tx.t) (w : Writer),
      proto.Tx.encode m w
      = push (f_bytes 1 (proto.Tx.txid m)
              ++ f_int32 2 (proto.Tx.version m)
              ++ f_rep 3 (map proto.TxInput.wire (proto.Tx.inputs m))
              ++ f_rep 4 (map proto.TxOutput.wire (proto.Tx.outputs m))
              ++ f_uint32 5 (proto.Tx.lockTime m)
              ++ f_msg 6 (option_map proto.SlpTxData.wire (proto.Tx.slpTxData m))
              ++ f_string 7 (proto.Tx.slpErrorMsg m)
              ++ f_msg 8 (option_map proto.BlockMetadata.wire (proto.Tx.block m))
              ++ f_int64 9 (proto.Tx.timeFirstSeen m)
              ++ f_int32 10 (proto.Tx.network m)) w)
  /\ (forall n t : Z, key n t = varint32 (toUint32 (n * 8 + t)))
  /\ (proto.Network.BCH = 0 /\ proto.Network.XEC = 1
      /\ proto.Network.XPI = 2 /\ proto.Network.XRG = 3)
  /\ (proto.SlpTxType.GENESIS = 0 /\ proto.SlpTxType.SEND = 1
      /\ proto.SlpTxType.MINT = 2 /\ proto.SlpTxType.UNKNOWN_TX_TYPE = 3)
  /\ (proto.UtxoStateVariant.UNSPENT = 0 /\ proto.UtxoStateVariant.SPENT = 1
      /\ proto.UtxoStateVariant.NO_SUCH_TX = 2
      /\ proto.UtxoStateVariant.NO_SUCH_OUTPUT = 3)
  /\ (proto.Network.BCH = RefSchema.Network.BCH
      /\ proto.Network.XEC = RefSchema.Network.XEC
      /\ proto.Network.XPI = RefSchema.Network.XPI
      /\ proto.Network.XRG = RefSchema.Network.XRG)
  /\ (proto.SlpTxType.GENESIS = RefSchema.SlpTxType.GENESIS
      /\ proto.SlpTxType.SEND = RefSchema.SlpTxType.SEND
      /\ proto.SlpTxType.MINT = RefSchema.SlpTxType.MINT
      /\ proto.SlpTxType.UNKNOWN_TX_TYPE = RefSchema.SlpTxType.UNKNOWN_TX_TYPE)
  /\ (proto.UtxoStateVariant.UNSPENT = RefSchema.UtxoStateVariant.UNSPENT
      /\ proto.UtxoStateVariant.SPENT = RefSchema.UtxoStateVariant.SPENT
      /\ proto.UtxoStateVariant.NO_SUCH_TX = RefSchema.UtxoStateVariant.NO_SUCH_TX
      /\ proto.UtxoStateVariant.NO_SUCH_OUTPUT = RefSchema.UtxoStateVariant.NO_SUCH_OUTPUT).
Proof.
  split; [exact Tx_encode_wire|].
  repeat split.
Qed.

(** C1, at the input on which the code departs from it: an output spent
    by the transaction with the wire txid [01 02] is converted to a
    [spentBy.txid] of "0102", the wire order, where the reversed order that
    every other txid is rendered in ([toHexRev]) is "0201". *)
Theorem convertToTx_spentBy_txid_in_wire_order :
  let spentBy := proto.OutPoint.mk [x01; x02] 7 in
  let tx :=
    proto.Tx.mk [xaa; xbb] 1
      [proto.TxInput.mk (Some (proto.OutPoint.mk [x03; x04] 0)) [] [] Long_ZERO 0
         None None]
      [proto.TxOutput.mk Long_ZERO [] None (Some spentBy)]
      0 None "" (Some (proto.BlockMetadata.mk 5 [x0c; x0d] Long_ZERO)) Long_ZERO 0 in
  convertToTx tx
  = Ok (Tx.mk "bbaa" 1
          [TxInput.mk (OutPoint.mk "0403" 0) "" None Long_ZERO 0 None None]
          [TxOutput.mk Long_ZERO "" None (Some (OutPoint.mk "0102" 7))]
          0 None None (Some (BlockMetadata.mk 5 "0d0c" Long_ZERO)) Long_ZERO BCH)
  /\ hex.toHex (proto.OutPoint.txid spentBy) = "0102"%string
  /\ hex.toHexRev (proto.OutPoint.txid spentBy) = "0201"%string.
Proof.
  repeat split.
Qed.

(** The hash fields of a converted [Tx], site by site: all are rendered
    with [toHexRev] but [spentBy.txid], which is rendered with [toHex]. *)
Lemma convertToTxOutput_spentBy (output : proto.TxOutput.t) :
  TxOutput.spentBy (convertToTxOutput output)
  = option_map
      (fun spentBy =>
         OutPoint.mk (hex.toHex (proto.OutPoint.txid spentBy))
           (proto.OutPoint.outIdx spentBy))
      (proto.TxOutput.spentBy output).
Proof.
  unfold convertToTxOutput. cbn. now destruct (proto.TxOutput.spentBy output).
Qed.

Lemma convertToTxInput_prevOut (input : proto.TxInput.t) (out : TxInput.t) :
  convertToTxInput input = Ok out ->
  exists prevOut,
    proto.TxInput.prevOut input = Some prevOut
    /\ TxInput.prevOut out
       = OutPoint.mk (hex.toHexRev (proto.OutPoint.txid prevOut))
           (proto.OutPoint.outIdx prevOut).
Proof.
  unfold convertToTxInput. destruct (proto.TxInput.prevOut input) as [prevOut|];
    [|discriminate].
  destruct (match proto.TxInput.slpBurn input with Some _ => _ | None => _ end);
    cbn [bind]; [|discriminate].
  intros [= <-]. exists prevOut. split; reflexivity.
Qed.

Lemma convertToTx_txid_block (tx : proto.Tx.t) (out : Tx.t) :
  convertToTx tx = Ok out ->
  Tx.txid out = hex.toHexRev (proto.Tx.txid tx)
  /\ Tx.block out = option_map convertToBlockMeta (proto.Tx.block tx)
  /\ Tx.outputs out = map convertToTxOutput (proto.Tx.outputs tx)
  /\ mapM convertToTxInput (proto.Tx.inputs tx) = Ok (Tx.inputs out)
  /\ Tx.slpErrorMsg out
     = (if negb (String.length (proto.Tx.slpErrorMsg tx) =? 0)%nat
        then Some (proto.Tx.slpErrorMsg tx) else None).
Proof.
  unfold convertToTx.
  destruct (mapM convertToTxInput (proto.Tx.inputs tx)); cbn [bind]; [|discriminate].
  destruct (match proto.Tx.slpTxData tx with Some _ => _ | None => _ end);
    cbn [bind]; [|discriminate].
  destruct (convertToNetwork (proto.Tx.network tx)); cbn [bind]; [|discriminate].
  intros [= <-]. repeat split.
Qed.

Lemma convertToTxInput_outputScript (input : proto.TxInput.t) (out : TxInput.t) :
  convertToTxInput input = Ok out ->
  TxInput.outputScript out
  = (if (0 <? List.length (proto.TxInput.outputScript input))%nat
     then Some (hex.toHex (proto.TxInput.outputScript input)) else None).
Proof.
  unfold convertToTxInput.
  destruct (proto.TxInput.prevOut input); [|discriminate].
  destruct (match proto.TxInput.slpBurn input with Some _ => _ | None => _ end);
    cbn [bind]; [|discriminate].
  now intros [= <-].
Qed.

Lemma convertToSlpMeta_groupTokenId (slpMeta : proto.SlpMeta.t) (out : SlpMeta.t) :
  convertToSlpMeta slpMeta = Ok out ->
  SlpMeta.groupTokenId out
  = (if (List.length (proto.SlpMeta.groupTokenId slpMeta) =? 32)%nat
     then Some (hex.toHex (proto.SlpMeta.groupTokenId slpMeta)) else None).
Proof.
  unfold convertToSlpMeta. cbv zeta.
  destruct (if proto.SlpMeta.tokenType slpMeta =? _ then _ else _);
    cbn [bind]; [|discriminate].
  destruct (if proto.SlpMeta.txType slpMeta =? _ then _ else _);
    cbn [bind]; [|discriminate].
  now intros [= <-].
Qed.

(** C10: the conversion layer maps the empty values of the wire to absent
    fields: a converted input's [outputScript] is undefined iff the wire
    [outputScript] is empty; a converted transaction's [slpErrorMsg] is
    undefined iff the wire string is empty; a converted [SlpMeta]'s
    [groupTokenId] is defined iff the wire [groupTokenId] is 32 bytes
    long. *)
Theorem conversion_sentinels :
  (forall (input : proto.TxInput.t) (out : TxInput.t),
      convertToTxInput input = Ok out ->
      (TxInput.outputScript out = None <-> proto.TxInput.outputScript input = []))
  /\ (forall (tx : proto.Tx.t) (out : Tx.t),
         convertToTx tx = Ok out ->
         (Tx.slpErrorMsg out = None <-> proto.Tx.slpErrorMsg tx = ""%string))
  /\ (forall (slpMeta : proto.SlpMeta.t) (out : SlpMeta.t),
         convertToSlpMeta slpMeta = Ok out ->
         (SlpMeta.groupTokenId out <> None
          <-> List.length (proto.SlpMeta.groupTokenId slpMeta) = 32%nat)).
Proof.
  split; [|split].
  - intros input out H. rewrite (convertToTxInput_outputScript input out H).
    destruct (proto.TxInput.outputScript input); cbn; split; congruence.
  - intros tx out H. apply convertToTx_txid_block in H.
    destruct H as (_ & _ & _ & _ & ->).
    destruct (proto.Tx.slpErrorMsg tx); cbn; split; congruence.
  - intros slpMeta out H. rewrite (convertToSlpMeta_groupTokenId slpMeta out H).
    destruct (Nat.eqb_spec (List.length (proto.SlpMeta.groupTokenId slpMeta)) 32);
      split; congruence.
Qed.

Lemma conversion_sentinels_witness :
  let input :=
    proto.TxInput.mk (Some (proto.OutPoint.mk [x01; x02] 0)) [] [] Long_ZERO 0 None None in
  let tx := proto.Tx.mk [x01] 1 [input] [] 0 None "" None Long_ZERO 1 in
  let slpMeta := proto.SlpMeta.mk 0 1 [xaa] [x01] in
  let input' := TxInput.mk (OutPoint.mk "0201" 0) "" None Long_ZERO 0 None None in
  let tx' := Tx.mk "01" 1 [input'] [] 0 None None None Long_ZERO XEC in
  let slpMeta' := SlpMeta.mk FUNGIBLE SEND "aa" None in
  convertToTxInput input = Ok input'
  /\ convertToTx tx = Ok tx'
  /\ convertToSlpMeta slpMeta = Ok slpMeta'
  /\ (TxInput.outputScript input' = None <-> proto.TxInput.outputScript input = [])
  /\ (Tx.slpErrorMsg tx' = None <-> proto.Tx.slpErrorMsg tx = ""%string)
  /\ (SlpMeta.groupTokenId slpMeta' <> None
      <-> List.length (proto.SlpMeta.groupTokenId slpMeta) = 32%nat).
Proof.
  intros input tx slpMeta input' tx' slpMeta'.
  assert (H1 : convertToTxInput input = Ok input') by reflexivity.
  assert (H2 : convertToTx tx = Ok tx') by reflexivity.
  assert (H3 : convertToSlpMeta slpMeta = Ok slpMeta') by reflexivity.
  split; [exact H1|]. split; [exact H2|]. split; [exact H3|].
  split; [exact (proj1 conversion_sentinels input input' H1)|].
  split; [exact (proj1 (proj2 conversion_sentinels) tx tx' H2)|].
  exact (proj2 (proj2 conversion_sentinels) slpMeta slpMeta' H3).
Defined.

(** ** The constructor of [ChronikClient] *)

Lemma endsWith_spec (s suffix : string) :
  endsWith s suffix = true <-> exists pre, s = (pre ++ suffix)%string.
Proof.
  induction s as [|c s IH]; cbn [endsWith].
  - rewrite orb_false_r, String.eqb_eq. split.
    + intros <-. now exists ""%string.
    + intros [pre H]. destruct pre; cbn in H; [auto | discriminate].
  - rewrite orb_true_iff, String.eqb_eq, IH. split.
    + intros [<- | [pre ->]]; [now exists ""%string | now exists (String c pre)].
    + intros [pre H]. destruct pre as [|c' pre]; cbn in H.
      * now left.
      * injection H as -> ->. right. now exists pre.
Qed.

Lemma startsWith_spec (s prefix : string) :
  startsWith s prefix = true <-> exists rest, s = (prefix ++ rest)%string.
Proof.
  unfold startsWith. revert s.
  induction prefix as [|a prefix IH]; intros s.
  - destruct s; cbn; split; eauto.
  - destruct s as [|b s]; cbn [String.prefix].
    + split; [discriminate | intros [rest H]; discriminate].
    + destruct (ascii_dec a b) as [->|Hne].
      * rewrite IH. split; intros [rest H]; exists rest; cbn in *; congruence.
      * split; [discriminate | intros [rest H]; cbn in H; congruence].
Qed.

Lemma substring_all (s : string) : substring 0 (String.length s) s = s.
Proof. induction s; cbn; congruence. Qed.

Lemma substr_app (prefix rest : string) :
  substr (prefix ++ rest) (String.length prefix) = rest.
Proof.
  unfold substr. induction prefix as [|a prefix IH]; cbn.
  - rewrite Nat.sub_0_r. apply substring_all.
  - exact IH.
Qed.

(** C9: the constructor throws for every url that ends with '/' or starts
    with neither 'http://' nor 'https://', and succeeds for every other
    url; on success the websocket url is the url with its leading
    'https://' replaced by 'wss://', or its leading 'http://' by 'ws://'. *)
Theorem ChronikClient_new_spec (url : string) :
  let ends := exists pre, url = (pre ++ "/")%string in
  let starts :=
    (exists rest, url = ("https://" ++ rest)%string)
    \/ (exists rest, url = ("http://" ++ rest)%string) in
  ((exists e, ChronikClient_new url = Throw e) <-> ends \/ ~ starts)
  /\ ((exists client, ChronikClient_new url = Ok client) <-> ~ ends /\ starts)
  /\ (forall client,
         ChronikClient_new url = Ok client ->
         _url client = url
         /\ ((exists rest,
                 url = ("https://" ++ rest)%string
                 /\ _wsUrl client = ("wss://" ++ rest)%string)
             \/ (exists rest,
                    url = ("http://" ++ rest)%string
                    /\ _wsUrl client = ("ws://" ++ rest)%string))).
Proof.
  intros ends starts. subst ends starts. unfold ChronikClient_new.
  pose proof (endsWith_spec url "/") as He.
  pose proof (startsWith_spec url "https://") as Hs.
  pose proof (startsWith_spec url "http://") as Hp.
  destruct (endsWith url "/").
  { assert (E : exists pre, url = (pre ++ "/")%string) by now apply He.
    split; [|split].
    - split; [now left | eauto].
    - split; [intros [c H]; discriminate | intros [H _]; contradiction].
    - discriminate. }
  assert (E : ~ exists pre, url = (pre ++ "/")%string)
    by (intros H; apply He in H; discriminate).
  destruct (startsWith url "https://").
  { destruct (proj1 Hs eq_refl) as [rest Hu].
    split; [|split].
    - split; [intros [e H]; discriminate|].
      intros [H | H]; [contradiction | exfalso; apply H; left; now exists rest].
    - split; [|eauto]. intros _. split; [assumption | left; now exists rest].
    - intros client [= <-]. split; [reflexivity|].
      left. exists rest. split; [exact Hu|].
      cbn [_wsUrl]. rewrite Hu.
      replace (substr ("https://" ++ rest) 8) with rest
        by (symmetry; apply (substr_app "https://")).
      reflexivity. }
  destruct (startsWith url "http://").
  { destruct (proj1 Hp eq_refl) as [rest Hu].
    split; [|split].
    - split; [intros [e H]; discriminate|].
      intros [H | H]; [contradiction | exfalso; apply H; right; now exists rest].
    - split; [|eauto]. intros _. split; [assumption | right; now exists rest].
    - intros client [= <-]. split; [reflexivity|].
      right. exists rest. split; [exact Hu|].
      cbn [_wsUrl]. rewrite Hu.
      replace (substr ("http://" ++ rest) 7) with rest
        by (symmetry; apply (substr_app "http://")).
      reflexivity. }
  assert (N : ~ ((exists rest, url = ("https://" ++ rest)%string)
                 \/ (exists rest, url = ("http://" ++ rest)%string))).
  { intros [H | H]; [apply Hs in H | apply Hp in H]; discriminate. }
  split; [|split].
  - split; [now right | eauto].
  - split; [intros [c H]; discriminate | intros [_ H]; contradiction].
  - discriminate.
Qed.

Lemma ChronikClient_new_witness :
  ChronikClient_new "https://chronik.be.cash/xec"
  = Ok (mkClient "https://chronik.be.cash/xec" "wss://chronik.be.cash/xec")
  /\ ((exists rest,
          "https://chronik.be.cash/xec"%string = ("https://" ++ rest)%string
          /\ "wss://chronik.be.cash/xec"%string = ("wss://" ++ rest)%string)
      \/ (exists rest,
             "https://chronik.be.cash/xec"%string = ("http://" ++ rest)%string
             /\ "wss://chronik.be.cash/xec"%string = ("ws://" ++ rest)%string)).
Proof.
  split; [reflexivity|].
  exact (proj2 (proj2 (proj2 (ChronikClient_new_spec "https://chronik.be.cash/xec"))
                  (mkClient "https://chronik.be.cash/xec" "wss://chronik.be.cash/xec")
                  eq_refl)).
Defined.

(** ** The HTTP helpers *)

Lemma ensureResponseErrorThrown_spec (response : AxiosResponse) (path : string) :
  (status response <> 200 ->
   exists e,
     ensureResponseErrorThrown response path = Throw e
     /\ forall error,
          decode_bytes proto.Error.decode (data response) = Ok error ->
          e = JsError ("Failed getting " ++ path ++ " (" ++ proto.Error.errorCode error
                       ++ "): " ++ proto.Error.msg error))
  /\ (status response = 200 -> ensureResponseErrorThrown response path = Ok tt).
Proof.
  unfold ensureResponseErrorThrown.
  destruct (Z.eqb_spec (status response) 200) as [E|E]; cbn [negb]; split;
    try congruence.
  intros _.
  destruct (decode_bytes proto.Error.decode (data response)) as [error|e]; cbn [bind].
  - eexists. split; [reflexivity|]. now intros error' [= <-].
  - exists e. split; [reflexivity|]. discriminate.
Qed.



(** ** [validateUtxos] *)

Lemma mapM_nth_error {A B : Type} (f : A -> result B) (l : list A) (l' : list B) :
  mapM f l = Ok l' ->
  List.length l' = List.length l
  /\ forall i a, nth_error l i = Some a ->
       exists b, f a = Ok b /\ nth_error l' i = Some b.
Proof.
  revert l'. induction l as [|a l IH]; intros l'; cbn [mapM].
  - intros [= <-]. split; [reflexivity|]. intros [|i] ?; discriminate.
  - destruct (f a) as [b|] eqn:Ea; cbn [bind]; [|discriminate].
    destruct (mapM f l) as [bs|]; cbn [bind]; [|discriminate].
    intros [= <-]. destruct (IH bs eq_refl) as [Hlen Hnth].
    split; [cbn; congruence|].
    intros [|i] a'; cbn [nth_error].
    + intros [= <-]. eauto.
    + apply Hnth.
Qed.

Lemma mapM_Ok {A B : Type} (f : A -> result B) (l : list A) :
  Forall (fun a => exists b, f a = Ok b) l -> exists l', mapM f l = Ok l'.
Proof.
  induction 1 as [|a l [b Hb] _ [l' IH]]; cbn [mapM].
  - eauto.
  - rewrite Hb, IH. cbn [bind]. eauto.
Qed.

Lemma validateUtxos_state_spec (state : proto.UtxoState.t) (r : UtxoState.t) :
  validateUtxos_state state = Ok r ->
  UtxoState.height r = proto.UtxoState.height state
  /\ UtxoState.isConfirmed r = proto.UtxoState.isConfirmed state
  /\ In (proto.UtxoState.state state, UtxoState.state r)
       [(proto.UtxoStateVariant.UNSPENT, UNSPENT);
        (proto.UtxoStateVariant.SPENT, SPENT);
        (proto.UtxoStateVariant.NO_SUCH_TX, NO_SUCH_TX);
        (proto.UtxoStateVariant.NO_SUCH_OUTPUT, NO_SUCH_OUTPUT)].
Proof.
  unfold validateUtxos_state, convertToUtxoStateVariant.
  repeat match goal with
         | |- context [?a =? ?b] => destruct (Z.eqb_spec a b) as [->|?]
         end; cbn [bind]; try discriminate; intros [= <-]; cbn; auto 10.
Qed.

(** C4: the request of [validateUtxos] encodes one [OutPoint] per input, in
    the order of the inputs, its txid parsed from reversed hex; the list
    returned has one [UtxoState] per entry of the response, in the order
    of the response, each with the height and [isConfirmed] of its entry
    and its variant mapped to one of UNSPENT, SPENT, NO_SUCH_TX,
    NO_SUCH_OUTPUT (the call returns when every variant of the response
    is one of the four); so when the response answers the outpoints of
    the request one by one, the i-th result is the answer to the i-th
    outpoint. *)
Theorem validateUtxos_order (axios : Axios) (client : ChronikClient)
    (outpoints : list OutPoint.t) (request reply : bytes)
    (response : proto.ValidateUtxoResponse.t) :
  validateUtxos_request outpoints = Ok request ->
  axios_post axios (_url client ++ "/validate-utxos") request = Ok (mkResponse 200 reply) ->
  decode_bytes proto.ValidateUtxoResponse.decode reply = Ok response ->
  (Forall (fun state => In (proto.UtxoState.state state)
                          [proto.UtxoStateVariant.UNSPENT; proto.UtxoStateVariant.SPENT;
                           proto.UtxoStateVariant.NO_SUCH_TX;
                           proto.UtxoStateVariant.NO_SUCH_OUTPUT])
     (proto.ValidateUtxoResponse.utxoStates response) ->
   exists result, ChronikClient_validateUtxos axios client outpoints = Ok result)
  /\ forall result : list UtxoState.t,
  ChronikClient_validateUtxos axios client outpoints = Ok result ->
  (exists sent : list proto.OutPoint.t,
      request = f_rep 1 (map proto.OutPoint.wire sent)
      /\ List.length sent = List.length outpoints
      /\ (forall i outpoint,
             nth_error outpoints i = Some outpoint ->
             exists txid,
               hex.fromHexRev (OutPoint.txid outpoint) = Ok txid
               /\ nth_error sent i
                  = Some (proto.OutPoint.mk txid (OutPoint.outIdx outpoint)))
      /\ (proto.ValidateUtxoRequest.wf (proto.ValidateUtxoRequest.mk sent) ->
          decode_bytes proto.ValidateUtxoRequest.decode request
          = Ok (proto.ValidateUtxoRequest.mk sent))
      /\ (forall answer : proto.OutPoint.t -> proto.UtxoState.t,
             proto.ValidateUtxoResponse.utxoStates response = map answer sent ->
             forall i outpoint,
               nth_error outpoints i = Some outpoint ->
               exists txid r,
                 hex.fromHexRev (OutPoint.txid outpoint) = Ok txid
                 /\ nth_error result i = Some r
                 /\ validateUtxos_state
                      (answer (proto.OutPoint.mk txid (OutPoint.outIdx outpoint)))
                    = Ok r))
  /\ List.length result
     = List.length (proto.ValidateUtxoResponse.utxoStates response)
  /\ (forall i state,
         nth_error (proto.ValidateUtxoResponse.utxoStates response) i = Some state ->
         exists r,
           nth_error result i = Some r
           /\ UtxoState.height r = proto.UtxoState.height state
           /\ UtxoState.isConfirmed r = proto.UtxoState.isConfirmed state
           /\ In (proto.UtxoState.state state, UtxoState.state r)
                [(proto.UtxoStateVariant.UNSPENT, UNSPENT);
                 (proto.UtxoStateVariant.SPENT, SPENT);
                 (proto.UtxoStateVariant.NO_SUCH_TX, NO_SUCH_TX);
                 (proto.UtxoStateVariant.NO_SUCH_OUTPUT, NO_SUCH_OUTPUT)]).
Proof.
  intros Hreq Hpost Hdec.
  assert (Hcall : ChronikClient_validateUtxos axios client outpoints
                  = mapM validateUtxos_state
                      (proto.ValidateUtxoResponse.utxoStates response)).
  { unfold ChronikClient_validateUtxos. rewrite Hreq. cbn [bind].
    unfold _post. rewrite Hpost. cbn [bind].
    change (ensureResponseErrorThrown (mkResponse 200 reply) "/validate-utxos")
      with (@Ok unit tt).
    cbn [bind data]. rewrite Hdec. reflexivity. }
  rewrite Hcall. split.
  { intros Hknown. apply mapM_Ok.
    apply (Forall_impl _ (P := fun state =>
                                 In (proto.UtxoState.state state)
                                   [proto.UtxoStateVariant.UNSPENT;
                                    proto.UtxoStateVariant.SPENT;
                                    proto.UtxoStateVariant.NO_SUCH_TX;
                                    proto.UtxoStateVariant.NO_SUCH_OUTPUT])); [|exact Hknown].
    intros state Hin. unfold validateUtxos_state.
    destruct Hin as [<- | [<- | [<- | [<- | []]]]]; cbn; eauto. }
  intros result Hres.
  destruct (mapM_nth_error _ _ _ Hres) as [Hlen Hnth].
  assert (Hstates : forall i state,
             nth_error (proto.ValidateUtxoResponse.utxoStates response) i = Some state ->
             exists r, nth_error result i = Some r /\ validateUtxos_state state = Ok r).
  { intros i state Hi. destruct (Hnth i state Hi) as (r & Hr & Hi'). eauto. }
  unfold validateUtxos_request in Hreq.
  destruct (mapM validateUtxos_outpoint outpoints) as [sent|] eqn:Hsent;
    cbn [bind] in Hreq; [|discriminate].
  injection Hreq as <-.
  destruct (mapM_nth_error _ _ _ Hsent) as [Hslen Hsnth].
  assert (Hsent_nth : forall i outpoint,
             nth_error outpoints i = Some outpoint ->
             exists txid,
               hex.fromHexRev (OutPoint.txid outpoint) = Ok txid
               /\ nth_error sent i
                  = Some (proto.OutPoint.mk txid (OutPoint.outIdx outpoint))).
  { intros i outpoint Hi. destruct (Hsnth i outpoint Hi) as (op & Hop & Hi').
    unfold validateUtxos_outpoint in Hop.
    destruct (hex.fromHexRev (OutPoint.txid outpoint)) as [txid|]; cbn [bind] in Hop;
      [|discriminate].
    injection Hop as <-. eauto. }
  split; [|split].
  - exists sent. rewrite ValidateUtxoRequest_encode_wire, finish_push.
    split; [reflexivity|]. split; [exact Hslen|]. split; [exact Hsent_nth|]. split.
    + intros Hwf.
      exact (decode_bytes_roundtrip _ _ _ _ ValidateUtxoRequest_roundtrips
               (proto.ValidateUtxoRequest.mk sent) Hwf).
    + intros answer Hanswer i outpoint Hi.
      destruct (Hsent_nth i outpoint Hi) as (txid & Htxid & Hsi).
      destruct (Hstates i (answer (proto.OutPoint.mk txid (OutPoint.outIdx outpoint))))
        as (r & Hr & Hconv).
      { rewrite Hanswer. now apply map_nth_error. }
      eauto.
  - exact Hlen.
  - intros i state Hi. destruct (Hstates i state Hi) as (r & Hr & Hconv).
    exists r. split; [exact Hr|]. now apply validateUtxos_state_spec.
Qed.

Lemma validateUtxos_order_witness :
  let outpoints := [OutPoint.mk "0201" 0; OutPoint.mk "ffee" 3] in
  let sent := [proto.OutPoint.mk [x01; x02] 0; proto.OutPoint.mk [xee; xff] 3] in
  let request :=
    Writer_finish
      (proto.ValidateUtxoRequest.encode (proto.ValidateUtxoRequest.mk sent) Writer_create) in
  let response :=
    proto.ValidateUtxoResponse.mk
      [proto.UtxoState.mk 5 true 1; proto.UtxoState.mk (-1) false 3] in
  let reply := Writer_finish (proto.ValidateUtxoResponse.encode response Writer_create) in
  let axios :=
    mkAxios (fun _ => Throw (JsError "Network Error"))
      (fun _ _ => Ok (mkResponse 200 reply)) in
  let client := mkClient "http://localhost" "ws://localhost" in
  let result := [UtxoState.mk 5 true SPENT; UtxoState.mk (-1) false NO_SUCH_OUTPUT] in
  validateUtxos_request outpoints = Ok request
  /\ decode_bytes proto.ValidateUtxoResponse.decode reply = Ok response
  /\ ChronikClient_validateUtxos axios client outpoints = Ok result
  /\ List.length result
     = List.length (proto.ValidateUtxoResponse.utxoStates response).
Proof.
  intros outpoints sent request response reply axios client result.
  assert (H1 : validateUtxos_request outpoints = Ok request) by reflexivity.
  assert (H3 : decode_bytes proto.ValidateUtxoResponse.decode reply = Ok response)
    by (vm_compute; reflexivity).
  assert (H4 : ChronikClient_validateUtxos axios client outpoints = Ok result)
    by (vm_compute; reflexivity).
  split; [exact H1|]. split; [exact H3|]. split; [exact H4|].
  exact (proj1 (proj2 (proj2 (validateUtxos_order axios client outpoints request reply
                                response H1 eq_refl H3) result H4))).
Defined.

(** ** [WsEndpoint] *)

Lemma opened_app (a b : list WsEndpoint.effect) :
  WsEndpoint.opened (a ++ b) = WsEndpoint.opened a ++ WsEndpoint.opened b.
Proof. apply flat_map_app. Qed.

Lemma sent_only_refl e : sent_only e e.
Proof. repeat split. Qed.

Lemma sent_only_trans e1 e2 e3 : sent_only e1 e2 -> sent_only e2 e3 -> sent_only e1 e3.
Proof.
  unfold sent_only. intros (A1 & A2 & A3 & A4 & A5 & A6 & A7) (B1 & B2 & B3 & B4 & B5 & B6 & B7).
  repeat split; congruence.
Qed.

Lemma send_sent_only ws data (e : WsEndpoint.t) :
  sent_only e (snd (WsEndpoint.WebSocket_send ws data e))
  /\ WsEndpoint.readyState (snd (WsEndpoint.WebSocket_send ws data e))
     = WsEndpoint.readyState e.
Proof.
  unfold WsEndpoint.WebSocket_send.
  destruct (WsEndpoint.readyState e) eqn:Er; cbn [snd];
    (split; [|cbn; now rewrite ?Er]); try apply sent_only_refl;
    unfold sent_only;
    cbn [WsEndpoint.emit WsEndpoint._subs WsEndpoint._ws WsEndpoint._closed
         WsEndpoint.sockets WsEndpoint.trace WsEndpoint._wsUrl WsEndpoint.onReconnect];
    repeat split; rewrite opened_app; cbn; now rewrite app_nil_r.
Qed.

Lemma subUnsub_sent_only b t p (e : WsEndpoint.t) :
  sent_only e (snd (WsEndpoint._subUnsub b t p e)).
Proof.
  unfold WsEndpoint._subUnsub.
  destruct (hex.fromHex p); [|apply sent_only_refl].
  destruct (WsEndpoint._ws e) eqn:Ews; [|apply sent_only_refl].
  apply send_sent_only.
Qed.

Lemma subUnsub_readyState b t p (e : WsEndpoint.t) :
  WsEndpoint.readyState (snd (WsEndpoint._subUnsub b t p e)) = WsEndpoint.readyState e.
Proof.
  unfold WsEndpoint._subUnsub.
  destruct (hex.fromHex p); [|reflexivity].
  destruct (WsEndpoint._ws e) eqn:Ews; [|reflexivity].
  apply send_sent_only.
Qed.

Lemma subUnsub_fields b t p (e : WsEndpoint.t) :
  WsEndpoint._subs (snd (WsEndpoint._subUnsub b t p e)) = WsEndpoint._subs e
  /\ WsEndpoint._ws (snd (WsEndpoint._subUnsub b t p e)) = WsEndpoint._ws e.
Proof.
  destruct (subUnsub_sent_only b t p e) as (H1 & H2 & _). now split.
Qed.

Lemma resubscribe_sent_only subs : forall (e : WsEndpoint.t),
  sent_only e (snd (WsEndpoint.resubscribe subs e)).
Proof.
  induction subs as [|sub subs IH]; intros e; cbn [WsEndpoint.resubscribe].
  - apply sent_only_refl.
  - pose proof (subUnsub_sent_only true (WsEndpoint.scriptType sub)
                  (WsEndpoint.scriptPayload sub) e) as H.
    destruct (WsEndpoint._subUnsub true _ _ e) as [[[]|err] e1]; cbn [snd] in *.
    + exact (sent_only_trans _ _ _ H (IH e1)).
    + exact H.
Qed.

Lemma resubscribe_readyState subs : forall (e : WsEndpoint.t),
  WsEndpoint.readyState (snd (WsEndpoint.resubscribe subs e)) = WsEndpoint.readyState e.
Proof.
  induction subs as [|sub subs IH]; intros e; cbn [WsEndpoint.resubscribe]; [reflexivity|].
  pose proof (subUnsub_readyState true (WsEndpoint.scriptType sub)
                (WsEndpoint.scriptPayload sub) e) as H.
  destruct (WsEndpoint._subUnsub true _ _ e) as [[[]|err] e1]; cbn [snd] in *.
  - now rewrite IH.
  - exact H.
Qed.

Lemma subUnsub_fst b t p (e e' : WsEndpoint.t) :
  WsEndpoint._ws e = WsEndpoint._ws e' ->
  WsEndpoint.readyState e = WsEndpoint.readyState e' ->
  fst (WsEndpoint._subUnsub b t p e) = fst (WsEndpoint._subUnsub b t p e').
Proof.
  intros H Hr. unfold WsEndpoint._subUnsub, WsEndpoint.WebSocket_send.
  destruct (hex.fromHex p); [|reflexivity].
  rewrite H, Hr. destruct (WsEndpoint._ws e'); [|reflexivity].
  now destruct (WsEndpoint.readyState e').
Qed.

(** C8: [unsubscribe] removes every entry with the pair from the
    subscription list and keeps the others; for a pair that is not in the
    list it leaves the list as it is; and two calls of [subscribe] with
    the same pair add two entries, the second call ending as the first
    did. *)
Theorem WsEndpoint_subscription_list (e : WsEndpoint.t) (scriptType scriptPayload : string) :
  let sub := WsEndpoint.mkSub scriptType scriptPayload in
  let unsubscribed := snd (WsEndpoint.unsubscribe scriptType scriptPayload e) in
  let subscribed := WsEndpoint.subscribe scriptType scriptPayload e in
  let subscribed_twice := WsEndpoint.subscribe scriptType scriptPayload (snd subscribed) in
  ~ In sub (WsEndpoint._subs unsubscribed)
  /\ (forall sub', In sub' (WsEndpoint._subs unsubscribed)
                   <-> In sub' (WsEndpoint._subs e) /\ sub' <> sub)
  /\ (~ In sub (WsEndpoint._subs e) ->
      WsEndpoint._subs unsubscribed = WsEndpoint._subs e)
  /\ WsEndpoint._subs (snd subscribed) = WsEndpoint._subs e ++ [sub]
  /\ WsEndpoint._subs (snd subscribed_twice) = WsEndpoint._subs e ++ [sub; sub]
  /\ fst subscribed_twice = fst subscribed.
Proof.
  intros sub unsubscribed subscribed subscribed_twice.
  set (keep := fun s : WsEndpoint.Sub =>
                 negb (WsEndpoint.scriptType s =? scriptType)%string
                 || negb (WsEndpoint.scriptPayload s =? scriptPayload)%string).
  assert (Hkeep : forall s, keep s = true <-> s <> sub).
  { intros [t p]. unfold keep, sub. cbn.
    destruct (String.eqb_spec t scriptType) as [->|Ht];
      destruct (String.eqb_spec p scriptPayload) as [->|Hp]; cbn;
      split; congruence. }
  assert (Hun : WsEndpoint._subs unsubscribed = filter keep (WsEndpoint._subs e)).
  { unfold unsubscribed, WsEndpoint.unsubscribe.
    now rewrite (proj1 (subUnsub_fields false _ _ _)). }
  assert (Hsub : WsEndpoint._subs (snd subscribed) = WsEndpoint._subs e ++ [sub]).
  { unfold subscribed, WsEndpoint.subscribe.
    now rewrite (proj1 (subUnsub_fields true _ _ _)). }
  split; [|split; [|split; [|split; [|split]]]].
  - rewrite Hun, filter_In, Hkeep. tauto.
  - intros sub'. rewrite Hun, filter_In, Hkeep. tauto.
  - intros Hnot. rewrite Hun.
    apply forallb_filter_id, forallb_forall.
    intros s Hs. apply Hkeep. congruence.
  - exact Hsub.
  - unfold subscribed_twice, WsEndpoint.subscribe at 1.
    rewrite (proj1 (subUnsub_fields true _ _ _)). cbn [WsEndpoint.with_subs WsEndpoint._subs].
    rewrite Hsub, <- app_assoc. reflexivity.
  - unfold subscribed_twice, subscribed, WsEndpoint.subscribe.
    apply subUnsub_fst.
    + cbn [WsEndpoint.with_subs WsEndpoint._ws].
      now rewrite (proj2 (subUnsub_fields true _ _ _)).
    + cbn [WsEndpoint.with_subs WsEndpoint.readyState].
      now rewrite subUnsub_readyState.
Qed.

Lemma WsEndpoint_subscription_list_witness :
  let e :=
    WsEndpoint.mk (Some 0%nat) "ws://localhost/ws" false false
      [WsEndpoint.mkSub "p2pkh" "00"; WsEndpoint.mkSub "p2sh" "ff"] 1 WsEndpoint.OPEN
      [WsEndpoint.NewWebSocket 0 "ws://localhost/ws"] in
  ~ In (WsEndpoint.mkSub "p2pk" "00") (WsEndpoint._subs e)
  /\ WsEndpoint._subs (snd (WsEndpoint.unsubscribe "p2pk" "00" e)) = WsEndpoint._subs e.
Proof.
  intros e.
  assert (H : ~ In (WsEndpoint.mkSub "p2pk" "00") (WsEndpoint._subs e)).
  { cbn. intros [H | [H | []]]; discriminate H. }
  split; [exact H|].
  exact (proj1 (proj2 (proj2 (WsEndpoint_subscription_list e "p2pk" "00"))) H).
Defined.

Lemma resubscribe_trace subs : forall (e : WsEndpoint.t) ws frames,
  WsEndpoint._ws e = Some ws ->
  WsEndpoint.readyState e = WsEndpoint.OPEN ->
  mapM WsEndpoint.subscribe_frame subs = Ok frames ->
  fst (WsEndpoint.resubscribe subs e) = Ok tt
  /\ WsEndpoint.trace (snd (WsEndpoint.resubscribe subs e))
     = WsEndpoint.trace e ++ map (WsEndpoint.Send ws) frames.
Proof.
  induction subs as [|sub subs IH]; intros e ws frames Hws Hopen;
    cbn [mapM WsEndpoint.resubscribe].
  - intros [= <-]. cbn. now rewrite app_nil_r.
  - unfold WsEndpoint.subscribe_frame at 1, WsEndpoint._subUnsub,
      WsEndpoint.WebSocket_send.
    destruct (hex.fromHex (WsEndpoint.scriptPayload sub)) as [payload|];
      cbn [bind]; [|discriminate].
    destruct (mapM WsEndpoint.subscribe_frame subs) as [frames'|] eqn:Hm;
      cbn [bind]; [|discriminate].
    intros [= <-]. rewrite Hws, Hopen.
    destruct (IH (WsEndpoint.emit
                    (WsEndpoint.Send ws
                       (WsEndpoint.frame true (WsEndpoint.scriptType sub) payload)) e)
                ws frames' Hws Hopen eq_refl) as [H1 H2].
    split; [exact H1|]. rewrite H2. cbn [WsEndpoint.emit WsEndpoint.trace map].
    now rewrite <- app_assoc.
Qed.

Lemma act_call_sent_only (e : WsEndpoint.t) (a : WsEndpoint.action) :
  is_call a ->
  WsEndpoint._ws (WsEndpoint.act e a) = WsEndpoint._ws e
  /\ WsEndpoint._closed (WsEndpoint.act e a) = WsEndpoint._closed e
  /\ WsEndpoint.sockets (WsEndpoint.act e a) = WsEndpoint.sockets e
  /\ WsEndpoint._wsUrl (WsEndpoint.act e a) = WsEndpoint._wsUrl e
  /\ WsEndpoint.onReconnect (WsEndpoint.act e a) = WsEndpoint.onReconnect e
  /\ WsEndpoint.opened (WsEndpoint.trace (WsEndpoint.act e a))
     = WsEndpoint.opened (WsEndpoint.trace e).
Proof.
  destruct a as [t p|t p| | |]; cbn [is_call]; try contradiction; intros _;
    cbn [WsEndpoint.act]; unfold WsEndpoint.subscribe, WsEndpoint.unsubscribe;
    match goal with
    | |- context [WsEndpoint._subUnsub ?b ?t ?p ?e] =>
        destruct (subUnsub_sent_only b t p e) as (_ & H2 & H3 & H4 & H5 & H6 & H7)
    end;
    cbn [WsEndpoint.with_subs WsEndpoint._ws WsEndpoint._closed WsEndpoint.sockets
         WsEndpoint._wsUrl WsEndpoint.onReconnect WsEndpoint.trace] in *;
    repeat split; assumption.
Qed.

(** The opening of the socket changes its state and sends frames. *)
Lemma onopen_sent_only (e : WsEndpoint.t) : sent_only e (snd (WsEndpoint.onopen e)).
Proof.
  unfold WsEndpoint.onopen.
  exact (resubscribe_sent_only (WsEndpoint._subs e)
           (WsEndpoint.with_readyState WsEndpoint.OPEN e)).
Qed.

Lemma act_opened_sent_only (e : WsEndpoint.t) :
  sent_only e (WsEndpoint.act e WsEndpoint.SocketOpened).
Proof.
  cbn [WsEndpoint.act].
  destruct (WsEndpoint.readyState e); try apply sent_only_refl. apply onopen_sent_only.
Qed.

Lemma act_inv wsUrl cfg (e : WsEndpoint.t) (a : WsEndpoint.action) :
  WsEndpoint_inv wsUrl cfg e -> WsEndpoint_inv wsUrl cfg (WsEndpoint.act e a).
Proof.
  intros (Hu & Hc & Hws). unfold WsEndpoint_inv.
  destruct a as [t p|t p| | |].
  - destruct (act_call_sent_only e (WsEndpoint.Subscribe t p) I)
      as (A1 & _ & A3 & A4 & A5 & _).
    rewrite A1, A3, A4, A5. auto.
  - destruct (act_call_sent_only e (WsEndpoint.Unsubscribe t p) I)
      as (A1 & _ & A3 & A4 & A5 & _).
    rewrite A1, A3, A4, A5. auto.
  - cbn [WsEndpoint.act]. unfold WsEndpoint.close.
    cbn [WsEndpoint._ws]. rewrite Hws. cbn. auto.
  - destruct (act_opened_sent_only e) as (_ & H2 & _ & H4 & H5 & H6 & _).
    rewrite H2, H4, H5, H6. auto.
  - cbn [WsEndpoint.act]. unfold WsEndpoint.onclose.
    cbn [WsEndpoint.with_readyState WsEndpoint._closed WsEndpoint.onReconnect].
    destruct (WsEndpoint._closed e); [cbn; auto|].
    destruct (WsEndpoint.onReconnect e) eqn:E; cbn; repeat split; congruence.
Qed.

Lemma acts_inv wsUrl cfg (l : list WsEndpoint.action) : forall e,
  WsEndpoint_inv wsUrl cfg e -> WsEndpoint_inv wsUrl cfg (WsEndpoint.acts e l).
Proof.
  unfold WsEndpoint.acts.
  induction l as [|a l IH]; intros e H; cbn [fold_left]; [exact H|].
  apply IH, act_inv, H.
Qed.

Lemma new_inv wsUrl cfg : WsEndpoint_inv wsUrl cfg (WsEndpoint.new wsUrl cfg).
Proof. repeat split. Qed.

Lemma acts_app (e : WsEndpoint.t) (l1 l2 : list WsEndpoint.action) :
  WsEndpoint.acts e (l1 ++ l2) = WsEndpoint.acts (WsEndpoint.acts e l1) l2.
Proof. apply fold_left_app. Qed.

(** [_closed] is set by [close] and by nothing else. *)
Lemma act_closed (e : WsEndpoint.t) (a : WsEndpoint.action) :
  WsEndpoint._closed (WsEndpoint.act e a) = true
  <-> WsEndpoint._closed e = true \/ a = WsEndpoint.Close.
Proof.
  destruct a as [t p|t p| | |].
  - rewrite (proj1 (proj2 (act_call_sent_only e (WsEndpoint.Subscribe t p) I))).
    split; [auto | intros [H|H]; [exact H | discriminate]].
  - rewrite (proj1 (proj2 (act_call_sent_only e (WsEndpoint.Unsubscribe t p) I))).
    split; [auto | intros [H|H]; [exact H | discriminate]].
  - cbn [WsEndpoint.act]. unfold WsEndpoint.close. cbn [WsEndpoint._ws].
    destruct (WsEndpoint._ws e); cbn; tauto.
  - destruct (act_opened_sent_only e) as (_ & _ & -> & _).
    split; [auto | intros [H|H]; [exact H | discriminate]].
  - cbn [WsEndpoint.act]. unfold WsEndpoint.onclose.
    cbn [WsEndpoint.with_readyState WsEndpoint._closed WsEndpoint.onReconnect].
    destruct (WsEndpoint._closed e) eqn:E; [cbn; rewrite E; tauto|].
    destruct (WsEndpoint.onReconnect e); cbn; rewrite E;
      (split; [discriminate | intros [H|H]; discriminate]).
Qed.

Lemma acts_closed (l : list WsEndpoint.action) : forall e,
  WsEndpoint._closed (WsEndpoint.acts e l) = true
  <-> WsEndpoint._closed e = true \/ In WsEndpoint.Close l.
Proof.
  unfold WsEndpoint.acts.
  induction l as [|a l IH]; intros e; cbn [fold_left In].
  - tauto.
  - rewrite IH, act_closed. intuition congruence.
Qed.

(** Once closed, an endpoint opens no socket. *)
Lemma act_closed_opened (e : WsEndpoint.t) (a : WsEndpoint.action) :
  WsEndpoint._closed e = true ->
  WsEndpoint.opened (WsEndpoint.trace (WsEndpoint.act e a))
  = WsEndpoint.opened (WsEndpoint.trace e).
Proof.
  intros Hc. destruct a as [t p|t p| | |].
  - apply (act_call_sent_only e (WsEndpoint.Subscribe t p) I).
  - apply (act_call_sent_only e (WsEndpoint.Unsubscribe t p) I).
  - cbn [WsEndpoint.act]. unfold WsEndpoint.close. cbn [WsEndpoint._ws].
    destruct (WsEndpoint._ws e);
      cbn [WsEndpoint.emit WsEndpoint.with_readyState WsEndpoint.trace]; [|reflexivity].
    rewrite opened_app. cbn. now rewrite app_nil_r.
  - apply (act_opened_sent_only e).
  - cbn [WsEndpoint.act]. unfold WsEndpoint.onclose.
    cbn [WsEndpoint.with_readyState WsEndpoint._closed]. now rewrite Hc.
Qed.

Lemma acts_closed_opened (l : list WsEndpoint.action) : forall e,
  WsEndpoint._closed e = true ->
  WsEndpoint.opened (WsEndpoint.trace (WsEndpoint.acts e l))
  = WsEndpoint.opened (WsEndpoint.trace e).
Proof.
  unfold WsEndpoint.acts.
  induction l as [|a l IH]; intros e Hc; cbn [fold_left]; [reflexivity|].
  rewrite IH; [now apply act_closed_opened|].
  apply act_closed. now left.
Qed.

Lemma acts_calls_ws (calls : list WsEndpoint.action) : forall e,
  Forall is_call calls ->
  WsEndpoint._ws (WsEndpoint.acts e calls) = WsEndpoint._ws e.
Proof.
  unfold WsEndpoint.acts.
  induction calls as [|a l IH]; intros e H; cbn [fold_left]; [reflexivity|].
  inversion H as [|? ? Ha Hl]; subst.
  rewrite (IH _ Hl). apply (act_call_sent_only e a Ha).
Qed.

(** C7, at an input on which the code departs from it: the socket of an
    endpoint is open; [subscribe] is called for three scripts, the second
    with a payload that [fromHex] refuses, so that the call throws, yet
    its entry stays in the list; the socket closes, [close()] not having
    been called, and the endpoint reconnects.  When the new socket opens
    the replay sends the frame of the first entry, throws at the second
    and sends no frame for the third, a subscription in the list whose
    frame exists. *)
Theorem WsEndpoint_reconnect_skips_entries :
  let history :=
    [WsEndpoint.SocketOpened; WsEndpoint.Subscribe "p2pkh" "00ff";
     WsEndpoint.Subscribe "p2sh" "zz"; WsEndpoint.Subscribe "p2pk" "abcd";
     WsEndpoint.SocketClosed] in
  let e := WsEndpoint.acts (WsEndpoint.new "ws://localhost/ws" false) history in
  let opened := WsEndpoint.onopen e in
  ~ In WsEndpoint.Close history
  /\ WsEndpoint._subs e
     = [WsEndpoint.mkSub "p2pkh" "00ff"; WsEndpoint.mkSub "p2sh" "zz";
        WsEndpoint.mkSub "p2pk" "abcd"]
  /\ WsEndpoint.opened (WsEndpoint.trace e) = [0; 1]%nat
  /\ WsEndpoint._ws e = Some 1%nat
  /\ WsEndpoint.readyState e = WsEndpoint.CONNECTING
  /\ (exists err, hex.fromHex "zz" = Throw err /\ fst opened = Throw err)
  /\ WsEndpoint.trace (snd opened)
     = WsEndpoint.trace e ++ [WsEndpoint.Send 1 (WsEndpoint.frame true "p2pkh" [x00; xff])]
  /\ WsEndpoint.subscribe_frame (WsEndpoint.mkSub "p2pk" "abcd")
     = Ok (WsEndpoint.frame true "p2pk" [xab; xcd])
  /\ ~ In (WsEndpoint.Send 1 (WsEndpoint.frame true "p2pk" [xab; xcd]))
         (WsEndpoint.trace (snd opened)).
Proof.
  intros history e opened.
  split; [cbn; intros [H | [H | [H | [H | [H | []]]]]]; discriminate H|].
  split; [reflexivity|]. split; [reflexivity|]. split; [reflexivity|].
  split; [reflexivity|].
  split; [eexists; split; reflexivity|].
  split; [reflexivity|]. split; [reflexivity|].
  vm_compute. intros H. repeat (destruct H as [H|H]; [discriminate H|]). exact H.
Qed.

(** * Further properties of the code *)

(** ** chronik.ts: every codec reads back what it wrote *)

Lemma roundtrips_decodes_back {M : Type}
    (field : nat -> Z -> Reader -> M -> result (M * Reader)) (base : M)
    (wire : M -> bytes) (wf : M -> Prop) (encode : M -> Writer -> Writer) :
  (forall m w, encode m w = push (wire m) w) ->
  roundtrips field base wire wf ->
  decodes_back encode
    (fun fuel reader length => decode_loop field fuel (decode_end reader length) reader base)
    wf.
Proof.
  intros Henc Hrt m Hwf. rewrite Henc, finish_push.
  exact (decode_bytes_roundtrip _ _ _ _ Hrt m Hwf).
Qed.

(** X1: The messages of the block queries: for every well-formed [BlockInfo],
    [Block] and [Blocks], decoding the bytes of its encoding gives the
    message back. *)
Theorem Block_codecs_decode_back :
  decodes_back proto.BlockInfo.encode proto.BlockInfo.decode proto.BlockInfo.wf
  /\ decodes_back proto.Block.encode proto.Block.decode proto.Block.wf
  /\ decodes_back proto.Blocks.encode proto.Blocks.decode proto.Blocks.wf.
Proof.
  split; [|split].
  - exact (roundtrips_decodes_back _ _ _ _ _ BlockInfo_encode_wire BlockInfo_roundtrips).
  - exact (roundtrips_decodes_back _ _ _ _ _ Block_encode_wire Block_roundtrips).
  - exact (roundtrips_decodes_back _ _ _ _ _ Blocks_encode_wire Blocks_roundtrips).
Qed.

Lemma Block_codecs_decode_back_witness :
  let info :=
    proto.BlockInfo.mk [x00; x01; x02] [xff] 700000 403014710 (mkLong 1650000000 0 false)
      (mkLong 285 0 true) (mkLong 1 0 true) (mkLong 1 0 true) (mkLong 2 0 true)
      Long_ZERO (mkLong 625000000 0 false) Long_ZERO (mkLong (-1) 0 false) in
  let block :=
    proto.Block.mk (Some info)
      [proto.Tx.mk [xaa] 2 [] [proto.TxOutput.mk (mkLong 546 0 false) [x6a] None None]
         0 None "" None Long_ZERO 1] in
  proto.Block.wf block
  /\ decode_bytes proto.Block.decode (encoded proto.Block.encode block) = Ok block
  /\ decode_bytes proto.Blocks.decode
       (encoded proto.Blocks.encode (proto.Blocks.mk [info; proto.BlockInfo.base]))
     = Ok (proto.Blocks.mk [info; proto.BlockInfo.base]).
Proof.
  intros info block.
  assert (Hwf : proto.Block.wf block) by (subst block info; wf_all).
  assert (Hwf' : proto.Blocks.wf (proto.Blocks.mk [info; proto.BlockInfo.base]))
    by (subst info; wf_all).
  split; [exact Hwf|]. split.
  - exact (proj1 (proj2 Block_codecs_decode_back) block Hwf).
  - exact (proj2 (proj2 Block_codecs_decode_back) _ Hwf').
Defined.

(** X2: The messages of the script queries: every well-formed [Utxo],
    [ScriptUtxos], [Utxos] and [TxHistoryPage] is read back from the bytes
    of its encoding. *)
Theorem Script_codecs_decode_back :
  decodes_back proto.Utxo.encode proto.Utxo.decode proto.Utxo.wf
  /\ decodes_back proto.ScriptUtxos.encode proto.ScriptUtxos.decode proto.ScriptUtxos.wf
  /\ decodes_back proto.Utxos.encode proto.Utxos.decode proto.Utxos.wf
  /\ decodes_back proto.TxHistoryPage.encode proto.TxHistoryPage.decode
       proto.TxHistoryPage.wf.
Proof.
  split; [|split; [|split]].
  - exact (roundtrips_decodes_back _ _ _ _ _ Utxo_encode_wire Utxo_roundtrips).
  - exact (roundtrips_decodes_back _ _ _ _ _ ScriptUtxos_encode_wire ScriptUtxos_roundtrips).
  - exact (roundtrips_decodes_back _ _ _ _ _ Utxos_encode_wire Utxos_roundtrips).
  - exact (roundtrips_decodes_back _ _ _ _ _ TxHistoryPage_encode_wire
             TxHistoryPage_roundtrips).
Qed.

Lemma Script_codecs_decode_back_witness :
  let utxo :=
    proto.Utxo.mk (Some (proto.OutPoint.mk [x01; x02] 1)) (-1) true (mkLong 546 0 false)
      (Some (proto.SlpMeta.mk 1 1 [xaa] [])) (Some (proto.SlpToken.mk (mkLong 5 0 true) false))
      1 in
  let utxos := proto.Utxos.mk [proto.ScriptUtxos.mk [x76; xa9] [utxo; proto.Utxo.base]] in
  let page :=
    proto.TxHistoryPage.mk
      [proto.Tx.mk [xaa] 2 [] [] 0 None "" None Long_ZERO 0; proto.Tx.base] 7 in
  proto.Utxos.wf utxos /\ proto.TxHistoryPage.wf page
  /\ decode_bytes proto.Utxos.decode (encoded proto.Utxos.encode utxos) = Ok utxos
  /\ decode_bytes proto.TxHistoryPage.decode (encoded proto.TxHistoryPage.encode page)
     = Ok page.
Proof.
  intros utxo utxos page.
  assert (Hwf : proto.Utxos.wf utxos) by (subst utxos utxo; wf_all).
  assert (Hwf' : proto.TxHistoryPage.wf page) by (subst page; wf_all).
  split; [exact Hwf|]. split; [exact Hwf'|]. split.
  - exact (proj1 (proj2 (proj2 Script_codecs_decode_back)) utxos Hwf).
  - exact (proj2 (proj2 (proj2 Script_codecs_decode_back)) page Hwf').
Defined.

(** X3: The messages of the requests and of errors: every well-formed
    [ValidateUtxoRequest], [ValidateUtxoResponse], [BroadcastTxRequest],
    [BroadcastTxResponse] and [Error] is read back from the bytes of its
    encoding. *)
Theorem Request_codecs_decode_back :
  decodes_back proto.ValidateUtxoRequest.encode proto.ValidateUtxoRequest.decode
    proto.ValidateUtxoRequest.wf
  /\ decodes_back proto.ValidateUtxoResponse.encode proto.ValidateUtxoResponse.decode
       proto.ValidateUtxoResponse.wf
  /\ decodes_back proto.BroadcastTxRequest.encode proto.BroadcastTxRequest.decode
       proto.BroadcastTxRequest.wf
  /\ decodes_back proto.BroadcastTxResponse.encode proto.BroadcastTxResponse.decode
       proto.BroadcastTxResponse.wf
  /\ decodes_back proto.Error.encode proto.Error.decode proto.Error.wf.
Proof.
  split; [|split; [|split; [|split]]].
  - exact (roundtrips_decodes_back _ _ _ _ _ ValidateUtxoRequest_encode_wire
             ValidateUtxoRequest_roundtrips).
  - exact (roundtrips_decodes_back _ _ _ _ _ ValidateUtxoResponse_encode_wire
             ValidateUtxoResponse_roundtrips).
  - exact (roundtrips_decodes_back _ _ _ _ _ BroadcastTxRequest_encode_wire
             BroadcastTxRequest_roundtrips).
  - exact (roundtrips_decodes_back _ _ _ _ _ BroadcastTxResponse_encode_wire
             BroadcastTxResponse_roundtrips).
  - exact (roundtrips_decodes_back _ _ _ _ _ Error_encode_wire Error_roundtrips).
Qed.

Lemma Request_codecs_decode_back_witness :
  let response :=
    proto.ValidateUtxoResponse.mk
      [proto.UtxoState.mk 700000 true 0; proto.UtxoState.mk (-1) false 2] in
  let request := proto.BroadcastTxRequest.mk [x02; x00; x00; x00] true in
  let error := proto.Error.mk "tx-not-found" "Tx not found" true in
  (proto.ValidateUtxoResponse.wf response /\ proto.BroadcastTxRequest.wf request
   /\ proto.Error.wf error)
  /\ decode_bytes proto.ValidateUtxoResponse.decode
       (encoded proto.ValidateUtxoResponse.encode response) = Ok response
  /\ decode_bytes proto.BroadcastTxRequest.decode
       (encoded proto.BroadcastTxRequest.encode request) = Ok request
  /\ decode_bytes proto.Error.decode (encoded proto.Error.encode error) = Ok error.
Proof.
  intros response request error.
  assert (H1 : proto.ValidateUtxoResponse.wf response) by (subst response; wf_all).
  assert (H2 : proto.BroadcastTxRequest.wf request) by (subst request; wf_all).
  assert (H3 : proto.Error.wf error) by (subst error; wf_all).
  split; [exact (conj H1 (conj H2 H3))|]. split; [|split].
  - exact (proj1 (proj2 Request_codecs_decode_back) response H1).
  - exact (proj1 (proj2 (proj2 Request_codecs_decode_back)) request H2).
  - exact (proj2 (proj2 (proj2 (proj2 Request_codecs_decode_back))) error H3).
Defined.

(** X4: The messages of the websocket: every well-formed [Subscription] and
    [SubscribeMsg] (with its [MsgAddedToMempool], [MsgRemovedFromMempool],
    [MsgConfirmed] and [MsgReorg]) is read back from the bytes of its
    encoding. *)
Theorem Websocket_codecs_decode_back :
  decodes_back proto.Subscription.encode proto.Subscription.decode proto.Subscription.wf
  /\ decodes_back proto.SubscribeMsg.encode proto.SubscribeMsg.decode proto.SubscribeMsg.wf
  /\ decodes_back proto.MsgAddedToMempool.encode proto.MsgAddedToMempool.decode
       proto.MsgAddedToMempool.wf
  /\ decodes_back proto.MsgRemovedFromMempool.encode proto.MsgRemovedFromMempool.decode
       proto.MsgRemovedFromMempool.wf
  /\ decodes_back proto.MsgConfirmed.encode proto.MsgConfirmed.decode proto.MsgConfirmed.wf
  /\ decodes_back proto.MsgReorg.encode proto.MsgReorg.decode proto.MsgReorg.wf.
Proof.
  split; [|split; [|split; [|split; [|split]]]].
  - exact (roundtrips_decodes_back _ _ _ _ _ Subscription_encode_wire
             Subscription_roundtrips).
  - exact (roundtrips_decodes_back _ _ _ _ _ SubscribeMsg_encode_wire
             SubscribeMsg_roundtrips).
  - exact (roundtrips_decodes_back _ _ _ _ _ MsgAddedToMempool_encode_wire
             MsgAddedToMempool_roundtrips).
  - exact (roundtrips_decodes_back _ _ _ _ _ MsgRemovedFromMempool_encode_wire
             MsgRemovedFromMempool_roundtrips).
  - exact (roundtrips_decodes_back _ _ _ _ _ MsgConfirmed_encode_wire
             MsgConfirmed_roundtrips).
  - exact (roundtrips_decodes_back _ _ _ _ _ MsgReorg_encode_wire MsgReorg_roundtrips).
Qed.

Lemma Websocket_codecs_decode_back_witness :
  let subscription := proto.Subscription.mk "p2pkh" [x00; xff] true in
  let msg :=
    proto.SubscribeMsg.mk None None None (Some (proto.MsgConfirmed.mk [x01; x02])) None in
  (proto.Subscription.wf subscription /\ proto.SubscribeMsg.wf msg)
  /\ decode_bytes proto.Subscription.decode
       (encoded proto.Subscription.encode subscription) = Ok subscription
  /\ decode_bytes proto.SubscribeMsg.decode (encoded proto.SubscribeMsg.encode msg)
     = Ok msg.
Proof.
  intros subscription msg.
  assert (H1 : proto.Subscription.wf subscription) by (subst subscription; wf_all).
  assert (H2 : proto.SubscribeMsg.wf msg) by (subst msg; wf_all).
  split; [exact (conj H1 H2)|]. split.
  - exact (proj1 Websocket_codecs_decode_back subscription H1).
  - exact (proj1 (proj2 Websocket_codecs_decode_back) msg H2).
Defined.

(** ** chronik.ts: fields a decoder does not know *)

Lemma chunk_ok_decode_bytes {M : Type}
    (field : nat -> Z -> Reader -> M -> result (M * Reader)) (base m : M) (bs : bytes) :
  chunk_ok field bs base m ->
  decode_bytes
    (fun fuel reader length => decode_loop field fuel (decode_end reader length) reader base)
    bs
  = Ok m.
Proof.
  intros H. unfold decode_bytes, decode_end, Reader_create, Reader_len. cbn [pos rest].
  pose proof (chunk_ok_run field bs base m (S (List.length bs)) 0 [] H) as E.
  unfold run in E. rewrite app_nil_r in E. rewrite E; [reflexivity | lia].
Qed.

Lemma chunk_unknown {M : Type} (field : nat -> Z -> Reader -> M -> result (M * Reader))
    (n wt : Z) (payload : bytes) (m : M) :
  0 <= n * 8 + wt < 4294967296 ->
  (forall fuel r m,
      field fuel (n * 8 + wt) r m = r <- Reader_skipType fuel wt r ;; Ok (m, r)) ->
  payload_of wt payload ->
  chunk_ok field (key n wt ++ payload) m m.
Proof.
  intros Hk Hf Hp. apply field_chunk_ok, field_ok_key; [assumption|].
  intros fuel p tl Hlen. rewrite Hf.
  destruct fuel as [|fuel]; [lia|].
  destruct Hp as [[-> [v ->]] | [[-> H8] | [[-> (bs & Hfit & ->)] | [-> H4]]]];
    cbn [Reader_skipType pos rest].
  - unfold enc_uint64, varint64. rewrite skip_varint_varint; [reflexivity|].
    pose proof (LongBits_range v).
    change (128 ^ Z.of_nat 10) with 1180591620717411303424. lia.
  - change 8 with (Z.of_nat 8). rewrite <- H8, Reader_skip_app. reflexivity.
  - unfold enc_bytes. rewrite <- app_assoc, Reader_uint32_enc. cbn [bind].
    rewrite toUint32_id by (unfold fits in Hfit; lia).
    rewrite Reader_skip_app. cbn [bind].
    rewrite length_app, Nat.add_assoc. reflexivity.
  - change 4 with (Z.of_nat 4). rewrite <- H4, Reader_skip_app. reflexivity.
Qed.

Lemma tag_split (n wt : Z) :
  0 <= n -> 0 <= wt < 8 ->
  Z.shiftr (n * 8 + wt) 3 = n /\ Z.land (n * 8 + wt) 7 = wt.
Proof.
  intros Hn Hwt. split.
  - rewrite Z.shiftr_div_pow2 by lia. change (2 ^ 3) with 8.
    rewrite Z.div_add_l by lia. rewrite Z.div_small by lia. lia.
  - change 7 with (Z.ones 3). rewrite Z.land_ones by lia. change (2 ^ 3) with 8.
    rewrite Z.add_comm, Z.mod_add by lia. apply Z.mod_small. lia.
Qed.

Lemma Tx_field_unknown (n wt : Z) fuel r m :
  10 < n -> 0 <= wt < 8 ->
  proto.Tx.field fuel (n * 8 + wt) r m = (r <- Reader_skipType fuel wt r ;; Ok (m, r)).
Proof.
  intros Hn Hwt. unfold proto.Tx.field.
  destruct (tag_split n wt) as [-> ->]; [lia | lia |].
  destruct n as [|p|p]; [lia | | lia].
  destruct p as [[[[?|?|]|[?|?|]|]|[[?|?|]|[?|?|]|]|]|[[[?|?|]|[?|?|]|]|[[?|?|]|[?|?|]|]|]|];
    try reflexivity; lia.
Qed.

(** X5: [Tx.decode] skips a field whose number it does not know, of any of
    the wire types varint, 64-bit, length-delimited and 32-bit, before or
    after the fields of the message: the bytes of a well-formed [Tx] with
    such a field added decode to the [Tx]. *)
Theorem Tx_decode_skips_unknown_fields (m : proto.Tx.t) (n wt : Z) (payload : bytes) :
  proto.Tx.wf m -> 10 < n < 536870912 -> payload_of wt payload ->
  decode_bytes proto.Tx.decode (encoded proto.Tx.encode m ++ key n wt ++ payload) = Ok m
  /\ decode_bytes proto.Tx.decode (key n wt ++ payload ++ encoded proto.Tx.encode m) = Ok m.
Proof.
  intros Hwf Hn Hp.
  assert (Hwt : 0 <= wt < 8).
  { destruct Hp as [[-> _] | [[-> _] | [[-> _] | [-> _]]]]; lia. }
  assert (Hu : forall m0, chunk_ok proto.Tx.field (key n wt ++ payload) m0 m0).
  { intros m0. apply chunk_unknown; [lia | | exact Hp].
    intros fuel r m1. apply Tx_field_unknown; lia. }
  unfold encoded. rewrite Tx_encode_wire, finish_push. split.
  - apply (chunk_ok_decode_bytes proto.Tx.field).
    exact (chunk_ok_app _ _ _ _ _ _ (Tx_roundtrips m Hwf) (Hu m)).
  - rewrite app_assoc. apply (chunk_ok_decode_bytes proto.Tx.field).
    exact (chunk_ok_app _ _ _ _ _ _ (Hu proto.Tx.base) (Tx_roundtrips m Hwf)).
Qed.

Lemma Tx_decode_skips_unknown_fields_witness :
  let m := proto.Tx.mk [xaa; xbb] 2 [] [] 0 None "" None Long_ZERO 1 in
  proto.Tx.wf m
  /\ payload_of 2 (enc_bytes [x01; x02; x03])
  /\ decode_bytes proto.Tx.decode
       (encoded proto.Tx.encode m ++ key 15 2 ++ enc_bytes [x01; x02; x03])
     = Ok m.
Proof.
  intros m.
  assert (Hwf : proto.Tx.wf m) by (subst m; wf_all).
  assert (Hp : payload_of 2 (enc_bytes [x01; x02; x03])).
  { right. right. left. split; [reflexivity|]. exists [x01; x02; x03].
    split; [vm_compute; reflexivity | reflexivity]. }
  split; [exact Hwf|]. split; [exact Hp|].
  refine (proj1 (Tx_decode_skips_unknown_fields m 15 2 _ Hwf _ Hp)). lia.
Defined.

(** ** chronik.ts: repeated fields *)

Lemma chunk_rep_more {M N : Type}
    (field : nat -> Z -> Reader -> M -> result (M * Reader))
    (nfield : nat -> Z -> Reader -> N -> result (N * Reader))
    (nbase : N) (nwire : N -> bytes) (nwf : N -> Prop)
    (Hrt : roundtrips nfield nbase nwire nwf)
    (n : Z) (add : N -> M -> M) (mk : list N -> M) (l2 : list N) :
  0 <= n * 8 + 2 < 4294967296 ->
  (forall fuel r m,
      field fuel (n * 8 + 2) r m
      = '(length, r) <- Reader_uint32 r ;;
        '(v, r) <- decode_loop nfield fuel (decode_end r (Some length)) r nbase ;;
        Ok (add v m, r)) ->
  (forall l x, add x (mk l) = mk (l ++ [x])) ->
  list_wf nwf nwire l2 ->
  forall l1, chunk_ok field (f_rep n (map nwire l2)) (mk l1) (mk (l1 ++ l2)).
Proof.
  intros Hk Hf Hadd. induction l2 as [|x l2 IH]; intros Hwf l1.
  - rewrite app_nil_r. apply chunk_ok_nil.
  - inversion Hwf as [|? ? [Hx Hfit] Hwf']; subst.
    unfold f_rep. cbn [map List.concat]. fold (f_rep n (map nwire l2)).
    apply chunk_ok_app with (m1 := mk (l1 ++ [x])).
    + apply field_chunk_ok, field_ok_key; [assumption|].
      rewrite <- Hadd.
      apply (nested_payload field nfield nbase nwire nwf Hrt add); assumption.
    + replace (l1 ++ x :: l2) with ((l1 ++ [x]) ++ l2) by (now rewrite <- app_assoc).
      apply IH. exact Hwf'.
Qed.

(** X6: The decoders add to a repeated field what they read: the encodings of
    two well-formed [Blocks] (or [Utxos], [ValidateUtxoRequest],
    [ValidateUtxoResponse]) one after the other decode to the message that
    holds the entries of the first followed by those of the second. *)
Theorem repeated_fields_accumulate :
  (forall a b,
      proto.Blocks.wf a -> proto.Blocks.wf b ->
      decode_bytes proto.Blocks.decode
        (encoded proto.Blocks.encode a ++ encoded proto.Blocks.encode b)
      = Ok (proto.Blocks.mk (proto.Blocks.blocks a ++ proto.Blocks.blocks b)))
  /\ (forall a b,
         proto.Utxos.wf a -> proto.Utxos.wf b ->
         decode_bytes proto.Utxos.decode
           (encoded proto.Utxos.encode a ++ encoded proto.Utxos.encode b)
         = Ok (proto.Utxos.mk (proto.Utxos.scriptUtxos a ++ proto.Utxos.scriptUtxos b)))
  /\ (forall a b,
         proto.ValidateUtxoRequest.wf a -> proto.ValidateUtxoRequest.wf b ->
         decode_bytes proto.ValidateUtxoRequest.decode
           (encoded proto.ValidateUtxoRequest.encode a
            ++ encoded proto.ValidateUtxoRequest.encode b)
         = Ok (proto.ValidateUtxoRequest.mk
                 (proto.ValidateUtxoRequest.outpoints a
                  ++ proto.ValidateUtxoRequest.outpoints b)))
  /\ (forall a b,
         proto.ValidateUtxoResponse.wf a -> proto.ValidateUtxoResponse.wf b ->
         decode_bytes proto.ValidateUtxoResponse.decode
           (encoded proto.ValidateUtxoResponse.encode a
            ++ encoded proto.ValidateUtxoResponse.encode b)
         = Ok (proto.ValidateUtxoResponse.mk
                 (proto.ValidateUtxoResponse.utxoStates a
                  ++ proto.ValidateUtxoResponse.utxoStates b))).
Proof.
  unfold encoded. split; [|split; [|split]]; intros [la] [lb] Ha Hb.
  - rewrite !Blocks_encode_wire, !finish_push.
    apply (chunk_ok_decode_bytes proto.Blocks.field).
    apply chunk_ok_app with (m1 := proto.Blocks.mk la);
      [exact (Blocks_roundtrips _ Ha)|].
    apply (chunk_rep_more _ _ _ _ _ BlockInfo_roundtrips 1
             (fun v m => proto.Blocks.with_blocks (proto.Blocks.blocks m ++ [v]) m)
             proto.Blocks.mk lb); [lia | reflexivity | reflexivity | exact Hb].
  - rewrite !Utxos_encode_wire, !finish_push.
    apply (chunk_ok_decode_bytes proto.Utxos.field).
    apply chunk_ok_app with (m1 := proto.Utxos.mk la);
      [exact (Utxos_roundtrips _ Ha)|].
    apply (chunk_rep_more _ _ _ _ _ ScriptUtxos_roundtrips 1
             (fun v m => proto.Utxos.with_scriptUtxos (proto.Utxos.scriptUtxos m ++ [v]) m)
             proto.Utxos.mk lb); [lia | reflexivity | reflexivity | exact Hb].
  - rewrite !ValidateUtxoRequest_encode_wire, !finish_push.
    apply (chunk_ok_decode_bytes proto.ValidateUtxoRequest.field).
    apply chunk_ok_app with (m1 := proto.ValidateUtxoRequest.mk la);
      [exact (ValidateUtxoRequest_roundtrips _ Ha)|].
    apply (chunk_rep_more _ _ _ _ _ OutPoint_roundtrips 1
             (fun v m =>
                proto.ValidateUtxoRequest.with_outpoints
                  (proto.ValidateUtxoRequest.outpoints m ++ [v]) m)
             proto.ValidateUtxoRequest.mk lb); [lia | reflexivity | reflexivity | exact Hb].
  - rewrite !ValidateUtxoResponse_encode_wire, !finish_push.
    apply (chunk_ok_decode_bytes proto.ValidateUtxoResponse.field).
    apply chunk_ok_app with (m1 := proto.ValidateUtxoResponse.mk la);
      [exact (ValidateUtxoResponse_roundtrips _ Ha)|].
    apply (chunk_rep_more _ _ _ _ _ UtxoState_roundtrips 1
             (fun v m =>
                proto.ValidateUtxoResponse.with_utxoStates
                  (proto.ValidateUtxoResponse.utxoStates m ++ [v]) m)
             proto.ValidateUtxoResponse.mk lb); [lia | reflexivity | reflexivity | exact Hb].
Qed.

Lemma repeated_fields_accumulate_witness :
  let a := proto.ValidateUtxoResponse.mk [proto.UtxoState.mk 5 true 1] in
  let b :=
    proto.ValidateUtxoResponse.mk [proto.UtxoState.mk (-1) false 3; proto.UtxoState.base] in
  (proto.ValidateUtxoResponse.wf a /\ proto.ValidateUtxoResponse.wf b)
  /\ decode_bytes proto.ValidateUtxoResponse.decode
       (encoded proto.ValidateUtxoResponse.encode a
        ++ encoded proto.ValidateUtxoResponse.encode b)
     = Ok (proto.ValidateUtxoResponse.mk
             [proto.UtxoState.mk 5 true 1; proto.UtxoState.mk (-1) false 3;
              proto.UtxoState.base]).
Proof.
  intros a b.
  assert (Ha : proto.ValidateUtxoResponse.wf a) by (subst a; wf_all).
  assert (Hb : proto.ValidateUtxoResponse.wf b) by (subst b; wf_all).
  split; [exact (conj Ha Hb)|].
  exact (proj2 (proj2 (proj2 repeated_fields_accumulate)) a b Ha Hb).
Defined.

(** ** chronik.ts: the enums as JSON *)

Lemma slpTokenTypeJSON (v : Z) :
  proto.slpTokenTypeFromJSON (proto.JsString (proto.slpTokenTypeToJSON v))
  = proto.slpTokenTypeFromJSON (proto.JsNumber v).
Proof.
  unfold proto.slpTokenTypeFromJSON, proto.slpTokenTypeToJSON, proto.strict_eq.
  cbv [proto.SlpTokenType.FUNGIBLE proto.SlpTokenType.NFT1_GROUP
       proto.SlpTokenType.NFT1_CHILD proto.SlpTokenType.UNKNOWN_TOKEN_TYPE
       proto.SlpTokenType.UNRECOGNIZED].
  destruct (v =? 0); [reflexivity|]. destruct (v =? 1); [reflexivity|].
  destruct (v =? 2); [reflexivity|]. destruct (v =? 3); [reflexivity|].
  now destruct (v =? -1).
Qed.

Lemma slpTxTypeJSON (v : Z) :
  proto.slpTxTypeFromJSON (proto.JsString (proto.slpTxTypeToJSON v))
  = proto.slpTxTypeFromJSON (proto.JsNumber v).
Proof.
  unfold proto.slpTxTypeFromJSON, proto.slpTxTypeToJSON, proto.strict_eq.
  cbv [proto.SlpTxType.GENESIS proto.SlpTxType.SEND proto.SlpTxType.MINT
       proto.SlpTxType.UNKNOWN_TX_TYPE proto.SlpTxType.UNRECOGNIZED].
  destruct (v =? 0); [reflexivity|]. destruct (v =? 1); [reflexivity|].
  destruct (v =? 2); [reflexivity|]. destruct (v =? 3); [reflexivity|].
  now destruct (v =? -1).
Qed.

Lemma networkJSON (v : Z) :
  proto.networkFromJSON (proto.JsString (proto.networkToJSON v))
  = proto.networkFromJSON (proto.JsNumber v).
Proof.
  unfold proto.networkFromJSON, proto.networkToJSON, proto.strict_eq.
  cbv [proto.Network.BCH proto.Network.XEC proto.Network.XPI proto.Network.XRG
       proto.Network.UNRECOGNIZED].
  destruct (v =? 0); [reflexivity|]. destruct (v =? 1); [reflexivity|].
  destruct (v =? 2); [reflexivity|]. destruct (v =? 3); [reflexivity|].
  now destruct (v =? -1).
Qed.

Lemma utxoStateVariantJSON (v : Z) :
  proto.utxoStateVariantFromJSON (proto.JsString (proto.utxoStateVariantToJSON v))
  = proto.utxoStateVariantFromJSON (proto.JsNumber v).
Proof.
  unfold proto.utxoStateVariantFromJSON, proto.utxoStateVariantToJSON, proto.strict_eq.
  cbv [proto.UtxoStateVariant.UNSPENT proto.UtxoStateVariant.SPENT
       proto.UtxoStateVariant.NO_SUCH_TX proto.UtxoStateVariant.NO_SUCH_OUTPUT
       proto.UtxoStateVariant.UNRECOGNIZED].
  destruct (v =? 0); [reflexivity|]. destruct (v =? 1); [reflexivity|].
  destruct (v =? 2); [reflexivity|]. destruct (v =? 3); [reflexivity|].
  now destruct (v =? -1).
Qed.

Lemma fromJSON_number (v : Z) :
  let r := if (0 <=? v) && (v <=? 3) then v else -1 in
  proto.slpTokenTypeFromJSON (proto.JsNumber v) = r
  /\ proto.slpTxTypeFromJSON (proto.JsNumber v) = r
  /\ proto.networkFromJSON (proto.JsNumber v) = r
  /\ proto.utxoStateVariantFromJSON (proto.JsNumber v) = r.
Proof.
  cbv [proto.slpTokenTypeFromJSON proto.slpTxTypeFromJSON proto.networkFromJSON
       proto.utxoStateVariantFromJSON proto.strict_eq orb
       proto.SlpTokenType.FUNGIBLE proto.SlpTokenType.NFT1_GROUP
       proto.SlpTokenType.NFT1_CHILD proto.SlpTokenType.UNKNOWN_TOKEN_TYPE
       proto.SlpTokenType.UNRECOGNIZED
       proto.SlpTxType.GENESIS proto.SlpTxType.SEND proto.SlpTxType.MINT
       proto.SlpTxType.UNKNOWN_TX_TYPE proto.SlpTxType.UNRECOGNIZED
       proto.Network.BCH proto.Network.XEC proto.Network.XPI proto.Network.XRG
       proto.Network.UNRECOGNIZED
       proto.UtxoStateVariant.UNSPENT proto.UtxoStateVariant.SPENT
       proto.UtxoStateVariant.NO_SUCH_TX proto.UtxoStateVariant.NO_SUCH_OUTPUT
       proto.UtxoStateVariant.UNRECOGNIZED].
  destruct (Z.eqb_spec v 0) as [->|?]; [now repeat split|].
  destruct (Z.eqb_spec v 1) as [->|?]; [now repeat split|].
  destruct (Z.eqb_spec v 2) as [->|?]; [now repeat split|].
  destruct (Z.eqb_spec v 3) as [->|?]; [now repeat split|].
  assert (E : (0 <=? v) && (v <=? 3) = false).
  { destruct (Z.leb_spec 0 v); destruct (Z.leb_spec v 3); cbn; try reflexivity. lia. }
  rewrite E. now destruct (v =? -1).
Qed.

(** X7: The JSON functions of the four enums: for every number [v],
    [xFromJSON(xToJSON(v))] and [xFromJSON(v)] are both [v] when [v] is one
    of the values 0 to 3 of the enum, and UNRECOGNIZED (-1) for every other
    number; so a value of the enum survives the trip through its JSON
    name, also UNRECOGNIZED, whose name is written "UNKNOWN". *)
Theorem enum_JSON_roundtrip (v : Z) :
  let r := if (0 <=? v) && (v <=? 3) then v else -1 in
  (proto.slpTokenTypeFromJSON (proto.JsString (proto.slpTokenTypeToJSON v)) = r
   /\ proto.slpTokenTypeFromJSON (proto.JsNumber v) = r)
  /\ (proto.slpTxTypeFromJSON (proto.JsString (proto.slpTxTypeToJSON v)) = r
      /\ proto.slpTxTypeFromJSON (proto.JsNumber v) = r)
  /\ (proto.networkFromJSON (proto.JsString (proto.networkToJSON v)) = r
      /\ proto.networkFromJSON (proto.JsNumber v) = r)
  /\ (proto.utxoStateVariantFromJSON (proto.JsString (proto.utxoStateVariantToJSON v)) = r
      /\ proto.utxoStateVariantFromJSON (proto.JsNumber v) = r).
Proof.
  intros r. rewrite slpTokenTypeJSON, slpTxTypeJSON, networkJSON, utxoStateVariantJSON.
  destruct (fromJSON_number v) as (H1 & H2 & H3 & H4). fold r in H1, H2, H3, H4.
  repeat split; assumption.
Qed.

(** ** index.ts: the queries *)

Lemma get_200 (axios : Axios) (url path : string) (body : bytes) :
  axios_get axios (url ++ path) = Ok (mkResponse 200 body) ->
  _get axios url path = Ok body.
Proof. intros H. unfold _get. rewrite H. reflexivity. Qed.

Lemma get_not_200 (axios : Axios) (url path : string) :
  (forall r, axios_get axios (url ++ path) = Ok r -> status r <> 200) ->
  exists e, _get axios url path = Throw e.
Proof.
  intros H. unfold _get. destruct (axios_get axios (url ++ path)) as [r|e]; cbn [bind].
  - destruct (proj1 (ensureResponseErrorThrown_spec r path) (H r eq_refl)) as (e & -> & _).
    cbn [bind]. eauto.
  - eauto.
Qed.

Lemma post_not_200 (axios : Axios) (url path : string) (body : bytes) :
  (forall r, axios_post axios (url ++ path) body = Ok r -> status r <> 200) ->
  exists e, _post axios url path body = Throw e.
Proof.
  intros H. unfold _post.
  destruct (axios_post axios (url ++ path) body) as [r|e]; cbn [bind].
  - destruct (proj1 (ensureResponseErrorThrown_spec r path) (H r eq_refl)) as (e & -> & _).
    cbn [bind]. eauto.
  - eauto.
Qed.

Lemma decode_encoded {M : Type}
    (field : nat -> Z -> Reader -> M -> result (M * Reader)) (base : M)
    (wire : M -> bytes) (wf : M -> Prop) (encode : M -> Writer -> Writer) (m : M) :
  (forall m w, encode m w = push (wire m) w) ->
  roundtrips field base wire wf -> wf m ->
  decode_bytes
    (fun fuel reader length => decode_loop field fuel (decode_end reader length) reader base)
    (encoded encode m)
  = Ok m.
Proof. intros Henc Hrt Hwf. exact (roundtrips_decodes_back _ _ _ _ _ Henc Hrt m Hwf). Qed.

(** X8: The queries of [ChronikClient]: when the server answers the request
    of [tx], [block] or [blocks] with status 200 and the encoding of a
    well-formed message, the query returns the conversion of that message
    (and throws where the conversion throws); the requests go to
    [url/tx/txid], [url/block/hashOrHeight] and [url/blocks/start/end]. *)
Theorem ChronikClient_queries_reply (axios : Axios) (client : ChronikClient) :
  (forall txid m,
      proto.Tx.wf m ->
      axios_get axios (_url client ++ "/tx/" ++ txid)
      = Ok (mkResponse 200 (encoded proto.Tx.encode m)) ->
      ChronikClient_tx axios client txid = convertToTx m)
  /\ (forall hashOrHeight m,
         proto.Block.wf m ->
         axios_get axios (_url client ++ "/block/" ++ showHashOrHeight hashOrHeight)
         = Ok (mkResponse 200 (encoded proto.Block.encode m)) ->
         ChronikClient_block axios client hashOrHeight = convertToBlock m)
  /\ (forall startHeight endHeight m,
         proto.Blocks.wf m ->
         axios_get axios
           (_url client ++ "/blocks/" ++ show startHeight ++ "/" ++ show endHeight)
         = Ok (mkResponse 200 (encoded proto.Blocks.encode m)) ->
         ChronikClient_blocks axios client startHeight endHeight
         = Ok (map convertToBlockInfo (proto.Blocks.blocks m))).
Proof.
  split; [|split].
  - intros txid m Hwf Hget. unfold ChronikClient_tx.
    rewrite (get_200 _ _ _ _ Hget). cbn [bind].
    unfold proto.Tx.decode.
    rewrite (decode_encoded _ _ _ _ _ m Tx_encode_wire Tx_roundtrips Hwf). reflexivity.
  - intros h m Hwf Hget. unfold ChronikClient_block.
    rewrite (get_200 _ _ _ _ Hget). cbn [bind].
    unfold proto.Block.decode.
    rewrite (decode_encoded _ _ _ _ _ m Block_encode_wire Block_roundtrips Hwf).
    reflexivity.
  - intros s e m Hwf Hget. unfold ChronikClient_blocks.
    rewrite (get_200 _ _ _ _ Hget). cbn [bind].
    unfold proto.Blocks.decode.
    rewrite (decode_encoded _ _ _ _ _ m Blocks_encode_wire Blocks_roundtrips Hwf).
    reflexivity.
Qed.

Lemma ChronikClient_queries_reply_witness :
  let info :=
    proto.BlockInfo.mk [x0a; x0b] [x0c; x0d] 7 1 Long_ZERO Long_UZERO Long_UZERO
      Long_UZERO Long_UZERO Long_ZERO Long_ZERO Long_ZERO Long_ZERO in
  let m := proto.Blocks.mk [info] in
  let axios :=
    mkAxios
      (fun url =>
         if (url =? "http://localhost/blocks/7/8")%string
         then Ok (mkResponse 200 (encoded proto.Blocks.encode m))
         else Throw (JsError "Network Error"))
      (fun _ _ => Throw (JsError "Network Error")) in
  proto.Blocks.wf m
  /\ ChronikClient_blocks axios (mkClient "http://localhost" "ws://localhost") 7 8
     = Ok [BlockInfo.mk (hex.toHexRev [x0a; x0b]) (hex.toHexRev [x0c; x0d]) 7 1 Long_ZERO
             Long_UZERO Long_UZERO Long_UZERO Long_UZERO Long_ZERO Long_ZERO Long_ZERO
             Long_ZERO].
Proof.
  intros info m axios.
  assert (Hwf : proto.Blocks.wf m) by (subst m info; wf_all).
  split; [exact Hwf|].
  exact (proj2 (proj2 (ChronikClient_queries_reply axios
                         (mkClient "http://localhost" "ws://localhost")))
           7 8 m Hwf eq_refl).
Defined.

(** X9: The queries of [ScriptEndpoint]: when the server answers the request
    of [history] or [utxos] with status 200 and the encoding of a
    well-formed message, [history] returns the converted transactions of
    the page with its [numPages], and [utxos] the utxos converted script by
    script, in the order of the message.  [history] asks for
    [url/script/type/payload/history] followed by [?page=p&page_size=s],
    [?page=p], [?page_size=s] or nothing, as [page] and [pageSize] are
    given. *)
Theorem ScriptEndpoint_queries_reply (axios : Axios) (client : ChronikClient)
    (scriptType scriptPayload : string) :
  let endpoint := ChronikClient_script client scriptType scriptPayload in
  (forall page pageSize m,
      proto.TxHistoryPage.wf m ->
      axios_get axios
        (_url client ++ "/script/" ++ scriptType ++ "/" ++ scriptPayload ++ "/history"
         ++ match page, pageSize with
            | Some p, Some s => "?page=" ++ show p ++ "&page_size=" ++ show s
            | Some p, None => "?page=" ++ show p
            | None, Some s => "?page_size=" ++ show s
            | None, None => ""
            end)
      = Ok (mkResponse 200 (encoded proto.TxHistoryPage.encode m)) ->
      ScriptEndpoint_history axios endpoint page pageSize
      = (txs <- mapM convertToTx (proto.TxHistoryPage.txs m) ;;
         Ok (TxHistoryPage.mk txs (proto.TxHistoryPage.numPages m))))
  /\ (forall m,
         proto.Utxos.wf m ->
         axios_get axios
           (_url client ++ "/script/" ++ scriptType ++ "/" ++ scriptPayload ++ "/utxos")
         = Ok (mkResponse 200 (encoded proto.Utxos.encode m)) ->
         ScriptEndpoint_utxos axios (ScriptEndpoint_url endpoint) (_scriptType endpoint)
           (_scriptPayload endpoint)
         = mapM (fun scriptUtxos =>
                   utxos <- mapM convertToUtxo (proto.ScriptUtxos.utxos scriptUtxos) ;;
                   Ok (ScriptUtxos.mk
                         (hex.toHex (proto.ScriptUtxos.outputScript scriptUtxos)) utxos))
              (proto.Utxos.scriptUtxos m)).
Proof.
  intros endpoint. split.
  - intros page pageSize m Hwf Hget. unfold ScriptEndpoint_history.
    cbn [endpoint ChronikClient_script ScriptEndpoint_url _scriptType _scriptPayload].
    rewrite (get_200 axios (_url client)
               ("/script/" ++ scriptType ++ "/" ++ scriptPayload ++ "/history"
                ++ history_query page pageSize)
               (encoded proto.TxHistoryPage.encode m)).
    + cbn [bind]. unfold proto.TxHistoryPage.decode.
      rewrite (decode_encoded _ _ _ _ _ m TxHistoryPage_encode_wire
                 TxHistoryPage_roundtrips Hwf).
      reflexivity.
    + rewrite <- Hget. unfold history_query. now destruct page, pageSize.
  - intros m Hwf Hget. unfold ScriptEndpoint_utxos.
    cbn [endpoint ChronikClient_script ScriptEndpoint_url _scriptType _scriptPayload].
    rewrite (get_200 _ _ _ _ Hget). cbn [bind].
    unfold proto.Utxos.decode.
    rewrite (decode_encoded _ _ _ _ _ m Utxos_encode_wire Utxos_roundtrips Hwf).
    reflexivity.
Qed.

Lemma ScriptEndpoint_queries_reply_witness :
  let m := proto.TxHistoryPage.mk [proto.Tx.mk [xaa; xbb] 2 [] [] 0 None "" None Long_ZERO 1] 3 in
  let axios :=
    mkAxios
      (fun url =>
         if (url =? "http://localhost/script/p2pkh/00ff/history?page=2")%string
         then Ok (mkResponse 200 (encoded proto.TxHistoryPage.encode m))
         else Throw (JsError "Network Error"))
      (fun _ _ => Throw (JsError "Network Error")) in
  let client := mkClient "http://localhost" "ws://localhost" in
  proto.TxHistoryPage.wf m
  /\ ScriptEndpoint_history axios (ChronikClient_script client "p2pkh" "00ff") (Some 2) None
     = Ok (TxHistoryPage.mk
             [Tx.mk (hex.toHexRev [xaa; xbb]) 2 [] [] 0 None None None Long_ZERO XEC] 3).
Proof.
  intros m axios client.
  assert (Hwf : proto.TxHistoryPage.wf m) by (subst m; wf_all).
  split; [exact Hwf|].
  exact (proj1 (ScriptEndpoint_queries_reply axios client "p2pkh" "00ff")
           (Some 2) None m Hwf eq_refl).
Defined.

(** ** index.ts: what the queries do on errors *)

(** X10: No query returns a value unless the server answers 200: when every
    response has another status (or the request fails), [tx], [block],
    [blocks], [validateUtxos], [history] and [utxos] all throw. *)
Theorem queries_throw_unless_200 (axios : Axios) (client : ChronikClient) :
  never_200 axios ->
  (forall txid, exists e, ChronikClient_tx axios client txid = Throw e)
  /\ (forall hashOrHeight, exists e, ChronikClient_block axios client hashOrHeight = Throw e)
  /\ (forall startHeight endHeight,
         exists e, ChronikClient_blocks axios client startHeight endHeight = Throw e)
  /\ (forall outpoints, exists e, ChronikClient_validateUtxos axios client outpoints = Throw e)
  /\ (forall scriptType scriptPayload page pageSize,
         exists e,
           ScriptEndpoint_history axios (ChronikClient_script client scriptType scriptPayload)
             page pageSize = Throw e)
  /\ (forall scriptType scriptPayload,
         exists e,
           ScriptEndpoint_utxos axios (_url client) scriptType scriptPayload = Throw e).
Proof.
  intros [Hget Hpost].
  assert (G : forall path, exists e, _get axios (_url client) path = Throw e).
  { intros path. apply get_not_200. intros r. apply Hget. }
  split; [|split; [|split; [|split; [|split]]]].
  - intros txid. unfold ChronikClient_tx.
    destruct (G ("/tx/" ++ txid)%string) as [e ->]. cbn [bind]. eauto.
  - intros h. unfold ChronikClient_block.
    destruct (G ("/block/" ++ showHashOrHeight h)%string) as [e ->]. cbn [bind]. eauto.
  - intros s e'. unfold ChronikClient_blocks.
    destruct (G ("/blocks/" ++ show s ++ "/" ++ show e')%string) as [e ->].
    cbn [bind]. eauto.
  - intros outpoints. unfold ChronikClient_validateUtxos.
    destruct (validateUtxos_request outpoints) as [request|e]; cbn [bind]; [|eauto].
    destruct (post_not_200 axios (_url client) "/validate-utxos" request) as [e ->].
    + intros r. apply Hpost.
    + cbn [bind]. eauto.
  - intros t p page pageSize. unfold ScriptEndpoint_history.
    cbn [ChronikClient_script ScriptEndpoint_url _scriptType _scriptPayload].
    destruct (G ("/script/" ++ t ++ "/" ++ p ++ "/history"
                 ++ history_query page pageSize)%string) as [e ->].
    cbn [bind]. eauto.
  - intros t p. unfold ScriptEndpoint_utxos.
    destruct (G ("/script/" ++ t ++ "/" ++ p ++ "/utxos")%string) as [e ->].
    cbn [bind]. eauto.
Qed.

Lemma queries_throw_unless_200_witness :
  let axios :=
    mkAxios (fun _ => Ok (mkResponse 500 [])) (fun _ _ => Ok (mkResponse 404 [x0a; x00])) in
  never_200 axios
  /\ exists e,
       ChronikClient_tx axios (mkClient "http://localhost" "ws://localhost") "00" = Throw e.
Proof.
  intros axios.
  assert (H : never_200 axios).
  { split.
    - intros url r [= <-]. cbn. lia.
    - intros url body r [= <-]. cbn. lia. }
  split; [exact H|].
  exact (proj1 (queries_throw_unless_200 axios
                  (mkClient "http://localhost" "ws://localhost") H) "00"%string).
Defined.

(** X11: An empty body with status 200 is the message with every field at its
    default: [tx] returns a transaction with an empty txid, no inputs and
    no outputs, on the network BCH; [blocks] and [utxos] return the empty
    list and [history] an empty page; [block] throws, as the message has
    no [blockInfo]. *)
Theorem queries_on_empty_body (axios : Axios) (client : ChronikClient) :
  (forall url, axios_get axios url = Ok (mkResponse 200 [])) ->
  (forall txid,
      ChronikClient_tx axios client txid
      = Ok (Tx.mk (hex.toHexRev []) 0 [] [] 0 None None None Long_ZERO BCH))
  /\ (forall hashOrHeight,
         ChronikClient_block axios client hashOrHeight
         = Throw (JsError "Block has no blockInfo"))
  /\ (forall startHeight endHeight,
         ChronikClient_blocks axios client startHeight endHeight = Ok [])
  /\ (forall scriptType scriptPayload page pageSize,
         ScriptEndpoint_history axios (ChronikClient_script client scriptType scriptPayload)
           page pageSize = Ok (TxHistoryPage.mk [] 0))
  /\ (forall scriptType scriptPayload,
         ScriptEndpoint_utxos axios (_url client) scriptType scriptPayload = Ok []).
Proof.
  intros H.
  assert (G : forall path, _get axios (_url client) path = Ok []).
  { intros path. apply get_200, H. }
  split; [|split; [|split; [|split]]].
  - intros txid. unfold ChronikClient_tx. rewrite G. reflexivity.
  - intros h. unfold ChronikClient_block. rewrite G. reflexivity.
  - intros s e. unfold ChronikClient_blocks. rewrite G. reflexivity.
  - intros t p page pageSize. unfold ScriptEndpoint_history. rewrite G. reflexivity.
  - intros t p. unfold ScriptEndpoint_utxos. rewrite G. reflexivity.
Qed.

Lemma queries_on_empty_body_witness :
  let axios :=
    mkAxios (fun _ => Ok (mkResponse 200 [])) (fun _ _ => Throw (JsError "Network Error")) in
  ChronikClient_block axios (mkClient "http://localhost" "ws://localhost") (inr 5)
  = Throw (JsError "Block has no blockInfo").
Proof.
  intros axios.
  exact (proj1 (proj2 (queries_on_empty_body axios
                         (mkClient "http://localhost" "ws://localhost")
                         (fun _ => eq_refl))) (inr 5)).
Defined.

(** ** index.ts: when the conversions throw *)

Lemma mapM_Ok_iff {A B : Type} (f : A -> result B) (l : list A) :
  (exists l', mapM f l = Ok l') <-> Forall (fun a => exists b, f a = Ok b) l.
Proof.
  split; [|apply mapM_Ok].
  induction l as [|a l IH]; intros [l' H]; [constructor|].
  cbn [mapM] in H. destruct (f a) as [b|] eqn:Ea; cbn [bind] in H; [|discriminate].
  destruct (mapM f l) as [bs|]; cbn [bind] in H; [|discriminate].
  constructor; eauto.
Qed.

Lemma known_switch {R : Type} (v : Z) (a b c d : R) (e : error) :
  (exists r,
      (if v =? 0 then Ok a else if v =? 1 then Ok b else if v =? 2 then Ok c
       else if v =? 3 then Ok d else Throw e) = Ok r)
  <-> known v.
Proof.
  unfold known.
  destruct (Z.eqb_spec v 0); [split; eauto|].
  destruct (Z.eqb_spec v 1); [split; eauto|].
  destruct (Z.eqb_spec v 2); [split; eauto|].
  destruct (Z.eqb_spec v 3); [split; eauto 6|].
  split; [intros [r H]; discriminate | intros [|[|[|]]]; contradiction].
Qed.

Lemma convertToNetwork_iff (network : Z) :
  (exists r, convertToNetwork network = Ok r) <-> known network.
Proof. apply known_switch. Qed.

Lemma convertToSlpMeta_iff (slpMeta : proto.SlpMeta.t) :
  (exists r, convertToSlpMeta slpMeta = Ok r) <-> meta_convertible slpMeta.
Proof.
  unfold meta_convertible, convertToSlpMeta.
  rewrite <- (known_switch (proto.SlpMeta.tokenType slpMeta) FUNGIBLE NFT1_GROUP NFT1_CHILD
                UNKNOWN_TOKEN_TYPE
                (JsError ("Invalid token type: " ++ show (proto.SlpMeta.tokenType slpMeta)))).
  rewrite <- (known_switch (proto.SlpMeta.txType slpMeta) GENESIS SEND MINT UNKNOWN_TX_TYPE
                (JsError ("Invalid token type: " ++ show (proto.SlpMeta.txType slpMeta)))).
  cbv [proto.SlpTokenType.FUNGIBLE proto.SlpTokenType.NFT1_GROUP
       proto.SlpTokenType.NFT1_CHILD proto.SlpTokenType.UNKNOWN_TOKEN_TYPE
       proto.SlpTxType.GENESIS proto.SlpTxType.SEND proto.SlpTxType.MINT
       proto.SlpTxType.UNKNOWN_TX_TYPE].
  match goal with
  | |- context [bind ?x _] => destruct x as [tokenType|]; cbn [bind]
  end.
  - match goal with
    | |- context [bind ?x _] => destruct x as [txType|]; cbn [bind]
    end.
    + split; eauto.
    + split; [intros [r H]; discriminate | intros [_ [r H]]; discriminate].
  - split; [intros [r H]; discriminate | intros [[r H] _]; discriminate].
Qed.

Lemma convertToTxInput_iff (input : proto.TxInput.t) :
  (exists r, convertToTxInput input = Ok r) <-> input_convertible input.
Proof.
  unfold input_convertible, convertToTxInput.
  destruct (proto.TxInput.prevOut input) as [prevOut|].
  - destruct (proto.TxInput.slpBurn input) as [slpBurn|]; cbn [bind].
    + unfold convertToSlpBurn. destruct (proto.SlpBurn.token slpBurn) as [token|] eqn:Et;
        cbn [bind].
      * split; [|eauto].
        intros _. split; [discriminate | intros ? [= <-]; rewrite Et; discriminate].
      * split; [intros [r H]; discriminate |].
        intros [_ H]. now contradiction (H slpBurn eq_refl).
    + split; [intros _; split; [discriminate | intros ? [=]] | eauto].
  - split; [intros [r H]; discriminate | intros [H _]; contradiction].
Qed.

Lemma inputs_convertible (inputs : list proto.TxInput.t) :
  (exists l, mapM convertToTxInput inputs = Ok l) <-> Forall input_convertible inputs.
Proof.
  rewrite mapM_Ok_iff. split; apply Forall_impl; intros a; apply convertToTxInput_iff.
Qed.

Lemma convertToTx_iff (tx : proto.Tx.t) :
  (exists r, convertToTx tx = Ok r) <-> tx_convertible tx.
Proof.
  unfold tx_convertible, convertToTx.
  rewrite <- (inputs_convertible (proto.Tx.inputs tx)).
  rewrite <- convertToNetwork_iff.
  destruct (mapM convertToTxInput (proto.Tx.inputs tx)) as [inputs|] eqn:Ei;
    cbn [bind].
  2: { split; [intros [r H]; discriminate | intros [[l H] _]; discriminate]. }
  destruct (proto.Tx.slpTxData tx) as [slpTxData|]; cbn [bind].
  - unfold convertToSlpTxData.
    destruct (proto.SlpTxData.slpMeta slpTxData) as [slpMeta|] eqn:Es; cbn [bind].
    + pose proof (convertToSlpMeta_iff slpMeta) as Hm.
      destruct (convertToSlpMeta slpMeta) as [meta|]; cbn [bind].
      * destruct (convertToNetwork (proto.Tx.network tx)) as [network|]; cbn [bind].
        -- split; [|eauto]. intros _. split; [eauto|]. split; [|eauto].
           intros ? [= <-]. exists slpMeta. split; [exact Es|]. apply Hm. eauto.
        -- split; [intros [r H]; discriminate | intros (_ & _ & [r H]); discriminate].
      * split; [intros [r H]; discriminate|].
        intros (_ & H & _). destruct (H slpTxData eq_refl) as (m' & Hs & Hc).
        rewrite Es in Hs. injection Hs as <-.
        apply Hm in Hc. destruct Hc as [r Hr]. discriminate.
    + split; [intros [r H]; discriminate|].
      intros (_ & H & _). destruct (H slpTxData eq_refl) as (m' & Hs & _).
      rewrite Es in Hs. discriminate.
  - destruct (convertToNetwork (proto.Tx.network tx)) as [network|]; cbn [bind].
    + split; [|eauto]. intros _. split; [eauto|]. split; [intros ? [=] | eauto].
    + split; [intros [r H]; discriminate | intros (_ & _ & [r H]); discriminate].
Qed.

(** X12: [convertToTx] returns exactly for the messages in which every input
    has a [prevOut] and, where it has a burn, the burn's token; the token
    data, if present, has its [slpMeta] with a known token type and
    transaction type; and the network is one of BCH, XEC, XPI and XRG.
    For every other message it throws. *)
Theorem convertToTx_returns_iff (tx : proto.Tx.t) :
  ((exists r, convertToTx tx = Ok r) <-> tx_convertible tx)
  /\ ((exists e, convertToTx tx = Throw e) <-> ~ tx_convertible tx).
Proof.
  pose proof (convertToTx_iff tx) as G.
  split; [exact G|].
  rewrite <- G. destruct (convertToTx tx) as [r|e].
  - split; [intros [e H]; discriminate | intros H; contradiction H; eauto].
  - split; [intros _ [r H]; discriminate | eauto].
Qed.

(** X13: [convertToUtxo] returns exactly for the messages that have an
    [outpoint], whose [slpMeta], if present, has a known token type and
    transaction type, and whose network is one of BCH, XEC, XPI and XRG;
    a message without [outpoint] is refused with "UTXO outpoint is
    undefined" whatever else it holds. *)
Theorem convertToUtxo_returns_iff (utxo : proto.Utxo.t) :
  ((exists r, convertToUtxo utxo = Ok r) <-> utxo_convertible utxo)
  /\ (proto.Utxo.outpoint utxo = None <->
      convertToUtxo utxo = Throw (JsError "UTXO outpoint is undefined")).
Proof.
  unfold utxo_convertible, convertToUtxo.
  rewrite <- convertToNetwork_iff.
  destruct (proto.Utxo.outpoint utxo) as [outpoint|].
  2: { split; [|now split].
       split; [intros [r H]; discriminate | intros [H _]; contradiction]. }
  split.
  - destruct (proto.Utxo.slpMeta utxo) as [slpMeta|]; cbn [bind].
    + pose proof (convertToSlpMeta_iff slpMeta) as Hm.
      destruct (convertToSlpMeta slpMeta) as [meta|]; cbn [bind].
      * destruct (convertToNetwork (proto.Utxo.network utxo)) as [network|]; cbn [bind].
        -- split; [|eauto]. intros _. split; [discriminate|]. split; [|eauto].
           intros ? [= <-]. apply Hm. eauto.
        -- split; [intros [r H]; discriminate | intros (_ & _ & [r H]); discriminate].
      * split; [intros [r H]; discriminate|].
        intros (_ & H & _). destruct (proj2 Hm (H slpMeta eq_refl)) as [r Hr].
        discriminate.
    + destruct (convertToNetwork (proto.Utxo.network utxo)) as [network|]; cbn [bind].
      * split; [|eauto]. intros _. split; [discriminate|]. split; [intros ? [=] | eauto].
      * split; [intros [r H]; discriminate | intros (_ & _ & [r H]); discriminate].
  - split; [discriminate|]. intros H. exfalso.
    unfold convertToSlpMeta, convertToNetwork in H.
    destruct (proto.Utxo.slpMeta utxo) as [slpMeta|]; cbn [bind] in H;
      repeat match type of H with
             | context [if ?c then _ else _] => destruct c; cbn [bind] in H
             end;
      cbn [append] in H; discriminate H.
Qed.

(** X14: [convertToBlock] returns exactly for the blocks that have a
    [blockInfo] and whose transactions [convertToTx] all accepts; a block
    without [blockInfo] is refused with "Block has no blockInfo" before
    its transactions are looked at. *)
Theorem convertToBlock_returns_iff (block : proto.Block.t) :
  ((exists r, convertToBlock block = Ok r)
   <-> proto.Block.blockInfo block <> None
       /\ Forall tx_convertible (proto.Block.txs block))
  /\ (proto.Block.blockInfo block = None ->
      convertToBlock block = Throw (JsError "Block has no blockInfo"))
  /\ (forall r,
         convertToBlock block = Ok r ->
         List.length (Block.txs r) = List.length (proto.Block.txs block)
         /\ exists blockInfo,
              proto.Block.blockInfo block = Some blockInfo
              /\ Block.blockInfo r = convertToBlockInfo blockInfo).
Proof.
  unfold convertToBlock.
  assert (Htxs : (exists l, mapM convertToTx (proto.Block.txs block) = Ok l)
                 <-> Forall tx_convertible (proto.Block.txs block)).
  { rewrite mapM_Ok_iff. split; apply Forall_impl; intros a; apply convertToTx_iff. }
  destruct (proto.Block.blockInfo block) as [blockInfo|].
  - split; [|split; [discriminate|]].
    + rewrite <- Htxs.
      destruct (mapM convertToTx (proto.Block.txs block)) as [txs|]; cbn [bind].
      * split; [intros _; split; [discriminate | eauto] | eauto].
      * split; [intros [r H]; discriminate | intros [_ [l H]]; discriminate].
    + intros r.
      destruct (mapM convertToTx (proto.Block.txs block)) as [txs|] eqn:E; cbn [bind];
        [|discriminate].
      intros [= <-]. cbn [Block.txs Block.blockInfo].
      split; [exact (proj1 (mapM_nth_error _ _ _ E)) | eauto].
  - split; [|split; [reflexivity | discriminate]].
    split; [intros [r H]; discriminate | intros [H _]; contradiction].
Qed.

(** ** index.ts: more on [WsEndpoint] *)

Lemma subUnsub_Ok b t p payload ws (e : WsEndpoint.t) :
  hex.fromHex p = Ok payload -> WsEndpoint._ws e = Some ws ->
  WsEndpoint.readyState e = WsEndpoint.OPEN ->
  WsEndpoint._subUnsub b t p e
  = (Ok tt, WsEndpoint.emit (WsEndpoint.Send ws (WsEndpoint.frame b t payload)) e).
Proof.
  intros Hp Hws Hopen. unfold WsEndpoint._subUnsub, WsEndpoint.WebSocket_send.
  now rewrite Hp, Hws, Hopen.
Qed.

Lemma subUnsub_connecting b t p payload ws (e : WsEndpoint.t) :
  hex.fromHex p = Ok payload -> WsEndpoint._ws e = Some ws ->
  WsEndpoint.readyState e = WsEndpoint.CONNECTING ->
  WsEndpoint._subUnsub b t p e = (Throw WsEndpoint.not_open, e).
Proof.
  intros Hp Hws Hc. unfold WsEndpoint._subUnsub, WsEndpoint.WebSocket_send.
  now rewrite Hp, Hws, Hc.
Qed.

Lemma subUnsub_Throw b t p err (e : WsEndpoint.t) :
  hex.fromHex p = Throw err -> WsEndpoint._subUnsub b t p e = (Throw err, e).
Proof. intros Hp. unfold WsEndpoint._subUnsub. now rewrite Hp. Qed.

Lemma acts_calls_readyState (calls : list WsEndpoint.action) : forall e,
  Forall is_call calls ->
  WsEndpoint.readyState (WsEndpoint.acts e calls) = WsEndpoint.readyState e.
Proof.
  unfold WsEndpoint.acts.
  induction calls as [|a l IH]; intros e H; cbn [fold_left]; [reflexivity|].
  inversion H as [|? ? Ha Hl]; subst. rewrite (IH _ Hl).
  destruct a as [t p|t p| | |]; cbn [is_call] in Ha; try contradiction;
    cbn [WsEndpoint.act]; unfold WsEndpoint.subscribe, WsEndpoint.unsubscribe;
    now rewrite subUnsub_readyState.
Qed.

(** X15: At any time after its construction an endpoint has a socket, the one
    it created last, so [subscribe] and [unsubscribe] never meet an
    undefined [_ws].  With a payload that [fromHex] reads, what they do
    depends on the state of that socket.  While it is CONNECTING, as it is
    from the construction of the endpoint, and from every reconnection,
    until the socket opens, [send] throws: the call throws the socket's
    error and nothing is sent (the list has been changed before).  When
    it is OPEN, as it is from its opening on, the call returns normally
    and sends one frame on the socket.  With a payload that [fromHex]
    refuses the call throws the error of [fromHex].  [Subscription.decode]
    reads the frame as the script type, the bytes of the payload and the
    flag of the call. *)
Theorem WsEndpoint_call_sends_frame (wsUrl : string) (config_onReconnect : bool)
    (history : list WsEndpoint.action) (scriptType scriptPayload : string) :
  let e := WsEndpoint.acts (WsEndpoint.new wsUrl config_onReconnect) history in
  let ws := Nat.pred (WsEndpoint.sockets e) in
  let subscribed := WsEndpoint.subscribe scriptType scriptPayload e in
  let unsubscribed := WsEndpoint.unsubscribe scriptType scriptPayload e in
  WsEndpoint._ws e = Some ws
  /\ (forall payload,
         hex.fromHex scriptPayload = Ok payload ->
         (WsEndpoint.readyState e = WsEndpoint.CONNECTING ->
          (fst subscribed = Throw WsEndpoint.not_open
           /\ WsEndpoint.trace (snd subscribed) = WsEndpoint.trace e)
          /\ (fst unsubscribed = Throw WsEndpoint.not_open
              /\ WsEndpoint.trace (snd unsubscribed) = WsEndpoint.trace e))
         /\ (WsEndpoint.readyState e = WsEndpoint.OPEN ->
             (fst subscribed = Ok tt
              /\ WsEndpoint.trace (snd subscribed)
                 = WsEndpoint.trace e
                   ++ [WsEndpoint.Send ws (WsEndpoint.frame true scriptType payload)])
             /\ (fst unsubscribed = Ok tt
                 /\ WsEndpoint.trace (snd unsubscribed)
                    = WsEndpoint.trace e
                      ++ [WsEndpoint.Send ws
                            (WsEndpoint.frame false scriptType payload)])))
  /\ (forall err,
         hex.fromHex scriptPayload = Throw err ->
         fst subscribed = Throw err /\ fst unsubscribed = Throw err)
  /\ (WsEndpoint.readyState (WsEndpoint.new wsUrl config_onReconnect)
      = WsEndpoint.CONNECTING
      /\ (WsEndpoint._closed e = false ->
          WsEndpoint.readyState (WsEndpoint.act e WsEndpoint.SocketClosed)
          = WsEndpoint.CONNECTING)
      /\ (WsEndpoint.readyState e = WsEndpoint.CONNECTING ->
          WsEndpoint.readyState (WsEndpoint.act e WsEndpoint.SocketOpened)
          = WsEndpoint.OPEN)
      /\ (forall calls,
             Forall is_call calls ->
             WsEndpoint.readyState (WsEndpoint.acts e calls) = WsEndpoint.readyState e))
  /\ (forall payload isSubscribe,
         fits (list_byte_of_string scriptType) -> fits payload ->
         decode_bytes proto.Subscription.decode
           (WsEndpoint.frame isSubscribe scriptType payload)
         = Ok (proto.Subscription.mk scriptType payload isSubscribe)).
Proof.
  intros e ws subscribed unsubscribed.
  pose proof (acts_inv wsUrl config_onReconnect history _
                (new_inv wsUrl config_onReconnect)) as (_ & _ & Hws).
  fold e in Hws. fold ws in Hws.
  split; [exact Hws|]. split; [|split; [|split; [|]]].
  - intros payload Hp. split; intros Hs; split.
    + unfold subscribed, WsEndpoint.subscribe.
      rewrite (subUnsub_connecting true scriptType scriptPayload payload ws);
        [split; reflexivity | exact Hp | exact Hws | exact Hs].
    + unfold unsubscribed, WsEndpoint.unsubscribe.
      rewrite (subUnsub_connecting false scriptType scriptPayload payload ws);
        [split; reflexivity | exact Hp | exact Hws | exact Hs].
    + unfold subscribed, WsEndpoint.subscribe.
      rewrite (subUnsub_Ok true scriptType scriptPayload payload ws);
        [split; reflexivity | exact Hp | exact Hws | exact Hs].
    + unfold unsubscribed, WsEndpoint.unsubscribe.
      rewrite (subUnsub_Ok false scriptType scriptPayload payload ws);
        [split; reflexivity | exact Hp | exact Hws | exact Hs].
  - intros err Hp. split.
    + unfold subscribed, WsEndpoint.subscribe.
      now rewrite (subUnsub_Throw true _ _ err _ Hp).
    + unfold unsubscribed, WsEndpoint.unsubscribe.
      now rewrite (subUnsub_Throw false _ _ err _ Hp).
  - split; [reflexivity|]. split; [|split].
    + intros Hc. cbn [WsEndpoint.act]. unfold WsEndpoint.onclose.
      cbn [WsEndpoint.with_readyState WsEndpoint._closed WsEndpoint.onReconnect].
      rewrite Hc. now destruct (WsEndpoint.onReconnect e).
    + intros Hs. cbn [WsEndpoint.act]. rewrite Hs. unfold WsEndpoint.onopen.
      now rewrite resubscribe_readyState.
    + intros calls Hcalls. now apply acts_calls_readyState.
  - intros payload isSubscribe Ht Hfit. unfold WsEndpoint.frame.
    apply (roundtrips_decodes_back _ _ _ _ _ Subscription_encode_wire
             Subscription_roundtrips).
    repeat split; assumption.
Qed.

Lemma WsEndpoint_call_sends_frame_witness :
  let fresh := WsEndpoint.new "ws://localhost/ws" false in
  let e :=
    WsEndpoint.acts fresh
      [WsEndpoint.SocketOpened; WsEndpoint.SocketClosed; WsEndpoint.SocketOpened] in
  fst (WsEndpoint.subscribe "p2pkh" "00ff" fresh) = Throw WsEndpoint.not_open
  /\ WsEndpoint.trace (snd (WsEndpoint.subscribe "p2pkh" "00ff" e))
     = WsEndpoint.trace e ++ [WsEndpoint.Send 1 (WsEndpoint.frame true "p2pkh" [x00; xff])].
Proof.
  intros fresh e. split.
  - exact (proj1 (proj1 (proj1 (proj1 (proj2 (WsEndpoint_call_sends_frame
                                                 "ws://localhost/ws" false []
                                                 "p2pkh" "00ff"))
                                  [x00; xff] eq_refl) eq_refl))).
  - exact (proj2 (proj1 (proj2 (proj1 (proj2 (WsEndpoint_call_sends_frame
                                                 "ws://localhost/ws" false
                                                 [WsEndpoint.SocketOpened;
                                                  WsEndpoint.SocketClosed;
                                                  WsEndpoint.SocketOpened]
                                                 "p2pkh" "00ff"))
                                  [x00; xff] eq_refl) eq_refl))).
Defined.

Lemma mapM_subscribe_frame_cons sub subs frames :
  mapM WsEndpoint.subscribe_frame (sub :: subs) = Ok frames ->
  exists payload frames',
    hex.fromHex (WsEndpoint.scriptPayload sub) = Ok payload
    /\ mapM WsEndpoint.subscribe_frame subs = Ok frames'
    /\ frames = WsEndpoint.frame true (WsEndpoint.scriptType sub) payload :: frames'.
Proof.
  cbn [mapM]. unfold WsEndpoint.subscribe_frame at 1.
  destruct (hex.fromHex (WsEndpoint.scriptPayload sub)) as [payload|]; cbn [bind];
    [|discriminate].
  destruct (mapM WsEndpoint.subscribe_frame subs) as [frames'|]; cbn [bind];
    [|discriminate].
  intros [= <-]. eauto.
Qed.

Lemma resubscribe_stops sub err before : forall after (e : WsEndpoint.t) ws frames,
  hex.fromHex (WsEndpoint.scriptPayload sub) = Throw err ->
  WsEndpoint._ws e = Some ws ->
  WsEndpoint.readyState e = WsEndpoint.OPEN ->
  mapM WsEndpoint.subscribe_frame before = Ok frames ->
  fst (WsEndpoint.resubscribe (before ++ sub :: after) e) = Throw err
  /\ WsEndpoint.trace (snd (WsEndpoint.resubscribe (before ++ sub :: after) e))
     = WsEndpoint.trace e ++ map (WsEndpoint.Send ws) frames.
Proof.
  induction before as [|s before IH]; intros after e ws frames Hbad Hws Hopen Hframes.
  - injection Hframes as <-. cbn [app WsEndpoint.resubscribe map].
    rewrite (subUnsub_Throw true _ _ err e Hbad). cbn [fst snd].
    now rewrite app_nil_r.
  - destruct (mapM_subscribe_frame_cons _ _ _ Hframes) as (payload & frames' & Hp & Hf & ->).
    cbn [app WsEndpoint.resubscribe map].
    rewrite (subUnsub_Ok true _ _ payload ws e Hp Hws Hopen).
    destruct (IH after
                (WsEndpoint.emit
                   (WsEndpoint.Send ws
                      (WsEndpoint.frame true (WsEndpoint.scriptType s) payload)) e)
                ws frames' Hbad Hws Hopen Hf) as [H1 H2].
    split; [exact H1|]. rewrite H2. cbn [WsEndpoint.emit WsEndpoint.trace].
    now rewrite <- app_assoc.
Qed.

(** X16: [subscribe] adds its entry to the list before it encodes the frame: a
    call whose payload [fromHex] refuses throws and sends nothing, and the
    entry stays in the list.  From then on the replay at the opening of a
    socket sends the frames of the entries before that one, throws at it
    and leaves the entries after it without a frame.  [unsubscribe] with
    the same pair throws as well, after it has removed the entry. *)
Theorem WsEndpoint_refused_payload (e : WsEndpoint.t) (scriptType scriptPayload : string)
    (err : error) :
  hex.fromHex scriptPayload = Throw err ->
  let sub := WsEndpoint.mkSub scriptType scriptPayload in
  WsEndpoint.subscribe scriptType scriptPayload e
  = (Throw err, WsEndpoint.with_subs (WsEndpoint._subs e ++ [sub]) e)
  /\ (forall (e' : WsEndpoint.t) ws before after frames,
         WsEndpoint._ws e' = Some ws ->
         WsEndpoint._subs e' = before ++ sub :: after ->
         mapM WsEndpoint.subscribe_frame before = Ok frames ->
         fst (WsEndpoint.onopen e') = Throw err
         /\ WsEndpoint.trace (snd (WsEndpoint.onopen e'))
            = WsEndpoint.trace e' ++ map (WsEndpoint.Send ws) frames)
  /\ (let unsubscribed := WsEndpoint.unsubscribe scriptType scriptPayload e in
      fst unsubscribed = Throw err
      /\ ~ In sub (WsEndpoint._subs (snd unsubscribed))
      /\ WsEndpoint.trace (snd unsubscribed) = WsEndpoint.trace e).
Proof.
  intros Hp sub. split; [|split].
  - unfold WsEndpoint.subscribe. now rewrite (subUnsub_Throw true _ _ err _ Hp).
  - intros e' ws before after frames Hws Hsubs Hframes.
    unfold WsEndpoint.onopen.
    cbn [WsEndpoint.with_readyState WsEndpoint._subs]. rewrite Hsubs.
    exact (resubscribe_stops sub err before after
             (WsEndpoint.with_readyState WsEndpoint.OPEN e') ws frames Hp Hws eq_refl
             Hframes).
  - unfold WsEndpoint.unsubscribe. rewrite (subUnsub_Throw false _ _ err _ Hp).
    cbn [fst snd WsEndpoint.with_subs WsEndpoint._subs WsEndpoint.trace].
    split; [reflexivity|]. split; [|reflexivity].
    rewrite filter_In. intros [_ H]. unfold sub in H.
    cbn [WsEndpoint.scriptType WsEndpoint.scriptPayload] in H.
    now rewrite !String.eqb_refl in H.
Qed.

Lemma WsEndpoint_refused_payload_witness :
  let e := WsEndpoint.new "ws://localhost/ws" false in
  let poisoned :=
    WsEndpoint.acts e
      [WsEndpoint.Subscribe "p2pkh" "00ff"; WsEndpoint.Subscribe "p2sh" "zz";
       WsEndpoint.Subscribe "p2pk" "abcd"; WsEndpoint.SocketClosed] in
  hex.fromHex "zz" = Throw (JsError "Invalid hex pair")
  /\ fst (WsEndpoint.onopen poisoned) = Throw (JsError "Invalid hex pair")
  /\ WsEndpoint.trace (snd (WsEndpoint.onopen poisoned))
     = WsEndpoint.trace poisoned
       ++ map (WsEndpoint.Send 1) [WsEndpoint.frame true "p2pkh" [x00; xff]].
Proof.
  intros e poisoned.
  assert (Hp : hex.fromHex "zz" = Throw (JsError "Invalid hex pair")) by reflexivity.
  split; [exact Hp|].
  exact (proj1 (proj2 (WsEndpoint_refused_payload e "p2sh" "zz" _ Hp))
           poisoned 1%nat [WsEndpoint.mkSub "p2pkh" "00ff"] [WsEndpoint.mkSub "p2pk" "abcd"]
           [WsEndpoint.frame true "p2pkh" [x00; xff]] eq_refl eq_refl eq_refl).
Defined.

(** *** The sockets of an endpoint *)

Lemma sends_appended_refl e : sends_appended e e.
Proof. exists []. now rewrite app_nil_r. Qed.

Lemma sends_appended_trans e1 e2 e3 :
  sends_appended e1 e2 -> sends_appended e2 e3 -> sends_appended e1 e3.
Proof.
  intros (s1 & E1 & F1) (s2 & E2 & F2). exists (s1 ++ s2). split.
  - now rewrite E2, E1, app_assoc.
  - apply Forall_app. now split.
Qed.

Lemma subUnsub_sends b t p (e : WsEndpoint.t) :
  sends_appended e (snd (WsEndpoint._subUnsub b t p e)).
Proof.
  unfold WsEndpoint._subUnsub, WsEndpoint.WebSocket_send.
  destruct (hex.fromHex p) as [payload|]; [|apply sends_appended_refl].
  destruct (WsEndpoint._ws e) as [ws|]; [|apply sends_appended_refl].
  destruct (WsEndpoint.readyState e); try apply sends_appended_refl;
    (eexists; split; [reflexivity|]; constructor; [eauto | constructor]).
Qed.

Lemma resubscribe_sends subs : forall (e : WsEndpoint.t),
  sends_appended e (snd (WsEndpoint.resubscribe subs e)).
Proof.
  induction subs as [|sub subs IH]; intros e; cbn [WsEndpoint.resubscribe].
  - apply sends_appended_refl.
  - pose proof (subUnsub_sends true (WsEndpoint.scriptType sub)
                  (WsEndpoint.scriptPayload sub) e) as H.
    destruct (WsEndpoint._subUnsub true _ _ e) as [[[]|err] e1]; cbn [snd] in *.
    + exact (sends_appended_trans _ _ _ H (IH e1)).
    + exact H.
Qed.

Lemma sends_appended_counts e e' :
  sends_appended e e' ->
  opened_urls (WsEndpoint.trace e') = opened_urls (WsEndpoint.trace e)
  /\ reconnects (WsEndpoint.trace e') = reconnects (WsEndpoint.trace e).
Proof.
  intros (sends & -> & F). unfold opened_urls, reconnects.
  rewrite flat_map_app, filter_app, length_app.
  enough (G : flat_map
                (fun ev => match ev with WsEndpoint.NewWebSocket _ url => [url] | _ => [] end)
                sends = []
              /\ filter (fun ev => match ev with WsEndpoint.OnReconnect => true | _ => false end)
                   sends = []).
  { destruct G as [-> ->]. cbn. now rewrite app_nil_r, Nat.add_0_r. }
  induction F as [|ev sends (id & frame & ->) _ [IH1 IH2]]; cbn; [now split|].
  now rewrite IH1, IH2.
Qed.

Lemma sockets_inv_sends wsUrl cfg (e e' : WsEndpoint.t) :
  sent_only e e' -> sends_appended e e' ->
  WsEndpoint_sockets_inv wsUrl cfg e -> WsEndpoint_sockets_inv wsUrl cfg e'.
Proof.
  intros (_ & _ & _ & Hs & Hu & Hc & Ho) Ha (I1 & I2 & I3 & I4 & I5 & I6).
  destruct (sends_appended_counts e e' Ha) as [C1 C2].
  unfold WsEndpoint_sockets_inv. rewrite Hs, Hu, Hc, Ho, C1, C2. auto 10.
Qed.

Lemma with_subs_sent_only subs (e e' : WsEndpoint.t) :
  sent_only (WsEndpoint.with_subs subs e) e' ->
  WsEndpoint._ws e' = WsEndpoint._ws e
  /\ WsEndpoint._closed e' = WsEndpoint._closed e
  /\ WsEndpoint.sockets e' = WsEndpoint.sockets e
  /\ WsEndpoint._wsUrl e' = WsEndpoint._wsUrl e
  /\ WsEndpoint.onReconnect e' = WsEndpoint.onReconnect e
  /\ WsEndpoint.opened (WsEndpoint.trace e') = WsEndpoint.opened (WsEndpoint.trace e).
Proof. intros (_ & H). exact H. Qed.

Lemma trace_snoc (tr : list WsEndpoint.effect) (ev : WsEndpoint.effect) :
  WsEndpoint.opened (tr ++ [ev])
  = WsEndpoint.opened tr
    ++ match ev with WsEndpoint.NewWebSocket id _ => [id] | _ => [] end
  /\ opened_urls (tr ++ [ev])
     = opened_urls tr ++ match ev with WsEndpoint.NewWebSocket _ url => [url] | _ => [] end
  /\ reconnects (tr ++ [ev])
     = (reconnects tr + match ev with WsEndpoint.OnReconnect => 1 | _ => 0 end)%nat.
Proof.
  unfold WsEndpoint.opened, opened_urls, reconnects.
  rewrite !flat_map_app, filter_app, length_app.
  cbn [flat_map filter]. rewrite !app_nil_r. now destruct ev.
Qed.

Lemma act_opened_sends (e : WsEndpoint.t) :
  sends_appended e (WsEndpoint.act e WsEndpoint.SocketOpened).
Proof.
  cbn [WsEndpoint.act].
  destruct (WsEndpoint.readyState e); try apply sends_appended_refl.
  unfold WsEndpoint.onopen.
  exact (resubscribe_sends (WsEndpoint._subs e)
           (WsEndpoint.with_readyState WsEndpoint.OPEN e)).
Qed.

Lemma act_sockets_inv wsUrl cfg (e : WsEndpoint.t) (a : WsEndpoint.action) :
  WsEndpoint_sockets_inv wsUrl cfg e -> WsEndpoint_sockets_inv wsUrl cfg (WsEndpoint.act e a).
Proof.
  intros I. pose proof I as (I1 & I2 & I3 & I4 & I5 & I6).
  destruct a as [t p|t p| | |]; cbn [WsEndpoint.act].
  - unfold WsEndpoint.subscribe.
    set (e1 := WsEndpoint.with_subs _ e).
    pose proof (with_subs_sent_only _ e _ (subUnsub_sent_only true t p e1))
      as (_ & _ & Hs & Hu & Hc & Ho).
    destruct (sends_appended_counts _ _ (subUnsub_sends true t p e1)) as [C1 C2].
    unfold WsEndpoint_sockets_inv. rewrite Hs, Hu, Hc, Ho, C1, C2. auto 10.
  - unfold WsEndpoint.unsubscribe.
    set (e1 := WsEndpoint.with_subs _ e).
    pose proof (with_subs_sent_only _ e _ (subUnsub_sent_only false t p e1))
      as (_ & _ & Hs & Hu & Hc & Ho).
    destruct (sends_appended_counts _ _ (subUnsub_sends false t p e1)) as [C1 C2].
    unfold WsEndpoint_sockets_inv. rewrite Hs, Hu, Hc, Ho, C1, C2. auto 10.
  - unfold WsEndpoint.close. cbn [WsEndpoint._ws].
    destruct (WsEndpoint._ws e) as [ws|]; unfold WsEndpoint_sockets_inv;
      cbn [WsEndpoint.emit WsEndpoint.with_readyState WsEndpoint.trace WsEndpoint._wsUrl
           WsEndpoint.onReconnect WsEndpoint.sockets]; [|auto 10].
    destruct (trace_snoc (WsEndpoint.trace e) (WsEndpoint.CloseSocket ws))
      as (-> & -> & ->).
    rewrite !app_nil_r, Nat.add_0_r. auto 10.
  - exact (sockets_inv_sends wsUrl cfg _ _ (act_opened_sent_only e)
             (act_opened_sends e) I).
  - unfold WsEndpoint.onclose.
    cbn [WsEndpoint.with_readyState WsEndpoint._closed WsEndpoint.onReconnect].
    destruct (WsEndpoint._closed e); [exact I|].
    rewrite I2. unfold WsEndpoint_sockets_inv.
    assert (Hrep : repeat wsUrl (S (WsEndpoint.sockets e))
                   = repeat wsUrl (WsEndpoint.sockets e) ++ [wsUrl]).
    { cbn [repeat]. apply repeat_cons. }
    destruct cfg;
      cbn [WsEndpoint._connect WsEndpoint.emit WsEndpoint.with_readyState
           WsEndpoint.trace WsEndpoint._wsUrl WsEndpoint.onReconnect WsEndpoint.sockets].
    + destruct (trace_snoc (WsEndpoint.trace e ++ [WsEndpoint.OnReconnect])
                  (WsEndpoint.NewWebSocket (WsEndpoint.sockets e) (WsEndpoint._wsUrl e)))
        as (-> & -> & ->).
      destruct (trace_snoc (WsEndpoint.trace e) WsEndpoint.OnReconnect) as (-> & -> & ->).
      rewrite !app_nil_r, Nat.add_0_r, I1, I4, I5, I6, seq_S, Hrep.
      repeat split; auto; lia.
    + destruct (trace_snoc (WsEndpoint.trace e)
                  (WsEndpoint.NewWebSocket (WsEndpoint.sockets e) (WsEndpoint._wsUrl e)))
        as (-> & -> & ->).
      rewrite Nat.add_0_r, I1, I4, I5, I6, seq_S, Hrep.
      repeat split; auto; lia.
Qed.

Lemma acts_sockets_inv wsUrl cfg (l : list WsEndpoint.action) : forall e,
  WsEndpoint_sockets_inv wsUrl cfg e -> WsEndpoint_sockets_inv wsUrl cfg (WsEndpoint.acts e l).
Proof.
  unfold WsEndpoint.acts. induction l as [|a l IH]; intros e I; cbn [fold_left].
  - exact I.
  - apply IH, act_sockets_inv, I.
Qed.

Lemma new_sockets_inv wsUrl cfg :
  WsEndpoint_sockets_inv wsUrl cfg (WsEndpoint.new wsUrl cfg).
Proof. unfold WsEndpoint_sockets_inv. cbn. destruct cfg; repeat split; lia. Qed.

Lemma acts_sockets (l : list WsEndpoint.action) : forall e,
  WsEndpoint.sockets (WsEndpoint.acts e l)
  = (WsEndpoint.sockets e
     + if WsEndpoint._closed e then 0 else closings_before_close l)%nat.
Proof.
  unfold WsEndpoint.acts.
  induction l as [|a l IH]; intros e; cbn [fold_left closings_before_close].
  - destruct (WsEndpoint._closed e); lia.
  - rewrite IH. destruct a as [t p|t p| | |].
    + destruct (act_call_sent_only e (WsEndpoint.Subscribe t p) I) as (_ & -> & -> & _).
      reflexivity.
    + destruct (act_call_sent_only e (WsEndpoint.Unsubscribe t p) I) as (_ & -> & -> & _).
      reflexivity.
    + cbn [WsEndpoint.act]. unfold WsEndpoint.close. cbn [WsEndpoint._ws].
      destruct (WsEndpoint._ws e); cbn; destruct (WsEndpoint._closed e); lia.
    + destruct (act_opened_sent_only e) as (_ & _ & -> & -> & _).
      reflexivity.
    + cbn [WsEndpoint.act]. unfold WsEndpoint.onclose.
      cbn [WsEndpoint.with_readyState WsEndpoint._closed WsEndpoint.onReconnect].
      destruct (WsEndpoint._closed e) eqn:Ec; [cbn; now rewrite Ec|].
      destruct (WsEndpoint.onReconnect e); cbn; rewrite Ec; lia.
Qed.

(** X17: The sockets of an endpoint, after any calls and socket events: it has
    opened one socket at its construction and one more for each closing of
    a socket that came before the first [close()], numbered in that order
    and all to the url it was given; the current socket is the last of
    them; and [config.onReconnect], when it is defined, has been called
    once for each socket but the first. *)
Theorem WsEndpoint_sockets (wsUrl : string) (config_onReconnect : bool)
    (history : list WsEndpoint.action) :
  let e := WsEndpoint.acts (WsEndpoint.new wsUrl config_onReconnect) history in
  let n := closings_before_close history in
  WsEndpoint.opened (WsEndpoint.trace e) = seq 0 (S n)
  /\ opened_urls (WsEndpoint.trace e) = repeat wsUrl (S n)
  /\ WsEndpoint._ws e = Some n
  /\ reconnects (WsEndpoint.trace e) = if config_onReconnect then n else 0%nat.
Proof.
  intros e n.
  pose proof (acts_sockets_inv wsUrl config_onReconnect history _
                (new_sockets_inv wsUrl config_onReconnect)) as (_ & _ & _ & I4 & I5 & I6).
  pose proof (acts_inv wsUrl config_onReconnect history _
                (new_inv wsUrl config_onReconnect)) as (_ & _ & Hws).
  pose proof (acts_sockets history (WsEndpoint.new wsUrl config_onReconnect)) as Hn.
  fold e in I4, I5, I6, Hws, Hn. cbn in Hn. fold n in Hn.
  rewrite Hn in *. auto.
Qed.

(** *** The subscription list is no counter *)

Lemma filter_filter_same {A : Type} (f : A -> bool) (l : list A) :
  filter f (filter f l) = filter f l.
Proof.
  induction l as [|a l IH]; [reflexivity|]. cbn [filter].
  destruct (f a) eqn:E; cbn [filter]; [rewrite E, IH|]; auto.
Qed.

(** X18: One [unsubscribe] undoes any number of [subscribe] calls with the same
    pair: after [n] such calls, [unsubscribe] leaves the list that it
    leaves without them; in particular a pair that was not in the list is
    gone after it, however often it was subscribed, and a second
    [unsubscribe] changes nothing in the list. *)
Theorem WsEndpoint_unsubscribe_cancels_all (e : WsEndpoint.t)
    (scriptType scriptPayload : string) (n : nat) :
  let subscribe := fun e => snd (WsEndpoint.subscribe scriptType scriptPayload e) in
  let unsubscribe := fun e => snd (WsEndpoint.unsubscribe scriptType scriptPayload e) in
  WsEndpoint._subs (unsubscribe (Nat.iter n subscribe e)) = WsEndpoint._subs (unsubscribe e)
  /\ WsEndpoint._subs (unsubscribe (unsubscribe e)) = WsEndpoint._subs (unsubscribe e)
  /\ List.length (WsEndpoint._subs (Nat.iter n subscribe e))
     = (List.length (WsEndpoint._subs e) + n)%nat.
Proof.
  intros subscribe unsubscribe.
  set (keep := fun s : WsEndpoint.Sub =>
                 negb (WsEndpoint.scriptType s =? scriptType)%string
                 || negb (WsEndpoint.scriptPayload s =? scriptPayload)%string).
  assert (Hun : forall e, WsEndpoint._subs (unsubscribe e) = filter keep (WsEndpoint._subs e)).
  { intros e0. unfold unsubscribe, WsEndpoint.unsubscribe.
    now rewrite (proj1 (subUnsub_fields false _ _ _)). }
  assert (Hsub : forall e,
             WsEndpoint._subs (subscribe e)
             = WsEndpoint._subs e ++ [WsEndpoint.mkSub scriptType scriptPayload]).
  { intros e0. unfold subscribe, WsEndpoint.subscribe.
    now rewrite (proj1 (subUnsub_fields true _ _ _)). }
  assert (Hiter : WsEndpoint._subs (Nat.iter n subscribe e)
                  = WsEndpoint._subs e
                    ++ repeat (WsEndpoint.mkSub scriptType scriptPayload) n).
  { induction n as [|n IH]; cbn [Nat.iter nat_rect repeat].
    - now rewrite app_nil_r.
    - fold (Nat.iter n subscribe e). rewrite Hsub, IH, <- app_assoc.
      f_equal. symmetry. apply repeat_cons. }
  split; [|split].
  - rewrite !Hun, Hiter, filter_app.
    assert (E : filter keep (repeat (WsEndpoint.mkSub scriptType scriptPayload) n) = []).
    { clear Hiter. induction n as [|n IH]; [reflexivity|]. cbn [repeat filter].
      unfold keep at 1. cbn [WsEndpoint.scriptType WsEndpoint.scriptPayload].
      rewrite !String.eqb_refl. exact IH. }
    now rewrite E, app_nil_r.
  - rewrite !Hun. apply filter_filter_same.
  - rewrite Hiter, length_app, repeat_length. reflexivity.
Qed.

(** *** Reconnection *)

(** X22: When the socket of an endpoint closes and [close()] has not been
    called, the endpoint reconnects: it calls [config.onReconnect], if
    there is one, and opens a new socket to its url, which becomes its
    current one, is CONNECTING, and stays so over later calls of
    [subscribe] and [unsubscribe].  When that socket opens and every
    payload then in the subscription list is one that [fromHex] reads, the
    endpoint sends on it one subscribe frame for every entry of the list,
    in the order of the list, and leaves the list as it is.  Once
    [close()] has been called, the closing of the socket opens nothing,
    and the endpoint never opens a socket again. *)
Theorem WsEndpoint_reconnect_readable_list (wsUrl : string) (config_onReconnect : bool)
    (history : list WsEndpoint.action) :
  let e := WsEndpoint.acts (WsEndpoint.new wsUrl config_onReconnect) history in
  (~ In WsEndpoint.Close history ->
   let ws := WsEndpoint.sockets e in
   let reconnected := WsEndpoint.onclose e in
   WsEndpoint.trace reconnected
   = WsEndpoint.trace e
     ++ (if config_onReconnect then [WsEndpoint.OnReconnect] else [])
     ++ [WsEndpoint.NewWebSocket ws wsUrl]
   /\ WsEndpoint._ws reconnected = Some ws
   /\ WsEndpoint._subs reconnected = WsEndpoint._subs e
   /\ forall calls frames,
        Forall is_call calls ->
        let opening := WsEndpoint.acts reconnected calls in
        mapM WsEndpoint.subscribe_frame (WsEndpoint._subs opening) = Ok frames ->
        WsEndpoint._ws opening = Some ws
        /\ WsEndpoint.readyState opening = WsEndpoint.CONNECTING
        /\ fst (WsEndpoint.onopen opening) = Ok tt
        /\ WsEndpoint.trace (snd (WsEndpoint.onopen opening))
           = WsEndpoint.trace opening ++ map (WsEndpoint.Send ws) frames
        /\ WsEndpoint._subs (snd (WsEndpoint.onopen opening))
           = WsEndpoint._subs opening)
  /\ (In WsEndpoint.Close history ->
      WsEndpoint.trace (WsEndpoint.onclose e) = WsEndpoint.trace e
      /\ WsEndpoint._ws (WsEndpoint.onclose e) = WsEndpoint._ws e
      /\ forall later,
           WsEndpoint.opened (WsEndpoint.trace (WsEndpoint.acts e later))
           = WsEndpoint.opened (WsEndpoint.trace e)).
Proof.
  intros e.
  pose proof (acts_inv wsUrl config_onReconnect history _
                (new_inv wsUrl config_onReconnect)) as (Hu & Hc & Hws).
  fold e in Hu, Hc, Hws.
  pose proof (acts_closed history (WsEndpoint.new wsUrl config_onReconnect)) as Hcl.
  fold e in Hcl. cbn [WsEndpoint.new WsEndpoint._connect WsEndpoint.emit
                      WsEndpoint._closed] in Hcl.
  split.
  - intros Hnot ws reconnected.
    assert (Eo : WsEndpoint._closed e = false).
    { destruct (WsEndpoint._closed e); [|reflexivity].
      destruct (proj1 Hcl eq_refl); [discriminate | contradiction]. }
    assert (Er : WsEndpoint._ws reconnected = Some ws
                 /\ WsEndpoint.readyState reconnected = WsEndpoint.CONNECTING
                 /\ WsEndpoint._subs reconnected = WsEndpoint._subs e).
    { unfold reconnected, WsEndpoint.onclose.
      cbn [WsEndpoint.with_readyState WsEndpoint._closed WsEndpoint.onReconnect].
      rewrite Eo. now destruct (WsEndpoint.onReconnect e). }
    destruct Er as (Er & Es & El).
    split; [|split; [exact Er | split; [exact El|]]].
    + unfold reconnected, WsEndpoint.onclose.
      cbn [WsEndpoint.with_readyState WsEndpoint._closed WsEndpoint.onReconnect].
      rewrite Eo, Hc.
      destruct config_onReconnect;
        cbn [WsEndpoint._connect WsEndpoint.emit WsEndpoint.trace WsEndpoint.sockets
             WsEndpoint._wsUrl WsEndpoint.with_readyState];
        rewrite Hu; [now rewrite <- app_assoc | reflexivity].
    + intros calls frames Hcalls opening Hframes.
      assert (Eop : WsEndpoint._ws opening = Some ws).
      { unfold opening. now rewrite acts_calls_ws. }
      assert (Eos : WsEndpoint.readyState opening = WsEndpoint.CONNECTING).
      { unfold opening. now rewrite acts_calls_readyState. }
      split; [exact Eop|]. split; [exact Eos|].
      unfold WsEndpoint.onopen.
      destruct (resubscribe_trace (WsEndpoint._subs opening)
                  (WsEndpoint.with_readyState WsEndpoint.OPEN opening) ws frames
                  Eop eq_refl Hframes) as [H1 H2].
      split; [exact H1 | split; [exact H2|]].
      apply (resubscribe_sent_only (WsEndpoint._subs opening)
               (WsEndpoint.with_readyState WsEndpoint.OPEN opening)).
  - intros Hin.
    assert (Eo : WsEndpoint._closed e = true) by (apply Hcl; now right).
    split; [|split].
    + unfold WsEndpoint.onclose. cbn [WsEndpoint.with_readyState WsEndpoint._closed].
      now rewrite Eo.
    + unfold WsEndpoint.onclose. cbn [WsEndpoint.with_readyState WsEndpoint._closed].
      now rewrite Eo.
    + intros later. now apply acts_closed_opened.
Qed.

Lemma WsEndpoint_reconnect_readable_list_witness :
  let history :=
    [WsEndpoint.Subscribe "p2pkh" "00ff"; WsEndpoint.SocketOpened;
     WsEndpoint.Subscribe "p2sh" "abcd"] in
  let e := WsEndpoint.acts (WsEndpoint.new "ws://localhost/ws" true) history in
  let ws := WsEndpoint.sockets e in
  let opening := WsEndpoint.acts (WsEndpoint.onclose e) [] in
  ~ In WsEndpoint.Close history
  /\ WsEndpoint._ws (WsEndpoint.onclose e) = Some ws
  /\ fst (WsEndpoint.onopen opening) = Ok tt
  /\ WsEndpoint.trace (snd (WsEndpoint.onopen opening))
     = WsEndpoint.trace opening
       ++ map (WsEndpoint.Send ws)
            [WsEndpoint.frame true "p2pkh" [x00; xff];
             WsEndpoint.frame true "p2sh" [xab; xcd]].
Proof.
  intros history e ws opening.
  assert (H : ~ In WsEndpoint.Close history).
  { cbn. intros [H | [H | [H | []]]]; discriminate H. }
  split; [exact H|].
  destruct (proj1 (WsEndpoint_reconnect_readable_list "ws://localhost/ws" true history) H)
    as (_ & Hws & _ & Hopen).
  split; [exact Hws|].
  assert (Hframes :
            mapM WsEndpoint.subscribe_frame (WsEndpoint._subs opening)
            = Ok [WsEndpoint.frame true "p2pkh" [x00; xff];
                  WsEndpoint.frame true "p2sh" [xab; xcd]])
    by (vm_compute; reflexivity).
  destruct (Hopen [] _ (Forall_nil _) Hframes) as (_ & _ & H1 & H2 & _).
  split; [exact H1 | exact H2].
Defined.

(** ** index.ts: [ChronikClient.ws] *)

Lemma endsWith_false_new (url : string) :
  endsWith url "/" = false ->
  forall rest,
    (url = ("https://" ++ rest)%string ->
     ChronikClient_new url = Ok (mkClient url ("wss://" ++ rest)))
    /\ (url = ("http://" ++ rest)%string ->
        ChronikClient_new url = Ok (mkClient url ("ws://" ++ rest))).
Proof.
  intros He rest. unfold ChronikClient_new. rewrite He. split; intros Hu.
  - assert (Hs : startsWith url "https://" = true) by (apply startsWith_spec; eauto).
    rewrite Hs. do 2 f_equal. rewrite Hu. f_equal. apply (substr_app "https://").
  - assert (Hn : startsWith url "https://" = false).
    { rewrite Hu. unfold startsWith. cbn. now destruct rest as [|[[] [] [] [] [] [] [] []] rest]. }
    assert (Hs : startsWith url "http://" = true) by (apply startsWith_spec; eauto).
    rewrite Hn, Hs. do 2 f_equal. rewrite Hu. f_equal. apply (substr_app "http://").
Qed.

(** X19: The websocket endpoint of a client: for a url [https://rest] (or
    [http://rest]) that does not end with '/', the constructor succeeds
    and [ws(config)] returns an endpoint whose first act, and only one so
    far, is to open a socket to [wss://rest/ws] (or [ws://rest/ws]). *)
Theorem ChronikClient_ws_url (url rest : string) (config_onReconnect : bool) :
  endsWith url "/" = false ->
  (url = ("https://" ++ rest)%string ->
   exists client,
     ChronikClient_new url = Ok client
     /\ WsEndpoint.trace (ChronikClient_ws client config_onReconnect)
        = [WsEndpoint.NewWebSocket 0 ("wss://" ++ rest ++ "/ws")])
  /\ (url = ("http://" ++ rest)%string ->
      exists client,
        ChronikClient_new url = Ok client
        /\ WsEndpoint.trace (ChronikClient_ws client config_onReconnect)
           = [WsEndpoint.NewWebSocket 0 ("ws://" ++ rest ++ "/ws")]).
Proof.
  intros He. destruct (endsWith_false_new url He rest) as [H1 H2].
  split; intros Hu; eexists; (split; [auto|]); cbn.
  - reflexivity.
  - reflexivity.
Qed.

Lemma ChronikClient_ws_url_witness :
  exists client,
    ChronikClient_new "https://chronik.be.cash/xec" = Ok client
    /\ WsEndpoint.trace (ChronikClient_ws client true)
       = [WsEndpoint.NewWebSocket 0 "wss://chronik.be.cash/xec/ws"].
Proof.
  exact (proj1 (ChronikClient_ws_url "https://chronik.be.cash/xec" "chronik.be.cash/xec"
                  true eq_refl) eq_refl).
Defined.

(** ** index.ts: [validateUtxos] and a txid it cannot parse *)

Lemma mapM_first_Throw {A B : Type} (f : A -> result B) (before after : list A) (a : A)
    (err : error) :
  Forall (fun x => exists b, f x = Ok b) before -> f a = Throw err ->
  mapM f (before ++ a :: after) = Throw err.
Proof.
  intros Hb Ha. induction Hb as [|x before [b Hx] _ IH]; cbn [app mapM].
  - now rewrite Ha.
  - now rewrite Hx, IH.
Qed.

(** X20: [validateUtxos] builds the whole request before it sends it: when
    [fromHexRev] refuses the txid of one of the outpoints and reads the
    txids of all the outpoints before it, the call throws the error of
    that outpoint, the first refused, whatever outpoints come after it
    and whatever the server would answer; no state is returned for any
    outpoint. *)
Theorem validateUtxos_refused_txid (before after : list OutPoint.t) (refused : OutPoint.t)
    (err : error) :
  Forall (fun outpoint => exists txid, hex.fromHexRev (OutPoint.txid outpoint) = Ok txid)
    before ->
  hex.fromHexRev (OutPoint.txid refused) = Throw err ->
  forall axios client,
    ChronikClient_validateUtxos axios client (before ++ refused :: after) = Throw err.
Proof.
  intros Hbefore Herr axios client.
  unfold ChronikClient_validateUtxos, validateUtxos_request.
  rewrite (mapM_first_Throw validateUtxos_outpoint before after refused err);
    [reflexivity | | unfold validateUtxos_outpoint; now rewrite Herr].
  apply (Forall_impl _ (P := fun outpoint =>
                               exists txid,
                                 hex.fromHexRev (OutPoint.txid outpoint) = Ok txid));
    [|exact Hbefore].
  intros outpoint [txid Ht]. unfold validateUtxos_outpoint. rewrite Ht. cbn [bind]. eauto.
Qed.

Lemma validateUtxos_refused_txid_witness :
  let outpoints :=
    [OutPoint.mk "0201" 0; OutPoint.mk "zz" 1; OutPoint.mk "ffee" 3; OutPoint.mk "0" 4] in
  hex.fromHexRev "0201" = Ok [x01; x02]
  /\ (exists err, hex.fromHexRev "zz" = Throw err
      /\ forall axios client, ChronikClient_validateUtxos axios client outpoints = Throw err).
Proof.
  intros outpoints. split; [reflexivity|].
  eexists. split; [reflexivity|].
  apply (validateUtxos_refused_txid [OutPoint.mk "0201" 0]
           [OutPoint.mk "ffee" 3; OutPoint.mk "0" 4] (OutPoint.mk "zz" 1)).
  - constructor; [|constructor]. eexists. reflexivity.
  - reflexivity.
Defined.

(** ** index.ts: the messages of the websocket *)

(** X21: [_handleMsg] on the encoding of a well-formed [SubscribeMsg]: it calls
    [onMessage] once, with the first of [error], [AddedToMempool],
    [RemovedFromMempool], [Confirmed] and [Reorg] that the message holds,
    the txid in reversed hex; for a message that holds none of them, the
    empty frame among these, it throws.  Without [onMessage] it returns
    at once, whatever the bytes. *)
Theorem handleMsg_dispatch (m : proto.SubscribeMsg.t) :
  proto.SubscribeMsg.wf m ->
  _handleMsg true (encoded proto.SubscribeMsg.encode m)
  = match proto.SubscribeMsg.error m, proto.SubscribeMsg.AddedToMempool m,
          proto.SubscribeMsg.RemovedFromMempool m, proto.SubscribeMsg.Confirmed m,
          proto.SubscribeMsg.Reorg m with
    | Some error, _, _, _, _ =>
        Ok (Some (SubscribeMsg.Error (proto.Error.errorCode error) (proto.Error.msg error)
                    (proto.Error.isUserError error)))
    | None, Some msg, _, _, _ =>
        Ok (Some (SubscribeMsg.MsgAddedToMempool
                    (hex.toHexRev (proto.MsgAddedToMempool.txid msg))))
    | None, None, Some msg, _, _ =>
        Ok (Some (SubscribeMsg.MsgRemovedFromMempool
                    (hex.toHexRev (proto.MsgRemovedFromMempool.txid msg))))
    | None, None, None, Some msg, _ =>
        Ok (Some (SubscribeMsg.MsgConfirmed (hex.toHexRev (proto.MsgConfirmed.txid msg))))
    | None, None, None, None, Some msg =>
        Ok (Some (SubscribeMsg.MsgReorg (hex.toHexRev (proto.MsgReorg.txid msg))))
    | None, None, None, None, None => Throw (JsError "Unknown message: [object Object]")
    end
  /\ _handleMsg true [] = Throw (JsError "Unknown message: [object Object]")
  /\ forall data, _handleMsg false data = Ok None.
Proof.
  intros Hwf. split; [|split; reflexivity].
  unfold _handleMsg. cbn [negb]. unfold proto.SubscribeMsg.decode.
  rewrite (decode_encoded _ _ _ _ _ m SubscribeMsg_encode_wire SubscribeMsg_roundtrips Hwf).
  cbn [bind].
  destruct (proto.SubscribeMsg.error m); [reflexivity|].
  destruct (proto.SubscribeMsg.AddedToMempool m); [reflexivity|].
  destruct (proto.SubscribeMsg.RemovedFromMempool m); [reflexivity|].
  destruct (proto.SubscribeMsg.Confirmed m); [reflexivity|].
  destruct (proto.SubscribeMsg.Reorg m); reflexivity.
Qed.

Lemma handleMsg_dispatch_witness :
  let m :=
    proto.SubscribeMsg.mk None None None (Some (proto.MsgConfirmed.mk [x01; x02]))
      (Some (proto.MsgReorg.mk [x03])) in
  proto.SubscribeMsg.wf m
  /\ _handleMsg true (encoded proto.SubscribeMsg.encode m)
     = Ok (Some (SubscribeMsg.MsgConfirmed (hex.toHexRev [x01; x02]))).
Proof.
  intros m.
  assert (Hwf : proto.SubscribeMsg.wf m) by (subst m; wf_all).
  split; [exact Hwf|].
  exact (proj1 (handleMsg_dispatch m Hwf)).
Defined.
